(** * SecurityReview: triage pipeline and deployment-context resolver

    A shallow embedding of [generate_sources/models.py], [agent.py],
    [deployment_parser.py] and the de-duplication loop of [analyze.py],
    followed by the properties of these functions.

    Conventions.  Python [int] is [Z]; Python [str] is [string], read as a
    sequence of ASCII characters (case mapping acts on the letters A-Z and
    a-z only); [Optional[T]] is [option T]; a [dict] whose iteration order
    matters is an association list in insertion order; a [set] of strings
    is a [gset string].  Calls to the classification provider are effects:
    they thread an abstract provider world and may raise. *)

From stdpp Require Import base option list gmap sets strings pretty.
From Stdlib Require Import ZArith Ascii Permutation Sorted Floats.PrimFloat.
From Stdlib Require String.

#[local] Open Scope Z_scope.

(** ** Python string operations used by the sources *)

Module PyStr.

Definition is_upper (c : ascii) : bool :=
  let n := N_of_ascii c in ((65 <=? n) && (n <=? 90))%N.

Definition is_lower (c : ascii) : bool :=
  let n := N_of_ascii c in ((97 <=? n) && (n <=? 122))%N.

Definition lower_char (c : ascii) : ascii :=
  if is_upper c then ascii_of_N (N_of_ascii c + 32) else c.

Definition upper_char (c : ascii) : ascii :=
  if is_lower c then ascii_of_N (N_of_ascii c - 32) else c.

Fixpoint map_chars (f : ascii -> ascii) (s : string) : string :=
  match s with
  | EmptyString => EmptyString
  | String c s' => String (f c) (map_chars f s')
  end.

(** [s.lower()] and [s.upper()] on a string of ASCII characters, where
    Python changes the letters A-Z and a-z and nothing else.  Outside
    ASCII Python follows Unicode (the upper case of U+00DF is "SS", the
    Kelvin sign U+212A lowers to "k"); such strings are outside this
    model, and a property that compares a string with its upper or lower
    case is stated for ASCII strings ([Domain.isascii]). *)
Definition lower : string -> string := map_chars lower_char.
Definition upper : string -> string := map_chars upper_char.

(** [s.replace(a, b)] for one-character [a] and [b]. *)
Definition replace (a b : ascii) : string -> string :=
  map_chars (fun c => if Ascii.eqb c a then b else c).

Fixpoint lstrip (p : ascii -> bool) (s : string) : string :=
  match s with
  | EmptyString => EmptyString
  | String c s' => if p c then lstrip p s' else s
  end.

Fixpoint rstrip (p : ascii -> bool) (s : string) : string :=
  match s with
  | EmptyString => EmptyString
  | String c s' =>
      match rstrip p s' with
      | EmptyString => if p c then EmptyString else String c EmptyString
      | r => String c r
      end
  end.

(** [s.strip(chars)]: drop the leading and trailing characters in [p]. *)
Definition strip (p : ascii -> bool) (s : string) : string :=
  rstrip p (lstrip p s).

Definition is_char (a : ascii) : ascii -> bool := fun c => Ascii.eqb c a.

(** ASCII part of [str.isspace]: tab, LF, VT, FF, CR, FS, GS, RS, US
    and the space. *)
Definition isspace (c : ascii) : bool :=
  let n := N_of_ascii c in
  (((9 <=? n) && (n <=? 13)) || ((28 <=? n) && (n <=? 32)))%N.

(** [s.split(sep)] for a one-character separator: never the empty list,
    empty segments are kept. *)
Fixpoint split (sep : ascii) (s : string) : list string :=
  match s with
  | EmptyString => [EmptyString]
  | String c s' =>
      if Ascii.eqb c sep then EmptyString :: split sep s'
      else match split sep s' with
           | h :: t => String c h :: t
           | [] => [String c EmptyString]
           end
  end.

(** [s.startswith(p)]. *)
Definition startswith (s p : string) : bool := String.prefix p s.

(** [sub in s]. *)
Fixpoint contains (sub s : string) : bool :=
  String.prefix sub s ||
  match s with
  | EmptyString => false
  | String _ s' => contains sub s'
  end.

(** [s[:n]]. *)
Fixpoint slice_to (n : nat) (s : string) : string :=
  match n, s with
  | S n', String c s' => String c (slice_to n' s')
  | _, _ => EmptyString
  end.

(** [sep.join(l)]. *)
Definition join (sep : string) (l : list string) : string :=
  String.concat sep l.

(** [str(n)] for an [int]. *)
Definition str_int (n : Z) : string := pretty n.

(** Truth value of a string: the empty string is falsy. *)
Definition truthy (s : string) : bool :=
  match s with EmptyString => false | _ => true end.

(** [x in l] for a list of strings. *)
Definition mem (x : string) (l : list string) : bool :=
  existsb (String.eqb x) l.

End PyStr.

(** ** models.py *)

Module Models.

Inductive RiskLevel := CRITICAL | HIGH | MEDIUM | LOW | INFO.

Definition RiskLevel_value (r : RiskLevel) : string :=
  match r with
  | CRITICAL => "critical" | HIGH => "high" | MEDIUM => "medium"
  | LOW => "low" | INFO => "info"
  end.

Definition RiskLevel_eqb (a b : RiskLevel) : bool :=
  match a, b with
  | CRITICAL, CRITICAL | HIGH, HIGH | MEDIUM, MEDIUM
  | LOW, LOW | INFO, INFO => true
  | _, _ => false
  end.

Inductive InputSource :=
| HTTP_BODY | HTTP_HEADERS | URL_PARAMS | QUERY_PARAMS | PATH_PARAMS
| GRAPHQL_ARGS | GRPC_REQUEST | WEBSOCKET | FILE_UPLOAD | COOKIES
| UNKNOWN.

Inductive VulnerabilityType :=
| SQL_INJECTION | XSS | COMMAND_INJECTION | PATH_TRAVERSAL | SSRF | XXE
| DESERIALIZATION | IDOR | MASS_ASSIGNMENT | AUTHENTICATION_BYPASS
| AUTHORIZATION_BYPASS | BUSINESS_LOGIC | OTHER.

Definition VulnerabilityType_value (v : VulnerabilityType) : string :=
  match v with
  | SQL_INJECTION => "sql_injection" | XSS => "xss"
  | COMMAND_INJECTION => "command_injection"
  | PATH_TRAVERSAL => "path_traversal" | SSRF => "ssrf" | XXE => "xxe"
  | DESERIALIZATION => "deserialization" | IDOR => "idor"
  | MASS_ASSIGNMENT => "mass_assignment"
  | AUTHENTICATION_BYPASS => "authentication_bypass"
  | AUTHORIZATION_BYPASS => "authorization_bypass"
  | BUSINESS_LOGIC => "business_logic" | OTHER => "other"
  end.

Record SecurityConcern := {
  vulnerability_type : VulnerabilityType;
  description : string;
  confidence : float;
}.

Record CodeLocation := {
  loc_file_path : string;
  loc_line_number : Z;
  loc_column : option Z;
  loc_snippet : option string;
}.

Record FunctionAnalysis := {
  function_name : string;
  location : CodeLocation;
  fa_framework : string;
  fa_language : string;
  input_sources : list InputSource;
  accepts_unauthenticated_input : bool;
  risk_level : RiskLevel;
  security_concerns : list SecurityConcern;
  endpoint_path : option string;
  http_methods : list string;
  has_input_validation : option bool;
  has_sanitization : option bool;
  has_authorization_check : option bool;
  reasoning : string;
}.

Record PrioritizedFindings := {
  total_functions_analyzed : Z;
  high_priority_count : Z;
  findings : list FunctionAnalysis;
  summary : string;
  recommendations : list string;
}.

Record AstGrepFinding := {
  file_path : string;
  line_number : Z;
  column : Z;
  rule_id : string;
  message : string;
  code_snippet : string;
  framework : string;
  language : string;
}.

End Models.

(** ** deployment_parser.py *)

Module DeploymentParser.
Import PyStr.

(** The parser reads the JSON document as nested dicts and probes them
    with [dict.get]; a key that is absent is [None] here, and the default
    of each [get] is applied where the source applies it. *)
Record ServiceInfo := {
  name : option string;
  network_exposure : option string;
  deployment_target : option string;
  upstream_services : option (list string);
  downstream_services : option (list string);
  repository_paths : option (list string);
}.

Record TrustZone := {
  tz_name : option string;
  tz_services : option (list string);
}.

Record CommunicationProtocol := {
  from_service : option string;
  to_service : option string;
  protocol : option string;
  auth_method : option string;
}.

(** [self.model]; [services] keeps the insertion order of the dict. *)
Record DeploymentModel := {
  services : list (string * ServiceInfo);
  trust_zones : list TrustZone;
  communications : list CommunicationProtocol;
  user_authentication_method : option string;
}.

(** Modelled from the spec: the class [DeploymentContext], which
    [deployment_parser.py] imports from [models] and [models.py] does not
    define.  Fields as in the data model: service_name, trust_zone?,
    network_exposure, authentication_method?, deployment_target?,
    upstream_services[], downstream_services[]. *)
Record DeploymentContext := {
  service_name : string;
  trust_zone : option string;
  ctx_network_exposure : string;
  authentication_method : option string;
  ctx_deployment_target : option string;
  ctx_upstream_services : list string;
  ctx_downstream_services : list string;
}.

(** [normalized_repo_path = repo_path.replace('\\', '/').lower().strip('/')] *)
Definition normalize_repo_path (repo_path : string) : string :=
  strip (is_char "/"%char) (lower (replace "\"%char "/"%char repo_path)).

(** [normalized_path = file_path.replace('\\', '/').lower()] *)
Definition normalize_path (file_path : string) : string :=
  lower (replace "\"%char "/"%char file_path).

(** The three locals of the matching loops. *)
Record MatchState := {
  matched_service : option ServiceInfo;
  matched_service_name : option string;
  best_match_length : Z;
}.

Definition no_match : MatchState :=
  {| matched_service := None; matched_service_name := None;
     best_match_length := 0 |}.

(** The shared body of the three branches:
    [if match_length > best_match_length: ...]. *)
Definition keep_if_longer (service_name : string) (service_info : ServiceInfo)
    (match_length : Z) (st : MatchState) : MatchState :=
  if bool_decide (match_length > best_match_length st) then
    {| matched_service := Some service_info;
       matched_service_name := Some service_name;
       best_match_length := match_length |}
  else st.

(** Body of [for repo_path in repo_paths]. *)
Definition check_repo_path (normalized_path : string)
    (path_parts : list string) (service_name : string)
    (service_info : ServiceInfo) (st : MatchState) (repo_path : string)
    : MatchState :=
  let normalized_repo_path := normalize_repo_path repo_path in
  if startswith normalized_path (normalized_repo_path +:+ "/") then
    let match_length := Z.of_nat (String.length normalized_repo_path) in
    keep_if_longer service_name service_info match_length st
  else if contains ("/" +:+ normalized_repo_path +:+ "/") normalized_path then
    let match_length := Z.of_nat (String.length normalized_repo_path) in
    keep_if_longer service_name service_info match_length st
  else if mem normalized_repo_path path_parts then
    let match_length := Z.of_nat (String.length normalized_repo_path) in
    keep_if_longer service_name service_info match_length st
  else st.

(** Body of [for service_name, service_info in self.services.items()]. *)
Definition check_service (normalized_path : string)
    (path_parts : list string) (st : MatchState)
    (entry : string * ServiceInfo) : MatchState :=
  let '(service_name, service_info) := entry in
  let repo_paths := default [] (repository_paths service_info) in
  foldl (check_repo_path normalized_path path_parts service_name service_info)
        st repo_paths.

(** The matching loops of [get_deployment_context], up to the test
    [if not matched_service]. *)
Definition find_service (m : DeploymentModel) (file_path : string)
    : MatchState :=
  let normalized_path := normalize_path file_path in
  let path_parts := split "/"%char normalized_path in
  foldl (check_service normalized_path path_parts) no_match (services m).

(** [zone.get('name')] of the first zone listing the service. *)
Fixpoint find_trust_zone (zones : list TrustZone) (service_name : string)
    : option string :=
  match zones with
  | [] => None
  | zone :: rest =>
      if mem service_name (default [] (tz_services zone)) then tz_name zone
      else find_trust_zone rest service_name
  end.

(** [comm.get('auth_method')] of the first record whose [from_service]
    is the service; the loop breaks there. *)
Fixpoint find_comm_auth (comms : list CommunicationProtocol)
    (service_name : string) : option string :=
  match comms with
  | [] => None
  | comm :: rest =>
      if bool_decide (from_service comm = Some service_name)
      then auth_method comm
      else find_comm_auth rest service_name
  end.

(** Truth value of an [Optional[str]]: [None] and [''] are falsy. *)
Definition truthy_opt (o : option string) : bool :=
  match o with Some s => truthy s | None => false end.

Definition get_deployment_context (m : DeploymentModel) (file_path : string)
    : option DeploymentContext :=
  match services m with
  | [] => None
  | _ =>
    let st := find_service m file_path in
    match matched_service st, matched_service_name st with
    | Some matched, Some matched_name =>
        let trust_zone := find_trust_zone (trust_zones m) matched_name in
        let auth := find_comm_auth (communications m) matched_name in
        let auth :=
          if truthy_opt auth then auth else user_authentication_method m in
        Some {| service_name := default matched_name (name matched);
                trust_zone := trust_zone;
                ctx_network_exposure :=
                  default "Internal only" (network_exposure matched);
                authentication_method := auth;
                ctx_deployment_target := deployment_target matched;
                ctx_upstream_services :=
                  default [] (upstream_services matched);
                ctx_downstream_services :=
                  default [] (downstream_services matched) |}
    | _, _ => None
    end
  end.

End DeploymentParser.

(** ** analyze.py: de-duplication of the scanner's findings *)

Module Analyze.
Import PyStr Models.

(** [location_key = f"{finding.file_path}:{finding.line_number}"] *)
Definition location_key (finding : AstGrepFinding) : string :=
  file_path finding +:+ ":" +:+ str_int (line_number finding).

Record DedupState := {
  seen_locations : gset string;
  unique_findings : list AstGrepFinding;
  duplicates_removed : Z;
}.

Definition dedup_init : DedupState :=
  {| seen_locations := ∅; unique_findings := []; duplicates_removed := 0 |}.

(** Body of [for finding in findings]. *)
Definition dedup_step (st : DedupState) (finding : AstGrepFinding)
    : DedupState :=
  let location_key := location_key finding in
  if bool_decide (location_key ∉ seen_locations st) then
    {| seen_locations := seen_locations st ∪ {[ location_key ]};
       unique_findings := unique_findings st ++ [finding];
       duplicates_removed := duplicates_removed st |}
  else
    {| seen_locations := seen_locations st;
       unique_findings := unique_findings st;
       duplicates_removed := duplicates_removed st + 1 |}.

Definition deduplicate (findings : list AstGrepFinding) : DedupState :=
  foldl dedup_step dedup_init findings.

End Analyze.

(** ** agent.py *)

Module Agent.
Import PyStr Models.

(** Exceptions.  Everything raised here derives from [Exception], so an
    [except Exception] clause catches each of them. *)
Inductive exn :=
| Exception (msg : string)
| UnboundLocalError (var : string).

Inductive Result (A : Type) :=
| Ok (a : A)
| Raise (e : exn).
Arguments Ok {A} a.
Arguments Raise {A} e.

(** The three [pydantic_ai.Agent] objects of [SecurityTriageAgent]:
    [run(prompt)] followed by [.output].  A call consumes and produces a
    provider world [W] (the remote service) and may raise. *)
Class Provider (W : Type) := {
  fast_filter_run : string -> W -> Result string * W;
  triage_agent_run : string -> W -> Result FunctionAnalysis * W;
  summary_agent_run : string -> W -> Result PrioritizedFindings * W;
}.

Definition nl : string := String (ascii_of_nat 10) EmptyString.
Definition fence : string := "```".

(** What is written to the terminal, one constructor per [print] that
    reports a decision or a counter. *)
Inductive Event :=
| EvQuotaReached (max_real_handlers : option Z)
    (* Reached quota of N real handlers. Stopping analysis. *)
| EvScanning (i total : Z) (path : string) (line : Z)
    (* [i/total] Scanning path:line... *)
| EvNoContext
    (* Could not read code context, skipping *)
| EvFastFiltered
    (* False positive (fast filter) *)
| EvRealHandler (risk : string) (function_name : string)
    (* RISK: function_name *)
| EvDetailedFalsePositive
    (* False positive (detailed) *)
| EvError (e : exn)
    (* Error: e *)
| EvStreamingSummary (scanned fast_filtered deep_analyzed real : Z)
| EvTriageSummary (scanned fast_filtered deep_analyzed real
                   false_positives : Z)
                  (risk_breakdown : list (string * Z)).

(** [sorted(l, key=key)]: the built-in sort is stable, and a list has
    exactly one stable sorted rearrangement; insertion from the right
    computes it. *)
Section Sorted.
Context {A : Type} (key : A -> Z).

Fixpoint insert_sorted (x : A) (l : list A) : list A :=
  match l with
  | [] => [x]
  | y :: l' =>
      if key x <=? key y then x :: y :: l'
      else y :: insert_sorted x l'
  end.

Fixpoint sorted (l : list A) : list A :=
  match l with
  | [] => []
  | x :: l' => insert_sorted x (sorted l')
  end.
End Sorted.

(** [sum(1 for a in l if p a)] *)
Definition count_if {A : Type} (p : A -> bool) (l : list A) : Z :=
  Z.of_nat (length (List.filter p l)).

(** [len(l)] *)
Definition len {A : Type} (l : list A) : Z := Z.of_nat (length l).

Definition risk_order (r : RiskLevel) : Z :=
  match r with
  | CRITICAL => 0 | HIGH => 1 | MEDIUM => 2 | LOW => 3 | INFO => 4
  end.

Definition risk_is (r : RiskLevel) (a : FunctionAnalysis) : bool :=
  RiskLevel_eqb (risk_level a) r.

(** [a.risk_level in [RiskLevel.CRITICAL, RiskLevel.HIGH]] *)
Definition is_high_priority (a : FunctionAnalysis) : bool :=
  existsb (RiskLevel_eqb (risk_level a)) [CRITICAL; HIGH].

(** [a.risk_level != RiskLevel.INFO] *)
Definition is_real_handler (a : FunctionAnalysis) : bool :=
  negb (RiskLevel_eqb (risk_level a) INFO).

(** One entry of [_format_top_concerns]; [i] counts from 1. *)
Definition format_concern (i : Z) (analysis : FunctionAnalysis) : string :=
  let concern_types :=
    map (fun c => VulnerabilityType_value (vulnerability_type c))
        (security_concerns analysis) in
  str_int i +:+ ". " +:+ function_name analysis +:+ " (" +:+
    loc_file_path (location analysis) +:+ ":" +:+
    str_int (loc_line_number (location analysis)) +:+ ")" +:+ nl +:+
  "   Risk: " +:+ upper (RiskLevel_value (risk_level analysis)) +:+ nl +:+
  "   Concerns: " +:+
    (match concern_types with
     | [] => "None specific"
     | _ => join ", " concern_types
     end) +:+ nl +:+
  "   Auth Required: " +:+
    (if accepts_unauthenticated_input analysis then "No" else "Yes").

Definition _format_top_concerns (top_analyses : list FunctionAnalysis)
    : string :=
  join nl (imap (fun k a => format_concern (Z.of_nat k + 1) a) top_analyses).

Definition summary_prompt (analyses sorted_analyses : list FunctionAnalysis)
    (high_priority_count : Z) : string :=
  let n r := str_int (count_if (risk_is r) analyses) in
  "Create a triage summary for the security review team." +:+ nl +:+ nl +:+
  "**Total Items Scanned**: " +:+ str_int (len analyses) +:+ nl +:+
  "**Real User Input Handlers**: " +:+
    str_int (len (List.filter is_real_handler analyses)) +:+ nl +:+
  "**False Positives (config/tests)**: " +:+
    str_int (len (List.filter (risk_is INFO) analyses)) +:+ nl +:+
  "**High Priority for Review**: " +:+ str_int high_priority_count +:+
    " (CRITICAL + HIGH)" +:+ nl +:+ nl +:+
  "**Triage Breakdown**:" +:+ nl +:+
  "- CRITICAL: " +:+ n CRITICAL +:+
    " (unauthenticated + sensitive operations)" +:+ nl +:+
  "- HIGH: " +:+ n HIGH +:+
    " (authenticated sensitive ops OR unauth complex)" +:+ nl +:+
  "- MEDIUM: " +:+ n MEDIUM +:+ " (authenticated standard CRUD)" +:+ nl +:+
  "- LOW: " +:+ n LOW +:+ " (simple authenticated reads)" +:+ nl +:+
  "- INFO: " +:+ n INFO +:+ " (not real user input handlers)" +:+ nl +:+ nl +:+
  "**Top Priority Functions for Deep Review**:" +:+ nl +:+
  _format_top_concerns (take 10 sorted_analyses) +:+ nl +:+ nl +:+
  "Create:" +:+ nl +:+
  "1. A summary (2-3 paragraphs) explaining the triage results and what was found" +:+ nl +:+
  "2. Specific guidance on what to review first and what to focus on" +:+ nl +:+
  "3. 3-5 recommendations for the security review process" +:+ nl +:+ nl +:+
  "Remember: This is TRIAGE only - vulnerability identification comes in the next phase.".

Definition quick_prompt (finding : AstGrepFinding) (code_context : string)
    : string :=
  "File: " +:+ file_path finding +:+ nl +:+
  "Framework: " +:+ framework finding +:+ nl +:+ nl +:+
  "Code:" +:+ nl +:+
  fence +:+ language finding +:+ nl +:+
  slice_to 500 code_context +:+ nl +:+
  fence +:+ nl +:+ nl +:+
  "Is this a REAL user input handler or FALSE_POSITIVE?".

Definition triage_prompt (finding : AstGrepFinding) (code_context : string)
    : string :=
  "Triage this potential user input handler found by ast-grep:" +:+ nl +:+ nl +:+
  "**Location**: " +:+ file_path finding +:+ ":" +:+
    str_int (line_number finding) +:+ nl +:+
  "**Framework**: " +:+ framework finding +:+ nl +:+
  "**Language**: " +:+ language finding +:+ nl +:+
  "**Rule that matched**: " +:+ rule_id finding +:+ nl +:+ nl +:+
  "**Code Context**:" +:+ nl +:+
  fence +:+ language finding +:+ nl +:+
  code_context +:+ nl +:+
  fence +:+ nl +:+ nl +:+
  "**Your task**: Determine if this is a real user input handler that needs security review, and assign the appropriate triage priority." +:+ nl +:+ nl +:+
  "Answer these questions:" +:+ nl +:+
  "1. Is this actually a user input handler (API endpoint, GraphQL resolver, etc.) or is it configuration/test code?" +:+ nl +:+
  "2. What user input does it accept? (HTTP body, headers, URL params, GraphQL args, etc.)" +:+ nl +:+
  "3. Does it require authentication? Look for auth middleware, decorators, or checks" +:+ nl +:+
  "4. What does it DO with user input? (DB queries, file operations, external calls, business logic, etc.)" +:+ nl +:+
  "5. What priority level for security review? (CRITICAL/HIGH/MEDIUM/LOW/INFO)" +:+ nl +:+
  "6. What should the next security reviewer focus on when analyzing this function?" +:+ nl +:+ nl +:+
  "Extract the function/handler name, endpoint path, HTTP methods if visible." +:+ nl +:+ nl +:+
  "Provide clear, actionable reasoning for your triage decision.".

(** [if max_real_handlers and real_handler_count >= max_real_handlers]:
    [None] and [0] are falsy. *)
Definition quota_reached (max_real_handlers : option Z)
    (real_handler_count : Z) : bool :=
  match max_real_handlers with
  | None => false
  | Some n => negb (n =? 0) && (real_handler_count >=? n)
  end.

(** Locals of [triage_all_findings].  [i] is unbound until the first
    iteration binds it. *)
Record BatchLocals := {
  analyses : list FunctionAnalysis;
  real_handler_count : Z;
  fast_filtered_count : Z;
  i : option Z;
  stdout : list Event;
}.

Definition batch_start : BatchLocals :=
  {| analyses := []; real_handler_count := 0; fast_filtered_count := 0;
     i := None; stdout := [] |}.

Definition b_bind_i (idx : Z) (st : BatchLocals) : BatchLocals :=
  {| analyses := analyses st; real_handler_count := real_handler_count st;
     fast_filtered_count := fast_filtered_count st; i := Some idx;
     stdout := stdout st |}.

Definition b_print (e : Event) (st : BatchLocals) : BatchLocals :=
  {| analyses := analyses st; real_handler_count := real_handler_count st;
     fast_filtered_count := fast_filtered_count st; i := i st;
     stdout := stdout st ++ [e] |}.

(** [fast_filtered_count += 1] *)
Definition b_fast_filtered (st : BatchLocals) : BatchLocals :=
  {| analyses := analyses st; real_handler_count := real_handler_count st;
     fast_filtered_count := fast_filtered_count st + 1; i := i st;
     stdout := stdout st |}.

(** [analyses.append(analysis)] *)
Definition b_append (analysis : FunctionAnalysis) (st : BatchLocals)
    : BatchLocals :=
  {| analyses := analyses st ++ [analysis];
     real_handler_count := real_handler_count st;
     fast_filtered_count := fast_filtered_count st; i := i st;
     stdout := stdout st |}.

(** [real_handler_count += 1] *)
Definition b_real_handler (st : BatchLocals) : BatchLocals :=
  {| analyses := analyses st;
     real_handler_count := real_handler_count st + 1;
     fast_filtered_count := fast_filtered_count st; i := i st;
     stdout := stdout st |}.

(** Locals of [triage_all_findings_streaming]. *)
Record StreamLocals := {
  s_real_handler_count : Z;
  s_fast_filtered_count : Z;
  total_analyzed : Z;
  s_i : option Z;
  s_stdout : list Event;
}.

Definition stream_start : StreamLocals :=
  {| s_real_handler_count := 0; s_fast_filtered_count := 0;
     total_analyzed := 0; s_i := None; s_stdout := [] |}.

Definition s_bind_i (idx : Z) (st : StreamLocals) : StreamLocals :=
  {| s_real_handler_count := s_real_handler_count st;
     s_fast_filtered_count := s_fast_filtered_count st;
     total_analyzed := total_analyzed st; s_i := Some idx;
     s_stdout := s_stdout st |}.

Definition s_print (e : Event) (st : StreamLocals) : StreamLocals :=
  {| s_real_handler_count := s_real_handler_count st;
     s_fast_filtered_count := s_fast_filtered_count st;
     total_analyzed := total_analyzed st; s_i := s_i st;
     s_stdout := s_stdout st ++ [e] |}.

(** [fast_filtered_count += 1] *)
Definition s_fast_filtered (st : StreamLocals) : StreamLocals :=
  {| s_real_handler_count := s_real_handler_count st;
     s_fast_filtered_count := s_fast_filtered_count st + 1;
     total_analyzed := total_analyzed st; s_i := s_i st;
     s_stdout := s_stdout st |}.

(** [total_analyzed += 1] *)
Definition s_analyzed (st : StreamLocals) : StreamLocals :=
  {| s_real_handler_count := s_real_handler_count st;
     s_fast_filtered_count := s_fast_filtered_count st;
     total_analyzed := total_analyzed st + 1; s_i := s_i st;
     s_stdout := s_stdout st |}.

(** [real_handler_count += 1] *)
Definition s_real_handler (st : StreamLocals) : StreamLocals :=
  {| s_real_handler_count := s_real_handler_count st + 1;
     s_fast_filtered_count := s_fast_filtered_count st;
     total_analyzed := total_analyzed st; s_i := s_i st;
     s_stdout := s_stdout st |}.

(** The suspended frame of the async generator: its arguments, what the
    [enumerate(findings, 1)] iterator has left, and its locals. *)
Record Generator := {
  g_max_real_handlers : option Z;
  g_total : Z;
  g_iter : list AstGrepFinding;
  g_next : Z;
  g_locals : StreamLocals;
}.

(** What one [__anext__] does: yield and suspend, finish, or raise. *)
Inductive Resumption :=
| Yield (analysis : FunctionAnalysis) (g : Generator)
| Return (st : StreamLocals)
| Throw (e : exn) (st : StreamLocals).

(** What the consumer loop [async for analysis in ...] of [main] has
    when the generator is exhausted. *)
Record Streamed := {
  lines : list FunctionAnalysis;
  raised : option exn;
  locals : StreamLocals;
}.

Definition risk_breakdown (real_handlers : list FunctionAnalysis)
    : list (string * Z) :=
  List.filter (fun rc => 0 <? snd rc)
    (map (fun r => (upper (RiskLevel_value r),
                    count_if (risk_is r) real_handlers))
         [CRITICAL; HIGH; MEDIUM; LOW]).

Section Pipeline.
Context {W : Type} `{Provider W}.

(** [code_reader(file_path, line_num)], an [Optional[str]]. *)
Variable code_reader : string -> Z -> option string.

Definition fast_check_false_positive (finding : AstGrepFinding)
    (code_context : string) (w : W) : Result bool * W :=
  match fast_filter_run (quick_prompt finding code_context) w with
  | (Ok output, w') =>
      let response := upper (strip isspace output) in
      (Ok (contains "FALSE_POSITIVE" response || contains "FALSE" response),
       w')
  | (Raise _, w') => (Ok false, w')
  end.

Definition triage_function (finding : AstGrepFinding)
    (code_context : string) (w : W) : Result FunctionAnalysis * W :=
  triage_agent_run (triage_prompt finding code_context) w.

Definition prioritize_findings (analyses : list FunctionAnalysis) (w : W)
    : Result PrioritizedFindings * W :=
  let sorted_analyses :=
    sorted (fun x => risk_order (risk_level x)) analyses in
  let high_priority_count := count_if is_high_priority analyses in
  match summary_agent_run
          (summary_prompt analyses sorted_analyses high_priority_count) w
  with
  | (Ok output, w') =>
      (Ok {| total_functions_analyzed := len analyses;
             high_priority_count := high_priority_count;
             findings := sorted_analyses;
             summary := summary output;
             recommendations := recommendations output |}, w')
  | (Raise e, w') => (Raise e, w')
  end.

(** The [for i, finding in enumerate(findings, 1)] loop of
    [triage_all_findings]; [fs] is what the iterator has left and
    [idx] the index of its next item. *)
Fixpoint batch_loop (max_real_handlers : option Z) (total : Z)
    (fs : list AstGrepFinding) (idx : Z) (st : BatchLocals) (w : W)
    {struct fs} : BatchLocals * W :=
  match fs with
  | [] => (st, w)
  | finding :: rest =>
    let st := b_bind_i idx st in
    if quota_reached max_real_handlers (real_handler_count st) then
      (b_print (EvQuotaReached max_real_handlers) st, w)
    else
      let st :=
        b_print (EvScanning idx total (file_path finding)
                            (line_number finding)) st in
      match code_reader (file_path finding) (line_number finding) with
      | None | Some EmptyString =>
          batch_loop max_real_handlers total rest (idx + 1)
                     (b_print EvNoContext st) w
      | Some code_context =>
        match fast_check_false_positive finding code_context w with
        | (Raise e, w) =>
            batch_loop max_real_handlers total rest (idx + 1)
                       (b_print (EvError e) st) w
        | (Ok true, w) =>
            batch_loop max_real_handlers total rest (idx + 1)
                       (b_print EvFastFiltered (b_fast_filtered st)) w
        | (Ok false, w) =>
          match triage_function finding code_context w with
          | (Raise e, w) =>
              batch_loop max_real_handlers total rest (idx + 1)
                         (b_print (EvError e) st) w
          | (Ok analysis, w) =>
              let st := b_append analysis st in
              if is_real_handler analysis then
                batch_loop max_real_handlers total rest (idx + 1)
                  (b_print
                     (EvRealHandler
                        (upper (RiskLevel_value (risk_level analysis)))
                        (function_name analysis))
                     (b_real_handler st)) w
              else
                batch_loop max_real_handlers total rest (idx + 1)
                  (b_print EvDetailedFalsePositive st) w
          end
        end
      end
  end.

(** [triage_all_findings]: the loop, the printed summary (which reads
    [i]) and [prioritize_findings].  The terminal output is returned
    next to the result. *)
Definition triage_all_findings (findings : list AstGrepFinding)
    (max_real_handlers : option Z) (w : W)
    : Result PrioritizedFindings * list Event * W :=
  let '(st, w) :=
    batch_loop max_real_handlers (len findings) findings 1 batch_start w in
  let real_handlers := List.filter is_real_handler (analyses st) in
  let false_positives := List.filter (risk_is INFO) (analyses st) in
  match i st with
  | None => (Raise (UnboundLocalError "i"), stdout st, w)
  | Some scanned =>
      let out :=
        stdout st ++
        [EvTriageSummary scanned (fast_filtered_count st)
           (len (analyses st)) (len real_handlers) (len false_positives)
           (risk_breakdown real_handlers)] in
      let '(r, w) := prioritize_findings (analyses st) w in
      (r, out, w)
  end.

(** What follows the loop of [triage_all_findings_streaming]. *)
Definition stream_finish (st : StreamLocals) : Resumption :=
  match s_i st with
  | None => Throw (UnboundLocalError "i") st
  | Some scanned =>
      Return (s_print (EvStreamingSummary scanned
                         (s_fast_filtered_count st) (total_analyzed st)
                         (s_real_handler_count st)) st)
  end.

(** The loop of [triage_all_findings_streaming], run from its head
    until the next [yield], the end of the body, or an exception. *)
Fixpoint stream_loop (max_real_handlers : option Z) (total : Z)
    (fs : list AstGrepFinding) (idx : Z) (st : StreamLocals) (w : W)
    {struct fs} : Resumption * W :=
  match fs with
  | [] => (stream_finish st, w)
  | finding :: rest =>
    let st := s_bind_i idx st in
    if quota_reached max_real_handlers (s_real_handler_count st) then
      (stream_finish (s_print (EvQuotaReached max_real_handlers) st), w)
    else
      let st :=
        s_print (EvScanning idx total (file_path finding)
                            (line_number finding)) st in
      match code_reader (file_path finding) (line_number finding) with
      | None | Some EmptyString =>
          stream_loop max_real_handlers total rest (idx + 1)
                      (s_print EvNoContext st) w
      | Some code_context =>
        match fast_check_false_positive finding code_context w with
        | (Raise e, w) =>
            stream_loop max_real_handlers total rest (idx + 1)
                        (s_print (EvError e) st) w
        | (Ok true, w) =>
            stream_loop max_real_handlers total rest (idx + 1)
                        (s_print EvFastFiltered (s_fast_filtered st)) w
        | (Ok false, w) =>
          match triage_function finding code_context w with
          | (Raise e, w) =>
              stream_loop max_real_handlers total rest (idx + 1)
                          (s_print (EvError e) st) w
          | (Ok analysis, w) =>
              let st := s_analyzed st in
              let st :=
                if is_real_handler analysis then
                  s_print
                    (EvRealHandler
                       (upper (RiskLevel_value (risk_level analysis)))
                       (function_name analysis))
                    (s_real_handler st)
                else s_print EvDetailedFalsePositive st in
              (Yield analysis
                 {| g_max_real_handlers := max_real_handlers;
                    g_total := total; g_iter := rest; g_next := idx + 1;
                    g_locals := st |}, w)
          end
        end
      end
  end.

(** Calling [triage_all_findings_streaming] runs nothing: it builds the
    generator. *)
Definition triage_all_findings_streaming (findings : list AstGrepFinding)
    (max_real_handlers : option Z) : Generator :=
  {| g_max_real_handlers := max_real_handlers; g_total := len findings;
     g_iter := findings; g_next := 1; g_locals := stream_start |}.

(** [__anext__]: resume the frame. *)
Definition anext (g : Generator) (w : W) : Resumption * W :=
  stream_loop (g_max_real_handlers g) (g_total g) (g_iter g) (g_next g)
              (g_locals g) w.

(** The consumer of [main]: [async for analysis in ...], writing one
    line per analysis.  [fuel] bounds the number of resumptions;
    [None] means it ran out. *)
Fixpoint async_for (fuel : nat) (g : Generator)
    (written : list FunctionAnalysis) (w : W) : option Streamed * W :=
  match fuel with
  | O => (None, w)
  | S fuel' =>
      match anext g w with
      | (Yield analysis g', w') =>
          async_for fuel' g' (written ++ [analysis]) w'
      | (Return st, w') =>
          (Some {| lines := written; raised := None; locals := st |}, w')
      | (Throw e st, w') =>
          (Some {| lines := written; raised := Some e; locals := st |}, w')
      end
  end.

End Pipeline.

End Agent.

(** ** Scripted providers and sample data *)

Module Scenario.
Import Models Agent.

(** A provider that replays scripted replies, one per call and per
    agent, and records which agent was called; an agent whose script is
    used up raises. *)
Record Script := {
  fast_replies : list (Result string);
  deep_replies : list (Result FunctionAnalysis);
  summary_replies : list (Result PrioritizedFindings);
  calls : list string;
}.

Definition exhausted {A : Type} : Result A :=
  Raise (Exception "no scripted reply").

Definition script_fast (prompt : string) (w : Script)
    : Result string * Script :=
  (hd exhausted (fast_replies w),
   {| fast_replies := tl (fast_replies w); deep_replies := deep_replies w;
      summary_replies := summary_replies w;
      calls := calls w ++ ["fast"] |}).

Definition script_deep (prompt : string) (w : Script)
    : Result FunctionAnalysis * Script :=
  (hd exhausted (deep_replies w),
   {| fast_replies := fast_replies w; deep_replies := tl (deep_replies w);
      summary_replies := summary_replies w;
      calls := calls w ++ ["deep"] |}).

Definition script_summary (prompt : string) (w : Script)
    : Result PrioritizedFindings * Script :=
  (hd exhausted (summary_replies w),
   {| fast_replies := fast_replies w; deep_replies := deep_replies w;
      summary_replies := tl (summary_replies w);
      calls := calls w ++ ["summary"] |}).

#[global] Instance scripted : Provider Script :=
  {| fast_filter_run := script_fast;
     triage_agent_run := script_deep;
     summary_agent_run := script_summary |}.

Definition script (fast : list (Result string))
    (deep : list (Result FunctionAnalysis))
    (summ : list (Result PrioritizedFindings)) : Script :=
  {| fast_replies := fast; deep_replies := deep; summary_replies := summ;
     calls := [] |}.

Definition finding_at (path : string) (line : Z) : AstGrepFinding :=
  {| file_path := path; line_number := line; column := 0;
     rule_id := "fastapi-route"; message := "route handler";
     code_snippet := "@router.get"; framework := "fastapi";
     language := "python" |}.

Definition analysis_of (fname : string) (risk : RiskLevel)
    : FunctionAnalysis :=
  {| function_name := fname;
     location := {| loc_file_path := "app/api/users.py";
                    loc_line_number := 10; loc_column := None;
                    loc_snippet := None |};
     fa_framework := "fastapi"; fa_language := "python";
     input_sources := [HTTP_BODY];
     accepts_unauthenticated_input := false;
     risk_level := risk; security_concerns := [];
     endpoint_path := None; http_methods := ["GET"];
     has_input_validation := None; has_sanitization := None;
     has_authorization_check := None;
     reasoning := "scripted" |}.

Definition narrative (s : string) : PrioritizedFindings :=
  {| total_functions_analyzed := 0; high_priority_count := 0;
     findings := []; summary := s; recommendations := [s] |}.

Definition after_calls (l : list string) : Script :=
  {| fast_replies := []; deep_replies := []; summary_replies := [];
     calls := l |}.

Definition sample_analyses : list FunctionAnalysis :=
  [analysis_of "list_users" LOW; analysis_of "upload" CRITICAL;
   analysis_of "get_user" LOW].

(** The report [prioritize_findings] builds from [sample_analyses] when
    the summary agent answers [narrative s]. *)
Definition sample_report (s : string) : PrioritizedFindings :=
  {| total_functions_analyzed := 3; high_priority_count := 1;
     findings := [analysis_of "upload" CRITICAL; analysis_of "list_users" LOW;
                  analysis_of "get_user" LOW];
     summary := s; recommendations := [s] |}.

Definition service_at (paths : list string)
    : DeploymentParser.ServiceInfo :=
  {| DeploymentParser.name := None;
     DeploymentParser.network_exposure := None;
     DeploymentParser.deployment_target := None;
     DeploymentParser.upstream_services := None;
     DeploymentParser.downstream_services := None;
     DeploymentParser.repository_paths := Some paths |}.

Definition comm (src dst : string) (auth : option string)
    : DeploymentParser.CommunicationProtocol :=
  {| DeploymentParser.from_service := Some src;
     DeploymentParser.to_service := Some dst;
     DeploymentParser.protocol := Some "HTTPS REST";
     DeploymentParser.auth_method := auth |}.

(** Two services, one declared on a prefix of the other's path. *)
Definition sample_model : DeploymentParser.DeploymentModel :=
  {| DeploymentParser.services :=
       [("web", service_at ["app/"]); ("api", service_at ["app/api/"])];
     DeploymentParser.trust_zones :=
       [{| DeploymentParser.tz_name := Some "Application Zone";
           DeploymentParser.tz_services := Some ["api"] |}];
     DeploymentParser.communications :=
       [comm "web" "api" (Some "mTLS"); comm "api" "db" (Some "IAM Role")];
     DeploymentParser.user_authentication_method := Some "OAuth2 JWT" |}.

(** The same services declared in the other order. *)
Definition sample_model_swapped : DeploymentParser.DeploymentModel :=
  {| DeploymentParser.services :=
       [("api", service_at ["app/api/"]); ("web", service_at ["app/"])];
     DeploymentParser.trust_zones := [];
     DeploymentParser.communications := [];
     DeploymentParser.user_authentication_method := None |}.

Definition sample_context : DeploymentParser.DeploymentContext :=
  {| DeploymentParser.service_name := "api";
     DeploymentParser.trust_zone := Some "Application Zone";
     DeploymentParser.ctx_network_exposure := "Internal only";
     DeploymentParser.authentication_method := Some "IAM Role";
     DeploymentParser.ctx_deployment_target := None;
     DeploymentParser.ctx_upstream_services := [];
     DeploymentParser.ctx_downstream_services := [] |}.

(** One service that declares the repository root. *)
Definition root_model : DeploymentParser.DeploymentModel :=
  {| DeploymentParser.services := [("root", service_at ["/"])];
     DeploymentParser.trust_zones := [];
     DeploymentParser.communications := [];
     DeploymentParser.user_authentication_method := None |}.

Definition users_finding : AstGrepFinding :=
  finding_at "app/api/users.py" 10.

Definition feed_finding : AstGrepFinding :=
  finding_at "app/api/feed.py" 22.

(** The fast tier answers REAL once, the deep tier returns one HIGH
    analysis. *)
Definition one_real_handler : Script :=
  script [Ok "REAL"] [Ok (analysis_of "list_users" HIGH)] [].


(** All three tiers answer for one finding. *)
Definition full_run : Script :=
  script [Ok "REAL"] [Ok (analysis_of "list_users" HIGH)]
         [Ok (narrative "review list_users")].

(** A code reader that finds every file. *)
Definition reader (path : string) (line : Z) : option string :=
  Some "def handler(request): ...".

End Scenario.

(** ** Notions used to state the properties *)

Module Props.
Import PyStr Models.

(** The character [c] occurs in [s]. *)
Fixpoint has_char (c : ascii) (s : string) : bool :=
  match s with
  | EmptyString => false
  | String c' s' => Ascii.eqb c' c || has_char c s'
  end.

(** Identity of a finding: (file_path, line). *)
Definition identity (f : AstGrepFinding) : string * Z :=
  (file_path f, line_number f).

(** Number of distinct identities in a list of findings. *)
Definition distinct_identities (l : list AstGrepFinding) : nat :=
  size (list_to_set (C := gset (string * Z)) (map identity l)).

(** The three match strategies of the resolver, on the normalised path
    and fragment: prefix, infix, path segment. *)
Definition fragment_matches (file_path repo_path : string) : bool :=
  let p := DeploymentParser.normalize_path file_path in
  let f := DeploymentParser.normalize_repo_path repo_path in
  startswith p (f +:+ "/") || contains ("/" +:+ f +:+ "/") p
  || mem f (split "/"%char p).

(** Length of the matched fragment. *)
Definition fragment_length (repo_path : string) : Z :=
  Z.of_nat (String.length (DeploymentParser.normalize_repo_path repo_path)).

Definition any_fragment (repo_path : string) : bool := true.

(** The fragment is not empty once normalised. *)
Definition nonempty_fragment (repo_path : string) : bool :=
  truthy (DeploymentParser.normalize_repo_path repo_path).

(** Every (service, fragment) pair that matches the path and that [eligible]
    lets through, in declaration order, with the matched length. *)
Definition candidates (eligible : string → bool)
    (m : DeploymentParser.DeploymentModel) (file_path : string)
    : list (string * DeploymentParser.ServiceInfo * Z) :=
  flat_map
    (λ entry : string * DeploymentParser.ServiceInfo,
       map (λ repo_path, (entry.1, entry.2, fragment_length repo_path))
           (List.filter
              (λ repo_path,
                 fragment_matches file_path repo_path && eligible repo_path)
              (default [] (DeploymentParser.repository_paths entry.2))))
    (DeploymentParser.services m).

(** The service the resolver keeps, with its key in [services]. *)
Definition resolved (m : DeploymentParser.DeploymentModel)
    (file_path : string) : option (string * DeploymentParser.ServiceInfo) :=
  let st := DeploymentParser.find_service m file_path in
  match DeploymentParser.matched_service_name st,
        DeploymentParser.matched_service st with
  | Some n, Some info => Some (n, info)
  | _, _ => None
  end.

(** Longest match wins, ties go to the first declared: the kept service
    owns the first candidate of greatest length, and no service is kept
    exactly when there is no candidate. *)
Definition longest_match (eligible : string → bool)
    (m : DeploymentParser.DeploymentModel) (file_path : string) : Prop :=
  match resolved m file_path with
  | Some (n, info) =>
      ∃ pre L post,
        candidates eligible m file_path = pre ++ (n, info, L) :: post ∧
        Forall (λ c, c.2 < L) pre ∧ Forall (λ c, c.2 ≤ L) post
  | None => candidates eligible m file_path = []
  end.

(** The service record [info] with [paths] as its [repository_paths]. *)
Definition declaring (paths : list string)
    (info : DeploymentParser.ServiceInfo) : DeploymentParser.ServiceInfo :=
  {| DeploymentParser.name := DeploymentParser.name info;
     DeploymentParser.network_exposure :=
       DeploymentParser.network_exposure info;
     DeploymentParser.deployment_target :=
       DeploymentParser.deployment_target info;
     DeploymentParser.upstream_services :=
       DeploymentParser.upstream_services info;
     DeploymentParser.downstream_services :=
       DeploymentParser.downstream_services info;
     DeploymentParser.repository_paths := Some paths |}.

(** The loop over candidates that the matching loops amount to. *)
Definition keep_longest
    (cands : list (string * DeploymentParser.ServiceInfo * Z))
    (st : DeploymentParser.MatchState) : DeploymentParser.MatchState :=
  foldl (λ st c, DeploymentParser.keep_if_longer c.1.1 c.1.2 c.2 st) st cands.

(** The locals of the streaming loop that correspond to locals of the
    batch loop: the counter [total_analyzed] stands for the length of
    [analyses]. *)
Definition locals_of (st : Agent.BatchLocals) : Agent.StreamLocals :=
  {| Agent.s_real_handler_count := Agent.real_handler_count st;
     Agent.s_fast_filtered_count := Agent.fast_filtered_count st;
     Agent.total_analyzed := Agent.len (Agent.analyses st);
     Agent.s_i := Agent.i st;
     Agent.s_stdout := Agent.stdout st |}.

(** What the consumer of the stream has at the end, given where the
    batch loop ends: the same analyses as lines, the same counters, the
    same terminal output followed by the stream's summary, and the same
    [UnboundLocalError] when no iteration bound [i]. *)
Definition stream_of_batch (st : Agent.BatchLocals) : Agent.Streamed :=
  match Agent.i st with
  | None =>
      {| Agent.lines := Agent.analyses st;
         Agent.raised := Some (Agent.UnboundLocalError "i");
         Agent.locals := locals_of st |}
  | Some scanned =>
      {| Agent.lines := Agent.analyses st;
         Agent.raised := None;
         Agent.locals :=
           Agent.s_print
             (Agent.EvStreamingSummary scanned (Agent.fast_filtered_count st)
                (Agent.len (Agent.analyses st)) (Agent.real_handler_count st))
             (locals_of st) |}
  end.

(** A suspended generator frame. *)
Definition frame (max_real_handlers : option Z) (total : Z)
    (fs : list AstGrepFinding) (idx : Z) (st : Agent.StreamLocals)
    : Agent.Generator :=
  {| Agent.g_max_real_handlers := max_real_handlers; Agent.g_total := total;
     Agent.g_iter := fs; Agent.g_next := idx; Agent.g_locals := st |}.

(** The findings the loop admitted, read off the progress lines of the
    terminal output. *)
Definition scanned (out : list Agent.Event) : list (string * Z) :=
  omap (λ e, match e with
             | Agent.EvScanning _ _ path line => Some (path, line)
             | _ => None
             end) out.


(** Admission stops at the quota: if the batch loop, run on the prefix
    [pre] alone, ends with [N] analyses that are not INFO, then on
    [pre ++ post] it ends with the same analyses and counters, in the same
    provider world (no further call was made), having admitted the same
    findings. *)
Definition admission_stops {W : Type} `{Agent.Provider W}
    (code_reader : string → Z → option string) (N total : Z)
    (pre post : list AstGrepFinding) (w : W) : Prop :=
  let on_prefix :=
    Agent.batch_loop code_reader (Some N) total pre 1 Agent.batch_start w in
  let on_all :=
    Agent.batch_loop code_reader (Some N) total (pre ++ post) 1
      Agent.batch_start w in
  N ≤ Agent.count_if Agent.is_real_handler (Agent.analyses on_prefix.1) →
  Agent.analyses on_all.1 = Agent.analyses on_prefix.1 ∧
  Agent.fast_filtered_count on_all.1 = Agent.fast_filtered_count on_prefix.1 ∧
  Agent.real_handler_count on_all.1 = Agent.real_handler_count on_prefix.1 ∧
  on_all.2 = on_prefix.2 ∧
  scanned (Agent.stdout on_all.1) = scanned (Agent.stdout on_prefix.1).

(** The same for the stream: its consumer receives the same lines and the
    generator ends with the same counters, in the same provider world. *)
Definition stream_admission_stops {W : Type} `{Agent.Provider W}
    (code_reader : string → Z → option string) (N total : Z)
    (pre post : list AstGrepFinding) (w : W) : Prop :=
  let on_prefix :=
    Agent.async_for code_reader (S (length pre))
      (frame (Some N) total pre 1 Agent.stream_start) [] w in
  let on_all :=
    Agent.async_for code_reader (S (length (pre ++ post)))
      (frame (Some N) total (pre ++ post) 1 Agent.stream_start) [] w in
  ∃ s_prefix s_all,
    on_prefix.1 = Some s_prefix ∧ on_all.1 = Some s_all ∧
    (N ≤ Agent.count_if Agent.is_real_handler (Agent.lines s_prefix) →
     Agent.lines s_all = Agent.lines s_prefix ∧
     Agent.s_fast_filtered_count (Agent.locals s_all)
     = Agent.s_fast_filtered_count (Agent.locals s_prefix) ∧
     Agent.total_analyzed (Agent.locals s_all)
     = Agent.total_analyzed (Agent.locals s_prefix) ∧
     Agent.s_real_handler_count (Agent.locals s_all)
     = Agent.s_real_handler_count (Agent.locals s_prefix) ∧
     on_all.2 = on_prefix.2).

(** Severity rank of an analysis, as [prioritize_findings] sorts by it. *)
Definition rank (a : FunctionAnalysis) : Z :=
  Agent.risk_order (risk_level a).

End Props.

(** ** Outcomes of a run, read off the terminal output *)

Module Outcomes.
Import Models Agent.

Definition is_scanning (e : Event) : bool :=
  match e with EvScanning _ _ _ _ => true | _ => false end.

Definition is_no_context (e : Event) : bool :=
  match e with EvNoContext => true | _ => false end.

Definition is_fast_filtered (e : Event) : bool :=
  match e with EvFastFiltered => true | _ => false end.

Definition is_real_handler_line (e : Event) : bool :=
  match e with EvRealHandler _ _ => true | _ => false end.

Definition is_detailed_false_positive (e : Event) : bool :=
  match e with EvDetailedFalsePositive => true | _ => false end.

Definition is_error (e : Event) : bool :=
  match e with EvError _ => true | _ => false end.

Definition is_quota_notice (e : Event) : bool :=
  match e with EvQuotaReached _ => true | _ => false end.

(** The locals of the batch loop that carry results: the accumulated
    analyses and the two counters. *)
Definition results (st : BatchLocals)
    : list FunctionAnalysis * Z * Z :=
  (analyses st, real_handler_count st, fast_filtered_count st).

(** Every progress line printed so far is matched by exactly one outcome
    line, and the counters are the numbers of their outcome lines. *)
Definition accounted (st : BatchLocals) : Prop :=
  count_if is_scanning (stdout st)
  = count_if is_no_context (stdout st)
    + count_if is_fast_filtered (stdout st)
    + count_if is_real_handler_line (stdout st)
    + count_if is_detailed_false_positive (stdout st)
    + count_if is_error (stdout st) ∧
  fast_filtered_count st = count_if is_fast_filtered (stdout st) ∧
  real_handler_count st = count_if is_real_handler_line (stdout st) ∧
  len (analyses st)
  = count_if is_real_handler_line (stdout st)
    + count_if is_detailed_false_positive (stdout st).

(** The code reader has nothing for the finding: [None] or [""]. *)
Definition unreadable (code_reader : string → Z → option string)
    (finding : AstGrepFinding) : Prop :=
  code_reader (file_path finding) (line_number finding) = None ∨
  code_reader (file_path finding) (line_number finding) = Some "".

End Outcomes.

(** ** Notions about strings *)

Module StrProps.

(** Every character of [s] satisfies [p]. *)
Fixpoint all_chars (p : ascii → bool) (s : string) : bool :=
  match s with
  | EmptyString => true
  | String c s' => p c && all_chars p s'
  end.

(** The character is what [lower] and the replacement of backslashes
    leave alone. *)
Definition normal_char (c : ascii) : bool :=
  Ascii.eqb
    (PyStr.lower_char (if Ascii.eqb c "\"%char then "/"%char else c)) c.

End StrProps.

(** ** scanner.py *)

Module Scanner.
Import PyStr Models.

(** A rule file, as the scanner uses its [Path]: the name of its parent
    directory and its stem (rules/{language}/{framework}-routes.yml). *)
Record RuleFile := {
  parent_name : string;
  stem : string;
}.

(** A raw finding: the dict that [json.loads] or [_parse_text_output]
    gives, with the keys that [parse_finding] probes; a key that is absent
    is [None], and each value has the type ast-grep gives it. *)
Record RawPosition := {
  pos_line : option Z;
  pos_column : option Z;
}.

Record RawRange := {
  range_start : option RawPosition;
}.

Record RawFinding := {
  raw_file : option string;
  raw_path : option string;
  raw_line : option Z;
  raw_column : option Z;
  raw_range : option RawRange;
  raw_message : option string;
  raw_snippet : option string;
  raw_text : option string;
  raw_lines : option string;
  raw_rule : option string;
  raw_ruleId : option string;
}.

(** [s.replace(old, new)] for a non-empty [old]: occurrences are replaced
    from the left and do not overlap; [skip] counts the characters of a
    replaced occurrence still to pass over. *)
Fixpoint replace_from (old new : string) (skip : nat) (s : string) : string :=
  match s with
  | EmptyString => EmptyString
  | String c s' =>
      match skip with
      | S k => replace_from old new k s'
      | O =>
          if String.prefix old s
          then new +:+ replace_from old new (String.length old - 1) s'
          else String c (replace_from old new 0 s')
      end
  end.

Definition replace_all (old new s : string) : string :=
  replace_from old new 0 s.

(** [s.title()] on ASCII: a letter that follows a letter is lower-cased,
    any other letter is upper-cased. *)
Fixpoint title_from (previous_is_cased : bool) (s : string) : string :=
  match s with
  | EmptyString => EmptyString
  | String c s' =>
      if is_upper c || is_lower c then
        String (if previous_is_cased then lower_char c else upper_char c)
               (title_from true s')
      else String c (title_from false s')
  end.

Definition title (s : string) : string := title_from false s.

Definition _extract_framework_and_language (rule_file : RuleFile)
    : string * string :=
  let language := parent_name rule_file in
  let framework :=
    title (replace_all "-" " " (replace_all "-routes" "" (stem rule_file))) in
  (framework, language).

(** [raw_finding.get('range', {}).get('start', {})]; [None] stands for
    the empty dict. *)
Definition range_position (raw_finding : RawFinding) : option RawPosition :=
  match raw_range raw_finding with
  | Some range => range_start range
  | None => None
  end.

Definition parse_finding (raw_finding : RawFinding) (rule_file : RuleFile)
    : AstGrepFinding :=
  let '(framework, language) := _extract_framework_and_language rule_file in
  let file_path :=
    default (default "" (raw_path raw_finding)) (raw_file raw_finding) in
  let line_num :=
    default
      (default 0 (range_position raw_finding ≫= pos_line))
      (raw_line raw_finding) in
  let column :=
    default
      (default 0 (range_position raw_finding ≫= pos_column))
      (raw_column raw_finding) in
  let message := default "" (raw_message raw_finding) in
  let snippet :=
    default
      (default (default "" (raw_lines raw_finding)) (raw_text raw_finding))
      (raw_snippet raw_finding) in
  let rule_id :=
    default (default (stem rule_file) (raw_ruleId raw_finding))
            (raw_rule raw_finding) in
  {| file_path := file_path; line_number := line_num; column := column;
     rule_id := rule_id; message := message; code_snippet := snippet;
     framework := framework; language := language |}.

Definition skip_patterns : list string :=
  ["/generated/"; "/dist/"; "/build/"; "/.next/"; "/out/";
   "/__generated__/"; "/node_modules/"; "/vendor/"; "/.venv/"; "/venv/";
   "/target/"; ".min.js"; ".min.css"; "-min.js"; ".bundle.js"; ".chunk.js";
   "webpack."; "rollup."; "parcel."; ".d.ts"].

(** A component that [PurePosixPath] keeps: not empty and not ".". *)
Definition is_part (component : string) : bool :=
  negb (String.eqb component "") && negb (String.eqb component ".").

(** [Path(file_path).name] on a POSIX system: the last component, the
    empty string when there is none. *)
Definition path_name (file_path : string) : string :=
  List.last (List.filter is_part (split "/"%char file_path)) "".

(** [_should_skip_file] on an ASCII path (see [lower]). *)
Definition _should_skip_file (file_path : string) : bool :=
  let path_lower := lower file_path in
  if existsb (λ pattern, contains pattern path_lower) skip_patterns then true
  else
    let filename := lower (path_name file_path) in
    if contains "generated" filename || contains "codegen" filename
    then true else false.

(** Locals of [scan_all]. *)
Record ScanLocals := {
  all_findings : list AstGrepFinding;
  skipped_count : Z;
}.

(** Body of [for raw_finding in raw_findings].  [parse_finding] raises
    only on a value of the wrong type, which a [RawFinding] cannot hold,
    so the [except] branch has no counterpart. *)
Definition scan_finding (rule_file : RuleFile) (st : ScanLocals)
    (raw_finding : RawFinding) : ScanLocals :=
  let finding := parse_finding raw_finding rule_file in
  if _should_skip_file (file_path finding) then
    {| all_findings := all_findings st;
       skipped_count := skipped_count st + 1 |}
  else
    {| all_findings := all_findings st ++ [finding];
       skipped_count := skipped_count st |}.

(** [scan_all], given for every rule file of [get_all_rules] what
    [scan_with_rule] returned for it.  [get_all_rules] raises
    [ValueError] when there is no rule file: [None]. *)
Definition scan_all (scans : list (RuleFile * list RawFinding))
    : option ScanLocals :=
  match scans with
  | [] => None
  | _ =>
      Some (foldl (λ st scan, foldl (scan_finding scan.1) st scan.2)
                  {| all_findings := []; skipped_count := 0 |} scans)
  end.

(** [l[start:stop]]: a negative index counts from the end, and indices
    are clamped to the list. *)
Definition slice_index (n i : Z) : Z :=
  if i <? 0 then Z.max (i + n) 0 else Z.min i n.

Definition py_slice {A : Type} (l : list A) (start stop : Z) : list A :=
  let n := Z.of_nat (length l) in
  let a := slice_index n start in
  let b := slice_index n stop in
  take (Z.to_nat (b - a)) (drop (Z.to_nat a) l).

(** [read_code_context].  [files] gives the lines of the file a path
    denotes, as [readlines] returns them, and [None] where opening or
    reading it raises. *)
Definition read_code_context (files : string → option (list string))
    (file_path : string) (line_number context_lines : Z) : option string :=
  match files file_path with
  | None => None
  | Some lines =>
      let start := Z.max 0 (line_number - context_lines - 1) in
      let end_ := Z.min (Z.of_nat (length lines))
                        (line_number + context_lines) in
      Some (String.concat "" (py_slice lines start end_))
  end.

End Scanner.

(** ** analyze.py: the code reader, the limit and the report filter *)

Module Report.
Import PyStr Models.

(** [code_reader] of [main]: [scanner.read_code_context] with
    [args.context_lines]. *)
Definition code_reader (files : string → option (list string))
    (context_lines : Z) (file_path : string) (line_num : Z)
    : option string :=
  Scanner.read_code_context files file_path line_num context_lines.

(** [if args.max_findings and len(findings) > args.max_findings:
    findings = findings[: args.max_findings]] *)
Definition limit_findings {A : Type} (max_findings : option Z)
    (findings : list A) : list A :=
  match max_findings with
  | None => findings
  | Some n =>
      if negb (n =? 0) && (Z.of_nat (length findings) >? n)
      then Scanner.py_slice findings 0 n
      else findings
  end.

(** [RiskLevel(value)]; a string that is no value raises [ValueError]. *)
Definition RiskLevel_of_value (value : string) : option RiskLevel :=
  List.find (λ r, String.eqb (RiskLevel_value r) value)
            [CRITICAL; HIGH; MEDIUM; LOW; INFO].

(** The [risk_order] dict of [format_output_text] and
    [format_output_markdown]. *)
Definition risk_order (r : RiskLevel) : Z :=
  match r with
  | CRITICAL => 0
  | HIGH => 1
  | MEDIUM => 2
  | LOW => 3
  | INFO => 4
  end.

(** [filtered_findings] of both, from [args.min_risk]. *)
Definition filtered_findings (min_risk : string)
    (findings : list FunctionAnalysis) : option (list FunctionAnalysis) :=
  let default_min_risk :=
    if String.eqb min_risk "info" then "low" else min_risk in
  match RiskLevel_of_value default_min_risk with
  | None => None
  | Some min_risk_level =>
      let min_risk_value := risk_order min_risk_level in
      Some (List.filter
              (λ f, risk_order (risk_level f) <=? min_risk_value)
              findings)
  end.

End Report.

(** ** scanner.py: the text fallback *)

Module TextOutput.
Import PyStr Models Scanner.

Definition LF : ascii := ascii_of_nat 10.

(** ASCII part of [\d]. *)
Definition is_digit (c : ascii) : bool :=
  let n := N_of_ascii c in ((48 <=? n) && (n <=? 57))%N.

(** [int(d)] for a string of digits, from the left. *)
Fixpoint int_from (acc : Z) (d : string) : Z :=
  match d with
  | EmptyString => acc
  | String c d' => int_from (10 * acc + (Z.of_N (N_of_ascii c) - 48)) d'
  end.

Definition int (d : string) : Z := int_from 0 d.

(** The longest prefix of digits and what follows it: what a greedy
    [\d+] takes, since a shorter run is followed by a digit. *)
Fixpoint span_digits (s : string) : string * string :=
  match s with
  | EmptyString => (EmptyString, EmptyString)
  | String c s' =>
      if is_digit c then
        let '(d, r) := span_digits s' in (String c d, r)
      else (EmptyString, s)
  end.

(** [:(\d+):(\d+)] at the start of [s]: groups 2 and 3 as integers. *)
Definition match_position (s : string) : option (Z * Z) :=
  match s with
  | EmptyString => None
  | String c s1 =>
      if Ascii.eqb c ":" then
        match span_digits s1 with
        | (String _ _ as d1, String c' s2) =>
            if Ascii.eqb c' ":" then
              match span_digits s2 with
              | (String _ _ as d2, _) => Some (int d1, int d2)
              | (EmptyString, _) => None
              end
            else None
        | _ => None
        end
      else None
  end.

(** The lazy [(.+?)]: [group1] grows by one character, never a line feed,
    until the rest of the pattern matches. *)
Fixpoint match_from (group1 rest : string) : option (string * Z * Z) :=
  match match_position rest with
  | Some (line_num, col) => Some (group1, line_num, col)
  | None =>
      match rest with
      | EmptyString => None
      | String c rest' =>
          if Ascii.eqb c LF then None
          else match_from (group1 +:+ String c EmptyString) rest'
      end
  end.

(** [re.match(r'^(.+?):(\d+):(\d+)', line)]: the three groups. *)
Definition match_location (line : string) : option (string * Z * Z) :=
  match line with
  | EmptyString => None
  | String c rest =>
      if Ascii.eqb c LF then None else match_from (String c EmptyString) rest
  end.

(** [s[1:]]. *)
Definition slice_from_1 (s : string) : string :=
  match s with
  | EmptyString => EmptyString
  | String _ s' => s'
  end.

(** The dict appended to [findings]. *)
Definition text_finding (rule_file : RuleFile) (file_path : string)
    (line_num col : Z) (message code_snippet : string) : RawFinding :=
  {| raw_file := Some file_path; raw_path := None;
     raw_line := Some line_num; raw_column := Some col;
     raw_range := None; raw_message := Some message;
     raw_snippet := Some code_snippet; raw_text := None;
     raw_lines := None; raw_rule := Some (stem rule_file);
     raw_ruleId := None |}.

(** The [while i < len(lines)] loop, on the lines from [lines[i]] on. *)
Fixpoint parse_lines (rule_file : RuleFile) (lines : list string)
    : list RawFinding :=
  match lines with
  | [] => []
  | line :: rest =>
      match match_location (strip isspace line) with
      | None => parse_lines rule_file rest
      | Some (file_path, line_num, col) =>
          match rest with
          | [] => [text_finding rule_file file_path line_num col "" ""]
          | next :: rest1 =>
              let msg_line := strip isspace next in
              let message :=
                if startswith msg_line "|" then "" else msg_line in
              let code_snippet :=
                if startswith msg_line "|"
                then strip isspace (slice_from_1 msg_line) else "" in
              match rest1 with
              | [] =>
                  [text_finding rule_file file_path line_num col
                     message code_snippet]
              | next2 :: rest2 =>
                  if startswith (strip isspace next2) "|" then
                    text_finding rule_file file_path line_num col message
                      (strip isspace (slice_from_1 next2))
                    :: parse_lines rule_file rest2
                  else
                    text_finding rule_file file_path line_num col message
                      code_snippet
                    :: parse_lines rule_file rest1
              end
          end
      end
  end.

Definition _parse_text_output (output : string) (rule_file : RuleFile)
    : list RawFinding :=
  parse_lines rule_file (split LF (strip isspace output)).

End TextOutput.

(** ** Notions about the text fallback *)

Module TextProps.
Import PyStr Models Scanner TextOutput StrProps.

(** The three lines that show a finding: its location, its message and
    its snippet behind a bar. *)
Definition block (f : AstGrepFinding) : list string :=
  [file_path f +:+ ":" +:+ str_int (line_number f) +:+ ":"
     +:+ str_int (column f);
   message f;
   "|" +:+ code_snippet f].

Definition render (findings : list AstGrepFinding) : string :=
  join (String LF "") (flat_map block findings).

(** The string does not go on with a digit. *)
Definition no_digit_ahead (s : string) : Prop :=
  match s with
  | EmptyString => True
  | String c _ => is_digit c = false
  end.

Definition one_line (s : string) : bool :=
  all_chars (λ c, negb (Ascii.eqb c LF)) s.

Definition starts_with_no_space (s : string) : bool :=
  match s with
  | EmptyString => false
  | String c _ => negb (isspace c)
  end.

(** A finding that its three lines show in full: a path without colon or
    line feed that starts with no space, a position that is not negative,
    a message and a snippet on one line with no space at either end, a
    message that starts with no bar, and the rule's own id, framework and
    language. *)
Definition printable (rule_file : RuleFile) (f : AstGrepFinding) : Prop :=
  starts_with_no_space (file_path f) = true ∧
  all_chars (λ c, negb (Ascii.eqb c ":") && negb (Ascii.eqb c LF))
            (file_path f) = true ∧
  0 ≤ line_number f ∧ 0 ≤ column f ∧
  strip isspace (message f) = message f ∧
  startswith (message f) "|" = false ∧
  one_line (message f) = true ∧
  strip isspace (code_snippet f) = code_snippet f ∧
  one_line (code_snippet f) = true ∧
  rule_id f = stem rule_file ∧
  (framework f, language f) = _extract_framework_and_language rule_file.

End TextProps.

(** ** Notions about the code reader *)

Module ReaderProps.
Import Models.

(** The file of the finding cannot be read, or is empty, or ends before
    the window of [context_lines] around the finding's line begins. *)
Definition outside_file (files : string → option (list string))
    (context_lines : Z) (f : AstGrepFinding) : Prop :=
  match files (file_path f) with
  | None => True
  | Some lines =>
      lines = [] ∨
      (0 ≤ context_lines ∧
       Z.of_nat (length lines) < line_number f - context_lines)
  end.

End ReaderProps.

(** ** Sample scans and files *)

Module Samples.
Import PyStr Models Scanner.

Definition fastapi_rule : RuleFile :=
  {| parent_name := "python"; stem := "fastapi-routes" |}.

(** A finding as ast-grep reports it in JSON. *)
Definition json_finding (file : string) (line : Z) : RawFinding :=
  {| raw_file := Some file; raw_path := None;
     raw_line := None; raw_column := None;
     raw_range :=
       Some {| range_start :=
                 Some {| pos_line := Some line; pos_column := Some 0 |} |};
     raw_message := Some "route handler";
     raw_snippet := None; raw_text := Some "@router.get";
     raw_lines := None; raw_rule := None;
     raw_ruleId := Some "fastapi-routes" |}.

(** The finding that [parse_finding] makes of it under [fastapi_rule]. *)
Definition route_at (path : string) (line : Z) : AstGrepFinding :=
  {| file_path := path; line_number := line; column := 0;
     rule_id := "fastapi-routes"; message := "route handler";
     code_snippet := "@router.get"; framework := "Fastapi";
     language := "python" |}.

(** One rule file with a route of the application and a route of a
    vendored package. *)
Definition sample_scan : list (RuleFile * list RawFinding) :=
  [(fastapi_rule,
    [json_finding "app/api/users.py" 3;
     json_finding "app/vendor/flask/app.py" 7])].

Definition users_file : list string :=
  ["from fastapi import APIRouter" +:+ String TextOutput.LF "";
   "router = APIRouter()" +:+ String TextOutput.LF "";
   "@router.get('/users')" +:+ String TextOutput.LF "";
   "def list_users(request):" +:+ String TextOutput.LF "";
   "    return db.users()" +:+ String TextOutput.LF ""].

(** A tree with one source file and one empty file. *)
Definition sample_files (path : string) : option (list string) :=
  if String.eqb path "app/api/users.py" then Some users_file
  else if String.eqb path "app/api/__init__.py" then Some []
  else None.

(** A header of 500 characters at the top of a file. *)
Definition licence_header : string :=
  String.concat "" (List.repeat "# Licensed under Apache2." 20).

End Samples.

(** ** The domain of the string model *)

Module Domain.

(** [s.isascii()]: every character has a code below 128. *)
Definition isascii (s : string) : bool :=
  StrProps.all_chars (λ c, (N_of_ascii c <? 128)%N) s.

End Domain.

(** ** Notions about the verdict of the fast tier *)

Module Verdicts.
Import PyStr Models Agent.




End Verdicts.

(** * Properties *)

Section PyStrFacts.
Import PyStr Props.

Lemma pretty_N_go_no_colon (x : N) (s : string) :
  has_char ":" (pretty_N_go x s) = has_char ":" s.
Proof.
  revert s. induction (N.lt_wf_0 x) as [x _ IH]; intros s.
  destruct (decide (x = 0)%N) as [->|Hx]; [by rewrite pretty_N_go_0|].
  rewrite pretty_N_go_step by lia.
  rewrite IH by (apply N.div_lt; lia).
  cbn [has_char]. unfold pretty_N_char.
  by repeat case_match.
Qed.

Lemma has_char_app (c : ascii) (a b : string) :
  has_char c (a +:+ b) = has_char c a || has_char c b.
Proof.
  induction a as [|x a IH]; simpl; [done|].
  rewrite IH. by rewrite orb_assoc.
Qed.

Lemma pretty_positive_no_colon (p : positive) :
  has_char ":" (pretty p) = false.
Proof.
  unfold pretty, pretty_positive, pretty, pretty_N.
  case_decide; [done|]. by rewrite pretty_N_go_no_colon.
Qed.

Lemma str_int_no_colon (n : Z) : has_char ":" (str_int n) = false.
Proof.
  unfold str_int, pretty, pretty_Z.
  destruct n as [|p|p]; [done|apply pretty_positive_no_colon|].
  rewrite has_char_app. by rewrite pretty_positive_no_colon.
Qed.

(** A path, a colon and a colon-free suffix determine both parts. *)
Lemma colon_split_inj (a b p q : string) :
  has_char ":" p = false → has_char ":" q = false →
  a +:+ ":" +:+ p = b +:+ ":" +:+ q → a = b ∧ p = q.
Proof.
  intros Hp Hq. revert b.
  induction a as [|x a IH]; intros [|y b]; simpl; intros Heq.
  - by injection Heq.
  - injection Heq as _ Heq. change ("" +:+ p) with p in Heq. subst p.
    rewrite has_char_app in Hp. simpl in Hp.
    by rewrite orb_true_r in Hp.
  - injection Heq as _ Heq. change ("" +:+ q) with q in Heq. subst q.
    rewrite has_char_app in Hq. simpl in Hq.
    by rewrite orb_true_r in Hq.
  - injection Heq as -> Heq. apply IH in Heq as [-> ->]. done.
Qed.

End PyStrFacts.

Section Dedup.
Import PyStr Models Analyze Props.

(** The string key of the source separates exactly the identities. *)
Lemma location_key_inj (f g : AstGrepFinding) :
  location_key f = location_key g ↔ identity f = identity g.
Proof.
  unfold location_key, identity. split.
  - intros Heq.
    apply colon_split_inj in Heq as [-> Hl]; [|apply str_int_no_colon..].
    by apply (inj pretty) in Hl as ->.
  - by intros [= -> ->].
Qed.

Lemma deduplicate_snoc (l : list AstGrepFinding) (x : AstGrepFinding) :
  deduplicate (l ++ [x]) = dedup_step (deduplicate l) x.
Proof. unfold deduplicate. by rewrite foldl_app. Qed.

Lemma seen_locations_spec (l : list AstGrepFinding) :
  seen_locations (deduplicate l) = list_to_set (map location_key l).
Proof.
  induction l as [|x l IH] using rev_ind; [done|].
  rewrite deduplicate_snoc, map_app, list_to_set_app_L. cbn.
  unfold dedup_step. rewrite IH.
  case_bool_decide as Hin; cbn [seen_locations];
    rewrite (right_id_L ∅ (∪)); [done|].
  symmetry. rewrite (comm_L (∪)).
  by apply subseteq_union_1_L, singleton_subseteq_l.
Qed.

Lemma seen_iff_identity (l : list AstGrepFinding) (x : AstGrepFinding) :
  location_key x ∈ (list_to_set (map location_key l) : gset string)
  ↔ identity x ∈ map identity l.
Proof.
  rewrite elem_of_list_to_set, !list_elem_of_fmap.
  split; intros (y & Heq & ?); exists y; (split; [|done]);
    apply location_key_inj; exact Heq.
Qed.

Lemma unique_findings_snoc (l : list AstGrepFinding) (x : AstGrepFinding) :
  unique_findings (deduplicate (l ++ [x])) =
  unique_findings (deduplicate l) ++
    (if bool_decide (identity x ∈ map identity l) then [] else [x]).
Proof.
  rewrite deduplicate_snoc. unfold dedup_step.
  rewrite seen_locations_spec.
  pose proof (seen_iff_identity l x) as Hiff.
  repeat case_bool_decide; cbn; try done.
  - exfalso. tauto.
  - by rewrite app_nil_r.
  - exfalso. tauto.
Qed.

Lemma duplicates_removed_spec (l : list AstGrepFinding) :
  duplicates_removed (deduplicate l) =
  Z.of_nat (length l) - Z.of_nat (length (unique_findings (deduplicate l))).
Proof.
  induction l as [|x l IH] using rev_ind; [done|].
  rewrite unique_findings_snoc, !length_app.
  rewrite deduplicate_snoc. unfold dedup_step.
  rewrite seen_locations_spec.
  pose proof (seen_iff_identity l x) as Hiff.
  repeat case_bool_decide; cbn; rewrite ?IH; try lia; exfalso; tauto.
Qed.

Lemma unique_identities (l : list AstGrepFinding) :
  NoDup (map identity (unique_findings (deduplicate l))) ∧
  ∀ k, k ∈ map identity (unique_findings (deduplicate l))
       ↔ k ∈ map identity l.
Proof.
  induction l as [|x l [IHnd IHset]] using rev_ind.
  { split; [constructor|done]. }
  rewrite unique_findings_snoc. case_bool_decide as Hin.
  - rewrite app_nil_r. split; [done|].
    intros k. rewrite IHset, map_app, elem_of_app.
    split; [by left|].
    intros [?|Hk]; [done|]. by apply list_elem_of_singleton in Hk as ->.
  - rewrite !map_app. cbn. split.
    + apply NoDup_app. split_and!; [done| |apply NoDup_singleton].
      intros k Hk ->%list_elem_of_singleton. by apply Hin, IHset.
    + intros k. rewrite !elem_of_app, IHset. done.
Qed.

Lemma unique_first_seen (l : list AstGrepFinding) (g : AstGrepFinding) :
  g ∈ unique_findings (deduplicate l) →
  ∃ n, l !! n = Some g ∧
       ∀ m f, l !! m = Some f → (m < n)%nat → identity f ≠ identity g.
Proof.
  induction l as [|x l IH] using rev_ind; [by intros ?%elem_of_nil|].
  rewrite unique_findings_snoc, elem_of_app. intros [Hg|Hg].
  - destruct (IH Hg) as (n & Hn & Hfirst). exists n. split.
    + by apply lookup_app_l_Some.
    + intros m f Hm Hlt. apply (Hfirst m f); [|done].
      rewrite lookup_app_l in Hm; [done|].
      apply lookup_lt_Some in Hn. lia.
  - case_bool_decide as Hin; [by apply elem_of_nil in Hg|].
    apply list_elem_of_singleton in Hg as ->.
    exists (length l). split.
    + by rewrite lookup_app_r, Nat.sub_diag.
    + intros m f Hm Hlt Heq. apply Hin. rewrite <-Heq.
      rewrite lookup_app_l in Hm by done.
      apply list_elem_of_fmap. exists f. split; [done|].
      by eapply list_elem_of_lookup_2.
Qed.

Lemma unique_sublist (l : list AstGrepFinding) :
  unique_findings (deduplicate l) `sublist_of` l.
Proof.
  induction l as [|x l IH] using rev_ind; [done|].
  rewrite unique_findings_snoc. case_bool_decide.
  - rewrite app_nil_r. by apply sublist_inserts_r.
  - by apply sublist_app.
Qed.

(** C7.  De-duplication keeps, for every distinct (file_path, line)
    identity of the raw findings, exactly one finding: the first record
    seen with that identity.  The kept findings are in first-seen order
    (a subsequence of the input), and the number of duplicates removed is
    the input length minus the number of distinct identities. *)
Theorem dedup_keeps_first_seen (raw : list AstGrepFinding) :
  let out := unique_findings (deduplicate raw) in
  NoDup (map identity out) ∧
  (∀ f, f ∈ raw → ∃ g, g ∈ out ∧ identity g = identity f) ∧
  (∀ g, g ∈ out →
     ∃ n, raw !! n = Some g ∧
          ∀ m f, raw !! m = Some f → (m < n)%nat → identity f ≠ identity g) ∧
  out `sublist_of` raw ∧
  length out = distinct_identities raw ∧
  duplicates_removed (deduplicate raw) =
    Z.of_nat (length raw) - Z.of_nat (distinct_identities raw).
Proof.
  cbv zeta. destruct (unique_identities raw) as [Hnd Hset].
  assert (length (unique_findings (deduplicate raw))
          = distinct_identities raw) as Hlen.
  { unfold distinct_identities.
    assert (list_to_set (map identity raw)
            = (list_to_set (map identity (unique_findings (deduplicate raw)))
               : gset (string * Z))) as ->.
    { apply set_eq. intros k. rewrite !elem_of_list_to_set. by rewrite Hset. }
    rewrite size_list_to_set by done. by rewrite length_map. }
  split_and!; [done| |by apply unique_first_seen|apply unique_sublist|done|].
  - intros f Hf.
    assert (identity f ∈ map identity (unique_findings (deduplicate raw)))
      as Hin.
    { apply Hset, list_elem_of_fmap. by exists f. }
    apply list_elem_of_fmap in Hin as (g & ? & ?). by exists g.
  - rewrite duplicates_removed_spec. by rewrite Hlen.
Qed.

End Dedup.

Section SortedFacts.
Import Agent.
Context {A : Type} (key : A → Z).

Lemma insert_sorted_perm (x : A) (l : list A) :
  Permutation (insert_sorted key x l) (x :: l).
Proof.
  induction l as [|y l IH]; simpl; [done|].
  destruct (key x <=? key y); [done|].
  rewrite IH. apply perm_swap.
Qed.

Lemma sorted_perm (l : list A) : Permutation (sorted key l) l.
Proof.
  induction l as [|x l IH]; simpl; [done|].
  rewrite insert_sorted_perm. by constructor.
Qed.

Lemma insert_sorted_sorted (x : A) (l : list A) :
  StronglySorted (λ a b, key a ≤ key b) l →
  StronglySorted (λ a b, key a ≤ key b) (insert_sorted key x l).
Proof.
  induction 1 as [|y l Hl IH Hy]; simpl.
  - repeat constructor.
  - destruct (Z.leb_spec (key x) (key y)) as [Hle|Hlt].
    + constructor; [by constructor|].
      constructor; [done|].
      eapply Forall_impl; [exact Hy|]. simpl. lia.
    + constructor; [done|].
      rewrite insert_sorted_perm. constructor; [lia|done].
Qed.

Lemma sorted_sorted (l : list A) :
  StronglySorted (λ a b, key a ≤ key b) (sorted key l).
Proof.
  induction l as [|x l IH]; simpl; [constructor|].
  by apply insert_sorted_sorted.
Qed.

(** Inserting never moves an element past one that [p] groups with it. *)
Lemma insert_sorted_filter (p : A → bool) (x : A) (l : list A) :
  (∀ a b, p a = true → p b = true → key a = key b) →
  List.filter p (insert_sorted key x l) = List.filter p (x :: l).
Proof.
  intros Hp. induction l as [|y l IH]; simpl; [done|].
  destruct (Z.leb_spec (key x) (key y)) as [Hle|Hlt]; [done|].
  simpl in *. rewrite IH.
  destruct (p x) eqn:Hx, (p y) eqn:Hy; try done.
  specialize (Hp _ _ Hx Hy). lia.
Qed.

Lemma sorted_filter (p : A → bool) (l : list A) :
  (∀ a b, p a = true → p b = true → key a = key b) →
  List.filter p (sorted key l) = List.filter p l.
Proof.
  intros Hp. induction l as [|x l IH]; simpl; [done|].
  rewrite insert_sorted_filter by done. simpl. by rewrite IH.
Qed.

End SortedFacts.

Section Prioritize.
Import Models Agent Props.

Lemma risk_is_same_rank (r : RiskLevel) (a b : FunctionAnalysis) :
  risk_is r a = true → risk_is r b = true → rank a = rank b.
Proof.
  unfold risk_is, rank.
  by destruct (risk_level a), (risk_level b), r.
Qed.

Lemma prioritize_findings_ok {W : Type} `{Provider W}
    (analyses : list FunctionAnalysis) (w w' : W)
    (pf : PrioritizedFindings) :
  prioritize_findings analyses w = (Ok pf, w') →
  ∃ output,
    summary_agent_run
      (summary_prompt analyses (sorted rank analyses)
         (count_if is_high_priority analyses)) w = (Ok output, w') ∧
    pf = {| total_functions_analyzed := len analyses;
            high_priority_count := count_if is_high_priority analyses;
            findings := sorted rank analyses;
            summary := summary output;
            recommendations := recommendations output |}.
Proof.
  unfold prioritize_findings. fold rank.
  destruct (summary_agent_run _ w) as [[output|e] w1]; [|done].
  intros [= <- <-]. by exists output.
Qed.

Lemma count_if_perm {A : Type} (p : A → bool) (l l' : list A) :
  Permutation l l' → count_if p l = count_if p l'.
Proof.
  intros Hperm. unfold count_if. f_equal.
  induction Hperm; simpl; repeat case_match; simpl; lia.
Qed.

(** C5.  The findings list returned by [prioritize_findings] is the input
    stably sorted by risk level in the order CRITICAL, HIGH, MEDIUM, LOW,
    INFO: it is non-decreasing in severity rank, it is a permutation of
    the input, and for every risk level the analyses of that level appear
    in their input order. *)
Theorem prioritize_findings_stable_sort {W : Type} `{Provider W}
    (analyses : list FunctionAnalysis) (w w' : W)
    (pf : PrioritizedFindings) :
  prioritize_findings analyses w = (Ok pf, w') →
  map risk_order [CRITICAL; HIGH; MEDIUM; LOW; INFO] = [0; 1; 2; 3; 4] ∧
  StronglySorted (λ a b, rank a ≤ rank b) (findings pf) ∧
  Permutation (findings pf) analyses ∧
  ∀ r, List.filter (risk_is r) (findings pf)
       = List.filter (risk_is r) analyses.
Proof.
  intros (output & _ & ->)%prioritize_findings_ok. simpl.
  split_and!; [done|apply sorted_sorted|apply sorted_perm|].
  intros r. apply sorted_filter, risk_is_same_rank.
Qed.

Lemma prioritize_findings_stable_sort_witness :
  prioritize_findings Scenario.sample_analyses
    (Scenario.script [] [] [Ok (Scenario.narrative "two handlers")])
  = (Ok (Scenario.sample_report "two handlers"),
     Scenario.after_calls ["summary"]) ∧
  StronglySorted (λ a b, rank a ≤ rank b)
    (findings (Scenario.sample_report "two handlers")) ∧
  Permutation (findings (Scenario.sample_report "two handlers"))
    Scenario.sample_analyses.
Proof.
  assert (prioritize_findings Scenario.sample_analyses
            (Scenario.script [] [] [Ok (Scenario.narrative "two handlers")])
          = (Ok (Scenario.sample_report "two handlers"),
             Scenario.after_calls ["summary"])) as Hrun
    by (vm_compute; reflexivity).
  split; [exact Hrun|].
  destruct (prioritize_findings_stable_sort _ _ _ _ Hrun)
    as (_ & Hsorted & Hperm & _).
  by split.
Defined.

(** C8.  In the report returned by [prioritize_findings], the findings
    list, [total_functions_analyzed] and [high_priority_count] are the
    values computed locally from the analyses: the sorted list, the length
    and the number of CRITICAL or HIGH analyses, the last being the same
    for every reordering of the input.  Two runs on the same analyses,
    whatever the narrative tier answers in each, agree on these three
    fields; the tier's answer reaches the report only through [summary]
    and [recommendations], which are copied from it. *)
Theorem narrative_cannot_alter_findings {W1 W2 : Type}
    `{Provider W1} `{Provider W2}
    (analyses : list FunctionAnalysis) (w1 w1' : W1) (w2 w2' : W2)
    (pf1 pf2 : PrioritizedFindings) :
  prioritize_findings analyses w1 = (Ok pf1, w1') →
  prioritize_findings analyses w2 = (Ok pf2, w2') →
  (findings pf1 = sorted rank analyses ∧
   total_functions_analyzed pf1 = len analyses ∧
   high_priority_count pf1 = count_if is_high_priority analyses) ∧
  (findings pf2 = findings pf1 ∧
   total_functions_analyzed pf2 = total_functions_analyzed pf1 ∧
   high_priority_count pf2 = high_priority_count pf1) ∧
  (∀ reordered, Permutation analyses reordered →
     count_if is_high_priority reordered = high_priority_count pf1) ∧
  (∃ out1 out2,
     summary pf1 = summary out1 ∧ recommendations pf1 = recommendations out1 ∧
     summary pf2 = summary out2 ∧ recommendations pf2 = recommendations out2 ∧
     fst (summary_agent_run
            (summary_prompt analyses (sorted rank analyses)
               (count_if is_high_priority analyses)) w1) = Ok out1 ∧
     fst (summary_agent_run
            (summary_prompt analyses (sorted rank analyses)
               (count_if is_high_priority analyses)) w2) = Ok out2).
Proof.
  intros (out1 & Hout1 & ->)%prioritize_findings_ok
         (out2 & Hout2 & ->)%prioritize_findings_ok.
  simpl. split_and!; try done.
  - intros reordered Hperm. symmetry. by apply count_if_perm.
  - exists out1, out2. by rewrite Hout1, Hout2.
Qed.

Lemma narrative_cannot_alter_findings_witness :
  prioritize_findings Scenario.sample_analyses
    (Scenario.script [] [] [Ok (Scenario.narrative "review uploads first")])
  = (Ok (Scenario.sample_report "review uploads first"),
     Scenario.after_calls ["summary"]) ∧
  prioritize_findings Scenario.sample_analyses
    (Scenario.script [] [] [Ok (Scenario.narrative "nothing to report")])
  = (Ok (Scenario.sample_report "nothing to report"),
     Scenario.after_calls ["summary"]) ∧
  findings (Scenario.sample_report "nothing to report")
  = findings (Scenario.sample_report "review uploads first") ∧
  high_priority_count (Scenario.sample_report "nothing to report")
  = high_priority_count (Scenario.sample_report "review uploads first").
Proof.
  assert (prioritize_findings Scenario.sample_analyses
            (Scenario.script [] []
               [Ok (Scenario.narrative "review uploads first")])
          = (Ok (Scenario.sample_report "review uploads first"),
             Scenario.after_calls ["summary"])) as Hrun1
    by (vm_compute; reflexivity).
  assert (prioritize_findings Scenario.sample_analyses
            (Scenario.script [] []
               [Ok (Scenario.narrative "nothing to report")])
          = (Ok (Scenario.sample_report "nothing to report"),
             Scenario.after_calls ["summary"])) as Hrun2
    by (vm_compute; reflexivity).
  split; [exact Hrun1|]. split; [exact Hrun2|].
  destruct (narrative_cannot_alter_findings _ _ _ _ _ _ _ Hrun1 Hrun2)
    as (_ & (Hf & _ & Hc) & _).
  by split.
Defined.

End Prioritize.

Section Resolver.
Import PyStr DeploymentParser Props.

Lemma check_repo_path_spec (file_path : string) (n : string)
    (info : ServiceInfo) (st : MatchState) (repo_path : string) :
  check_repo_path (normalize_path file_path)
    (split "/"%char (normalize_path file_path)) n info st repo_path
  = if fragment_matches file_path repo_path
    then keep_if_longer n info (fragment_length repo_path) st else st.
Proof.
  unfold check_repo_path, fragment_matches, fragment_length.
  by repeat case_match.
Qed.

Lemma keep_if_longer_best (n : string) (info : ServiceInfo) (L : Z)
    (st : MatchState) :
  best_match_length st ≤ best_match_length (keep_if_longer n info L st).
Proof. unfold keep_if_longer. case_bool_decide; simpl; lia. Qed.

Lemma keep_if_longer_short (n : string) (info : ServiceInfo) (L : Z)
    (st : MatchState) :
  L ≤ best_match_length st → keep_if_longer n info L st = st.
Proof. intros ?. unfold keep_if_longer. case_bool_decide; [lia|done]. Qed.

Lemma empty_fragment_length (repo_path : string) :
  nonempty_fragment repo_path = false → fragment_length repo_path = 0.
Proof.
  unfold nonempty_fragment, fragment_length.
  by destruct (normalize_repo_path repo_path).
Qed.

Lemma nonempty_fragment_length (repo_path : string) :
  nonempty_fragment repo_path = true → 0 < fragment_length repo_path.
Proof.
  unfold nonempty_fragment, fragment_length.
  destruct (normalize_repo_path repo_path); [done|]. simpl. lia.
Qed.

Lemma keep_longest_app
    (a b : list (string * ServiceInfo * Z)) (st : MatchState) :
  keep_longest (a ++ b) st = keep_longest b (keep_longest a st).
Proof. unfold keep_longest. by rewrite foldl_app. Qed.

Lemma keep_longest_best (cands : list (string * ServiceInfo * Z))
    (st : MatchState) :
  best_match_length st ≤ best_match_length (keep_longest cands st).
Proof.
  revert st. induction cands as [|c cands IH]; intros st; simpl; [lia|].
  etrans; [|apply IH]. apply keep_if_longer_best.
Qed.

(** One service: the inner loop keeps the longest admitted fragment. *)
Lemma check_service_spec (file_path : string) (n : string)
    (info : ServiceInfo) (st : MatchState) :
  0 ≤ best_match_length st →
  check_service (normalize_path file_path)
    (split "/"%char (normalize_path file_path)) st (n, info)
  = keep_longest
      (map (λ repo_path, (n, info, fragment_length repo_path))
         (List.filter
            (λ repo_path,
               fragment_matches file_path repo_path
               && nonempty_fragment repo_path)
            (default [] (repository_paths info)))) st.
Proof.
  unfold check_service.
  generalize (default [] (repository_paths info)) as rps.
  intros rps. revert st.
  induction rps as [|rp rps IH]; intros st Hst; simpl; [done|].
  rewrite check_repo_path_spec.
  destruct (fragment_matches file_path rp) eqn:Hm; simpl; [|by apply IH].
  destruct (nonempty_fragment rp) eqn:Hne; simpl.
  - apply IH. etrans; [exact Hst|]. apply keep_if_longer_best.
  - rewrite keep_if_longer_short;
      [by apply IH|by rewrite empty_fragment_length].
Qed.

Lemma find_service_spec (m : DeploymentModel) (file_path : string) :
  find_service m file_path
  = keep_longest (candidates nonempty_fragment m file_path) no_match.
Proof.
  unfold find_service, candidates. cbv zeta.
  assert (0 ≤ best_match_length no_match) as Hst by done.
  revert Hst. generalize no_match as st.
  induction (services m) as [|[n info] svcs IH]; intros st Hst;
    cbn [foldl flat_map fst snd]; [done|].
  rewrite keep_longest_app, check_service_spec by done.
  apply IH. etrans; [exact Hst|]. apply keep_longest_best.
Qed.

(** Either nothing beats the state, or the first longest candidate that
    does replaces it. *)
Lemma keep_longest_spec (cands : list (string * ServiceInfo * Z))
    (st : MatchState) :
  (Forall (λ c, c.2 ≤ best_match_length st) cands ∧
   keep_longest cands st = st) ∨
  (∃ pre n info L post,
     cands = pre ++ (n, info, L) :: post ∧
     best_match_length st < L ∧
     Forall (λ c, c.2 < L) pre ∧ Forall (λ c, c.2 ≤ L) post ∧
     keep_longest cands st
     = {| matched_service := Some info; matched_service_name := Some n;
          best_match_length := L |}).
Proof.
  revert st. induction cands as [|[[n info] L] cands IH]; intros st.
  { left. by split. }
  change (keep_longest ((n, info, L) :: cands) st)
    with (keep_longest cands (keep_if_longer n info L st)).
  unfold keep_if_longer. case_bool_decide as Hlt.
  - right.
    destruct (IH {| matched_service := Some info;
                    matched_service_name := Some n;
                    best_match_length := L |})
      as [[Hall ->]|(pre & n' & info' & L' & post & -> & HL & Hpre & Hpost & ->)].
    + exists [], n, info, L, cands. simpl in *. split_and!; try done. lia.
    + exists ((n, info, L) :: pre), n', info', L', post.
      simpl in *. split_and!; try done; [lia|].
      constructor; [simpl; lia|done].
  - destruct (IH st)
      as [[Hall ->]|(pre & n' & info' & L' & post & -> & HL & Hpre & Hpost & ->)].
    + left. split; [|done]. constructor; [simpl; lia|done].
    + right. exists ((n, info, L) :: pre), n', info', L', post.
      split_and!; try done. constructor; [simpl; lia|done].
Qed.

Lemma candidates_positive (m : DeploymentModel) (file_path : string) :
  Forall (λ c, 0 < c.2) (candidates nonempty_fragment m file_path).
Proof.
  unfold candidates. apply Forall_forall. intros c Hc.
  apply list_elem_of_In, in_flat_map in Hc as ([n info] & _ & Hc).
  apply in_map_iff in Hc as (rp & <- & Hrp).
  apply filter_In in Hrp as [_ [_ Hne]%andb_prop]. simpl.
  by apply nonempty_fragment_length.
Qed.

Lemma get_deployment_context_resolved (m : DeploymentModel)
    (file_path : string) :
  get_deployment_context m file_path
  = (λ r : string * ServiceInfo,
       {| service_name := default r.1 (name r.2);
          trust_zone := find_trust_zone (trust_zones m) r.1;
          ctx_network_exposure :=
            default "Internal only" (network_exposure r.2);
          authentication_method :=
            if truthy_opt (find_comm_auth (communications m) r.1)
            then find_comm_auth (communications m) r.1
            else user_authentication_method m;
          ctx_deployment_target := deployment_target r.2;
          ctx_upstream_services := default [] (upstream_services r.2);
          ctx_downstream_services := default [] (downstream_services r.2) |})
    <$> resolved m file_path.
Proof.
  unfold resolved, get_deployment_context.
  destruct (services m) as [|entry svcs] eqn:Hsvcs.
  { unfold find_service. by rewrite Hsvcs. }
  by destruct (matched_service_name (find_service m file_path)),
    (matched_service (find_service m file_path)).
Qed.

Lemma find_comm_auth_find (comms : list CommunicationProtocol) (n : string) :
  find_comm_auth comms n
  = List.find (λ c, bool_decide (from_service c = Some n)) comms
    ≫= auth_method.
Proof.
  induction comms as [|c comms IH]; simpl; [done|].
  by case_bool_decide.
Qed.

(** C6.  When a service is matched, the context's authentication method
    comes from the first communication record whose [from_service] is the
    matched service, provided that record carries a usable (present and
    non-empty) [auth_method]; with no such record, or with an unusable
    [auth_method] in it, it is the model's global
    [user_authentication_method]. *)
Theorem auth_method_precedence (m : DeploymentModel) (file_path : string)
    (ctx : DeploymentContext) :
  get_deployment_context m file_path = Some ctx →
  ∃ matched,
    matched_service_name (find_service m file_path) = Some matched ∧
    authentication_method ctx =
      match List.find (λ c, bool_decide (from_service c = Some matched))
                      (communications m) with
      | Some record =>
          if truthy_opt (auth_method record) then auth_method record
          else user_authentication_method m
      | None => user_authentication_method m
      end.
Proof.
  rewrite get_deployment_context_resolved. unfold resolved.
  destruct (matched_service_name (find_service m file_path)) as [n|];
    [|done].
  destruct (matched_service (find_service m file_path)) as [info|];
    [|done].
  intros [= <-]. exists n. split; [done|]. simpl.
  rewrite find_comm_auth_find.
  by destruct (List.find _ (communications m)).
Qed.

Lemma auth_method_precedence_witness :
  get_deployment_context Scenario.sample_model "app/api/users.py"
  = Some Scenario.sample_context ∧
  authentication_method Scenario.sample_context = Some "IAM Role".
Proof.
  assert (get_deployment_context Scenario.sample_model "app/api/users.py"
          = Some Scenario.sample_context) as Hctx
    by (vm_compute; reflexivity).
  split; [exact Hctx|].
  destruct (auth_method_precedence _ _ _ Hctx) as (matched & Hm & ->).
  vm_compute in Hm. injection Hm as <-. reflexivity.
Defined.

(** C3, as amended.  Among the declared fragments that are not empty once
    normalised, the resolver keeps the service owning the first fragment of
    greatest matched length over all services and all three strategies, and
    keeps none exactly when no such fragment matches; the context it
    returns names that service.  With services declaring "app/" and
    "app/api/", in either order, "app/api/users.py" resolves to the
    "app/api/" service. *)
Theorem resolver_keeps_longest_match (m : DeploymentModel)
    (file_path : string) :
  longest_match nonempty_fragment m file_path ∧
  get_deployment_context m file_path
  = (λ r : string * ServiceInfo,
       {| service_name := default r.1 (name r.2);
          trust_zone := find_trust_zone (trust_zones m) r.1;
          ctx_network_exposure :=
            default "Internal only" (network_exposure r.2);
          authentication_method :=
            if truthy_opt (find_comm_auth (communications m) r.1)
            then find_comm_auth (communications m) r.1
            else user_authentication_method m;
          ctx_deployment_target := deployment_target r.2;
          ctx_upstream_services := default [] (upstream_services r.2);
          ctx_downstream_services := default [] (downstream_services r.2) |})
    <$> resolved m file_path ∧
  ∀ (web_name api_name : string) (web api : ServiceInfo) zones comms auth,
    resolved
      {| services := [(web_name, declaring ["app/"] web);
                      (api_name, declaring ["app/api/"] api)];
         trust_zones := zones; communications := comms;
         user_authentication_method := auth |}
      "app/api/users.py"
    = Some (api_name, declaring ["app/api/"] api) ∧
    resolved
      {| services := [(api_name, declaring ["app/api/"] api);
                      (web_name, declaring ["app/"] web)];
         trust_zones := zones; communications := comms;
         user_authentication_method := auth |}
      "app/api/users.py"
    = Some (api_name, declaring ["app/api/"] api).
Proof.
  split_and!; [|apply get_deployment_context_resolved|by intros].
  unfold longest_match, resolved. rewrite find_service_spec.
  pose proof (candidates_positive m file_path) as Hpos.
  destruct (keep_longest_spec (candidates nonempty_fragment m file_path)
              no_match)
    as [[Hall ->]|(pre & n & info & L & post & Hc & _ & Hpre & Hpost & ->)];
    simpl.
  - destruct (candidates nonempty_fragment m file_path) as [|c cands];
      [done|].
    apply Forall_cons in Hall as [Hle _].
    apply Forall_cons in Hpos as [Hlt _]. simpl in *. lia.
  - by exists pre, L, post.
Qed.

(** The claim without the amendment fails: a service declaring "/" matches
    "/srv/app.py" by the prefix strategy with a fragment of length 0, and
    the resolver keeps no service. *)
Lemma empty_fragment_never_kept :
  fragment_matches "/srv/app.py" "/" = true ∧
  get_deployment_context Scenario.root_model "/srv/app.py" = None ∧
  ¬ longest_match any_fragment Scenario.root_model "/srv/app.py".
Proof.
  split_and!; [by vm_compute..|].
  unfold longest_match.
  assert (resolved Scenario.root_model "/srv/app.py" = None) as ->
    by (by vm_compute).
  by vm_compute.
Qed.

End Resolver.

Section StripFacts.
Import PyStr StrProps.

Lemma prefix_weaken (a b s : string) :
  String.prefix (a +:+ b) s = true → String.prefix a s = true.
Proof.
  revert s. induction a as [|c a IH]; intros s; [by destruct s|].
  change (String c a +:+ b) with (String c (a +:+ b)).
  destruct s as [|c' s]; simpl; [done|].
  destruct (ascii_dec c c'); [apply IH|done].
Qed.

Lemma contains_weaken (a b s : string) :
  contains (a +:+ b) s = true → contains a s = true.
Proof.
  induction s as [|c s IH]; cbn [contains].
  - rewrite !orb_false_r. apply prefix_weaken.
  - intros [Hp|Hc]%orb_prop.
    + by rewrite (prefix_weaken _ _ _ Hp).
    + rewrite (IH Hc). by rewrite orb_true_r.
Qed.

Lemma contains_empty (s : string) : contains "" s = true.
Proof. by destruct s. Qed.

Lemma prefix_head (p : ascii → bool) (sub s : string) (c : ascii) :
  all_chars (λ x, negb (p x)) sub = true → sub ≠ "" → p c = true →
  String.prefix sub (String c s) = false.
Proof.
  intros Hsub Hne Hc. destruct sub as [|a sub]; [done|].
  simpl in *. destruct (ascii_dec a c) as [->|]; [|done].
  by rewrite Hc in Hsub.
Qed.

Lemma contains_lstrip (p : ascii → bool) (sub s : string) :
  all_chars (λ x, negb (p x)) sub = true → sub ≠ "" →
  contains sub (lstrip p s) = contains sub s.
Proof.
  intros Hsub Hne. induction s as [|c s IH]; [done|].
  cbn [lstrip]. destruct (p c) eqn:Hc; [|done].
  rewrite IH. cbn [contains]. by rewrite (prefix_head p).
Qed.

Lemma prefix_rstrip (p : ascii → bool) (sub s : string) :
  all_chars (λ x, negb (p x)) sub = true →
  String.prefix sub (rstrip p s) = String.prefix sub s.
Proof.
  revert sub. induction s as [|c s IH]; intros sub Hsub; [done|].
  destruct sub as [|a sub]; [by destruct (rstrip p (String c s))|].
  simpl in Hsub. apply andb_prop in Hsub as [Ha Hsub].
  specialize (IH sub Hsub). cbn [rstrip].
  destruct (rstrip p s) as [|c' r] eqn:Hr.
  - destruct (p c) eqn:Hc; simpl.
    + destruct (ascii_dec a c) as [->|]; [|done]. by rewrite Hc in Ha.
    + destruct (ascii_dec a c); [|done]. by rewrite <-IH.
  - simpl. destruct (ascii_dec a c); [|done]. exact IH.
Qed.

Lemma contains_rstrip (p : ascii → bool) (sub s : string) :
  all_chars (λ x, negb (p x)) sub = true →
  contains sub (rstrip p s) = contains sub s.
Proof.
  intros Hsub. induction s as [|c s IH]; [done|].
  cbn [contains]. rewrite <-IH, <-(prefix_rstrip p sub (String c s)) by done.
  cbn [rstrip]. destruct (rstrip p s) as [|c' r] eqn:Hr.
  - destruct (p c); cbn [contains]; by destruct (String.prefix sub _).
  - done.
Qed.

Lemma contains_strip (p : ascii → bool) (sub s : string) :
  all_chars (λ x, negb (p x)) sub = true → sub ≠ "" →
  contains sub (strip p s) = contains sub s.
Proof.
  intros Hsub Hne. unfold strip.
  by rewrite contains_rstrip, contains_lstrip.
Qed.

Lemma lstrip_map (f : ascii → ascii) (p : ascii → bool) (s : string) :
  (∀ c, p (f c) = p c) →
  map_chars f (lstrip p s) = lstrip p (map_chars f s).
Proof.
  intros Hf. induction s as [|c s IH]; [done|].
  cbn [lstrip map_chars]. rewrite Hf. by destruct (p c).
Qed.

Lemma rstrip_map (f : ascii → ascii) (p : ascii → bool) (s : string) :
  (∀ c, p (f c) = p c) →
  map_chars f (rstrip p s) = rstrip p (map_chars f s).
Proof.
  intros Hf. induction s as [|c s IH]; [done|].
  cbn [rstrip map_chars]. rewrite <-IH, Hf.
  destruct (rstrip p s); [by destruct (p c)|done].
Qed.

Lemma upper_strip (s : string) :
  upper (strip isspace s) = strip isspace (upper s).
Proof.
  assert (∀ c, isspace (upper_char c) = isspace c) as Hspace.
  { intros c. by destruct c as [[] [] [] [] [] [] [] []]. }
  unfold upper, strip. by rewrite rstrip_map, lstrip_map.
Qed.

(** The test of [fast_check_false_positive] on a reply. *)
Lemma verdict_holds_false (output : string) :
  contains "FALSE_POSITIVE" (upper (strip isspace output))
  || contains "FALSE" (upper (strip isspace output))
  = contains "FALSE" (upper output).
Proof.
  rewrite upper_strip, !(contains_strip isspace) by done.
  destruct (contains "FALSE" (upper output)) eqn:Hfalse;
    [by rewrite orb_true_r|].
  rewrite orb_false_r. apply not_true_is_false. intros Hfp.
  apply (contains_weaken "FALSE" "_POSITIVE") in Hfp. congruence.
Qed.

End StripFacts.

Section PipelineFacts.
Import PyStr Models Agent Props Verdicts.
Context {W : Type} `{Provider W}.
Variable code_reader : string → Z → option string.

Lemma locals_of_bind_i (idx : Z) (st : BatchLocals) :
  locals_of (b_bind_i idx st) = s_bind_i idx (locals_of st).
Proof. done. Qed.

Lemma locals_of_print (e : Event) (st : BatchLocals) :
  locals_of (b_print e st) = s_print e (locals_of st).
Proof. done. Qed.

Lemma locals_of_fast_filtered (st : BatchLocals) :
  locals_of (b_fast_filtered st) = s_fast_filtered (locals_of st).
Proof. done. Qed.

Lemma locals_of_real_handler (st : BatchLocals) :
  locals_of (b_real_handler st) = s_real_handler (locals_of st).
Proof. done. Qed.

Lemma locals_of_append (a : FunctionAnalysis) (st : BatchLocals) :
  locals_of (b_append a st) = s_analyzed (locals_of st).
Proof.
  unfold locals_of, b_append, s_analyzed, len. simpl. f_equal.
  rewrite length_app. simpl. lia.
Qed.

(** One resumption of the consumer loop, spelled out. *)
Lemma async_for_step (fuel : nat) (g : Generator)
    (written : list FunctionAnalysis) (w : W) :
  async_for code_reader (S fuel) g written w
  = match stream_loop code_reader (g_max_real_handlers g) (g_total g)
            (g_iter g) (g_next g) (g_locals g) w with
    | (Yield analysis g', w') =>
        async_for code_reader fuel g' (written ++ [analysis]) w'
    | (Return st, w') =>
        (Some {| lines := written; raised := None; locals := st |}, w')
    | (Throw e st, w') =>
        (Some {| lines := written; raised := Some e; locals := st |}, w')
    end.
Proof. done. Qed.

(** The consumer of the stream, resumed on a frame that corresponds to
    a state of the batch loop, ends where the batch loop ends. *)
Lemma stream_simulates_batch (max_real_handlers : option Z) (total : Z)
    (fs : list AstGrepFinding) :
  ∀ (fuel : nat) (idx : Z) (st : BatchLocals) (w : W),
    (length fs < fuel)%nat →
    async_for code_reader fuel
      (frame max_real_handlers total fs idx (locals_of st)) (analyses st) w
    = (Some (stream_of_batch
               (batch_loop code_reader max_real_handlers total fs idx st w).1),
       (batch_loop code_reader max_real_handlers total fs idx st w).2).
Proof.
  induction fs as [|finding rest IH]; intros fuel idx st w Hfuel.
  - destruct fuel as [|fuel]; [simpl in Hfuel; lia|].
    rewrite async_for_step. simpl.
    unfold stream_finish, stream_of_batch. simpl. by destruct (i st).
  - destruct fuel as [|fuel]; [simpl in Hfuel; lia|].
    simpl in Hfuel.
    assert (length rest < S fuel)%nat as Hsame by lia.
    assert (length rest < fuel)%nat as Hless by lia.
    rewrite async_for_step.
    cbn [frame g_max_real_handlers g_total g_iter g_next g_locals
         stream_loop batch_loop].
    change (s_real_handler_count (s_bind_i idx (locals_of st)))
      with (real_handler_count (b_bind_i idx st)).
    destruct (quota_reached max_real_handlers
                (real_handler_count (b_bind_i idx st))).
    { done. }
    destruct (code_reader (file_path finding) (line_number finding))
      as [[|c code_context]|].
    + by rewrite <-(IH (S fuel)) by done.
    + destruct (fast_check_false_positive _ _ w) as [[[|]|e] w1].
      * by rewrite <-(IH (S fuel)) by done.
      * destruct (triage_function _ _ w1) as [[analysis|e] w2].
        -- destruct (is_real_handler analysis);
             rewrite <-(IH fuel) by done;
             rewrite ?locals_of_print, ?locals_of_real_handler,
               locals_of_append; done.
        -- by rewrite <-(IH (S fuel)) by done.
      * by rewrite <-(IH (S fuel)) by done.
    + by rewrite <-(IH (S fuel)) by done.
Qed.

Lemma count_if_nil {A : Type} (p : A → bool) : count_if p [] = 0.
Proof. done. Qed.

Lemma count_if_cons {A : Type} (p : A → bool) (x : A) (l : list A) :
  count_if p (x :: l) = (if p x then 1 else 0) + count_if p l.
Proof. unfold count_if. simpl. destruct (p x); simpl; lia. Qed.

Lemma count_if_app {A : Type} (p : A → bool) (l l' : list A) :
  count_if p (l ++ l') = count_if p l + count_if p l'.
Proof.
  induction l as [|x l IH]; [by rewrite count_if_nil|].
  simpl. rewrite !count_if_cons, IH. lia.
Qed.

(** Case analysis on one iteration of the loop body. *)
Ltac loop_body :=
  repeat match goal with
  | |- context [quota_reached ?m ?r] =>
      destruct (quota_reached m r) eqn:?
  | |- context [code_reader ?p ?l] =>
      destruct (code_reader p l) as [[|? ?]|] eqn:?
  | |- context [fast_check_false_positive ?f ?c ?w] =>
      destruct (fast_check_false_positive f c w) as [[[|]|?] ?] eqn:?
  | |- context [triage_function ?f ?c ?w] =>
      destruct (triage_function f c w) as [[?|?] ?] eqn:?
  | |- context [is_real_handler ?a] =>
      destruct (is_real_handler a) eqn:?
  end.

(** The loop only appends to [analyses], and [real_handler_count] grows
    by the number of appended analyses that are not INFO. *)
Lemma batch_loop_counts (max_real_handlers : option Z) (total : Z)
    (fs : list AstGrepFinding) :
  ∀ (idx : Z) (st : BatchLocals) (w : W),
    ∃ new,
      analyses (batch_loop code_reader max_real_handlers total fs idx st w).1
      = analyses st ++ new ∧
      real_handler_count
        (batch_loop code_reader max_real_handlers total fs idx st w).1
      = real_handler_count st + count_if is_real_handler new.
Proof.
  induction fs as [|finding rest IH]; intros idx st w.
  { exists []. simpl. rewrite app_nil_r. split; [done|]. rewrite count_if_nil. lia. }
  cbn [batch_loop]. loop_body;
    try (exists []; simpl; rewrite app_nil_r; split; [done|];
         rewrite count_if_nil; lia);
    match goal with
    | |- context [batch_loop _ _ _ rest ?i ?s ?w'] =>
        destruct (IH i s w') as (new & -> & ->)
    end;
    simpl; try (by exists new).
  all: match goal with
       | |- ∃ _, (_ ++ [?a]) ++ ?n = _ ∧ _ => exists (a :: n)
       end.
  all: rewrite <-app_assoc, count_if_cons.
  all: match goal with
       | Hr : is_real_handler _ = _ |- _ => rewrite Hr
       end.
  all: split; [done|lia].
Qed.

Lemma quota_reached_true (N r : Z) :
  quota_reached (Some N) r = true ↔ N ≠ 0 ∧ N ≤ r.
Proof.
  unfold quota_reached.
  rewrite andb_true_iff, negb_true_iff, Z.eqb_neq, Z.geb_le. done.
Qed.

Lemma quota_reached_false (N r : Z) :
  quota_reached (Some N) r = false → N ≠ 0 → r < N.
Proof.
  intros Hq HN. destruct (decide (r < N)) as [|Hge]; [done|].
  assert (quota_reached (Some N) r = true) as Ht
    by (apply quota_reached_true; lia).
  congruence.
Qed.

(** With a positive quota the counter never passes it. *)
Lemma batch_loop_quota_bound (N total : Z) (fs : list AstGrepFinding) :
  0 < N →
  ∀ (idx : Z) (st : BatchLocals) (w : W),
    real_handler_count st ≤ N →
    real_handler_count (batch_loop code_reader (Some N) total fs idx st w).1
    ≤ N.
Proof.
  intros HN. induction fs as [|finding rest IH]; intros idx st w Hst;
    [done|].
  cbn [batch_loop]. loop_body; try done; apply IH; simpl; try done.
  match goal with
  | Hq : quota_reached _ _ = false |- _ =>
      apply quota_reached_false in Hq; simpl in Hq; lia
  end.
Qed.

(** Once the quota is reached on a prefix, what follows the prefix is
    left alone: at most the quota notice is printed. *)
Lemma batch_loop_stops (N total : Z) (pre post : list AstGrepFinding) :
  N ≠ 0 →
  ∀ (idx : Z) (st : BatchLocals) (w : W),
    N ≤ real_handler_count
          (batch_loop code_reader (Some N) total pre idx st w).1 →
    let r := batch_loop code_reader (Some N) total pre idx st w in
    let r' := batch_loop code_reader (Some N) total (pre ++ post) idx st w in
    analyses r'.1 = analyses r.1 ∧
    real_handler_count r'.1 = real_handler_count r.1 ∧
    fast_filtered_count r'.1 = fast_filtered_count r.1 ∧
    r'.2 = r.2 ∧
    (stdout r'.1 = stdout r.1 ∨
     stdout r'.1 = stdout r.1 ++ [EvQuotaReached (Some N)]).
Proof.
  intros HN. induction pre as [|finding rest IH]; intros idx st w Hq.
  - simpl in Hq. destruct post as [|f post]; [simpl; by auto 6|].
    cbn [batch_loop app].
    change (real_handler_count (b_bind_i idx st))
      with (real_handler_count st).
    assert (quota_reached (Some N) (real_handler_count st) = true) as ->
      by by apply quota_reached_true.
    simpl. by auto 6.
  - revert Hq. cbn [batch_loop app]. loop_body; intros Hq;
      try (by apply IH); by auto 6.
Qed.



Lemma streaming_start (findings : list AstGrepFinding)
    (max_real_handlers : option Z) :
  triage_all_findings_streaming findings max_real_handlers
  = frame max_real_handlers (len findings) findings 1
      (locals_of batch_start).
Proof. done. Qed.

Lemma batch_loop_real_count (max_real_handlers : option Z) (total : Z)
    (fs : list AstGrepFinding) (w : W) :
  real_handler_count
    (batch_loop code_reader max_real_handlers total fs 1 batch_start w).1
  = count_if is_real_handler
      (analyses
         (batch_loop code_reader max_real_handlers total fs 1 batch_start w).1).
Proof.
  destruct (batch_loop_counts max_real_handlers total fs 1 batch_start w)
    as (new & -> & ->).
  simpl. lia.
Qed.

Lemma stream_of_batch_fields (st : BatchLocals) :
  lines (stream_of_batch st) = analyses st ∧
  s_fast_filtered_count (locals (stream_of_batch st))
  = fast_filtered_count st ∧
  total_analyzed (locals (stream_of_batch st)) = len (analyses st) ∧
  s_real_handler_count (locals (stream_of_batch st))
  = real_handler_count st ∧
  s_i (locals (stream_of_batch st)) = i st ∧
  raised (stream_of_batch st)
  = match i st with
    | None => Some (UnboundLocalError "i")
    | Some _ => None
    end ∧
  s_stdout (locals (stream_of_batch st))
  = stdout st ++
    match i st with
    | None => []
    | Some scanned =>
        [EvStreamingSummary scanned (fast_filtered_count st)
           (len (analyses st)) (real_handler_count st)]
    end.
Proof.
  unfold stream_of_batch. destruct (i st) eqn:Hi; simpl;
    rewrite ?Hi, ?app_nil_r; done.
Qed.

(** C4.  On the same findings, code reader, provider and quota, the
    consumer of [triage_all_findings_streaming] receives exactly the
    analyses that the loop of [triage_all_findings] accumulates, in the
    same order; the provider is left in the same world, the terminal shows
    the same per-finding decisions, and the counters agree: fast-filtered,
    deep-analyzed ([total_analyzed] against the length of [analyses]) and
    real handlers (the counter against the non-INFO analyses that the batch
    summary counts).  Both read [i] after the loop, so both raise on an
    empty list.  [triage_all_findings] then goes on to sort and summarise
    what the loop accumulated. *)
Theorem batch_and_streaming_agree (findings : list AstGrepFinding)
    (max_real_handlers : option Z) (w : W) :
  let batch :=
    batch_loop code_reader max_real_handlers (len findings) findings 1
      batch_start w in
  (∃ streamed,
     async_for code_reader (S (length findings))
       (triage_all_findings_streaming findings max_real_handlers) [] w
     = (Some streamed, batch.2) ∧
     lines streamed = analyses batch.1 ∧
     s_fast_filtered_count (locals streamed) = fast_filtered_count batch.1 ∧
     total_analyzed (locals streamed) = len (analyses batch.1) ∧
     s_real_handler_count (locals streamed)
     = len (List.filter is_real_handler (analyses batch.1)) ∧
     s_i (locals streamed) = i batch.1 ∧
     raised streamed
     = match i batch.1 with
       | None => Some (UnboundLocalError "i")
       | Some _ => None
       end ∧
     s_stdout (locals streamed)
     = stdout batch.1 ++
       match i batch.1 with
       | None => []
       | Some scanned =>
           [EvStreamingSummary scanned (fast_filtered_count batch.1)
              (len (analyses batch.1)) (real_handler_count batch.1)]
       end) ∧
  triage_all_findings code_reader findings max_real_handlers w
  = match i batch.1 with
    | None => (Raise (UnboundLocalError "i"), stdout batch.1, batch.2)
    | Some scanned =>
        ((prioritize_findings (analyses batch.1) batch.2).1,
         stdout batch.1 ++
         [EvTriageSummary scanned (fast_filtered_count batch.1)
            (len (analyses batch.1))
            (len (List.filter is_real_handler (analyses batch.1)))
            (len (List.filter (risk_is INFO) (analyses batch.1)))
            (risk_breakdown
               (List.filter is_real_handler (analyses batch.1)))],
         (prioritize_findings (analyses batch.1) batch.2).2)
    end.
Proof.
  intros batch. split.
  - exists (stream_of_batch batch.1).
    destruct (stream_of_batch_fields batch.1)
      as (Hl & Hf & Ht & Hr & Hi & Hraised & Hout).
    split_and!; try done.
    + rewrite streaming_start.
      apply (stream_simulates_batch max_real_handlers (len findings)
               findings (S (length findings)) 1 batch_start w). lia.
    + rewrite Hr. unfold batch. by rewrite batch_loop_real_count.
  - unfold triage_all_findings. fold batch.
    destruct batch as [st w']. simpl.
    destruct (i st); [|done].
    by destruct (prioritize_findings (analyses st) w').
Qed.


(** C2, as amended.  For every quota [N] other than 0: the quota counter
    is the number of accumulated analyses that are not INFO and, with a
    positive [N], never passes [N]; an admitted finding whose deep
    analysis comes back INFO has taken its deep call and is accumulated,
    and leaves the counter where it was; and once [N] analyses that are
    not INFO exist after a prefix of the findings, the findings after that
    prefix are neither fast-filtered nor deep-analyzed nor counted: batch
    loop and stream end with the same analyses and counters as on the
    prefix alone, and the provider is not called again. *)
Theorem quota_stops_admission (N total : Z)
    (pre post : list AstGrepFinding) (w : W) :
  N ≠ 0 →
  (let on_all :=
     batch_loop code_reader (Some N) total (pre ++ post) 1 batch_start w in
   real_handler_count on_all.1
   = count_if is_real_handler (analyses on_all.1) ∧
   (0 < N → count_if is_real_handler (analyses on_all.1) ≤ N)) ∧
  (∀ (finding : AstGrepFinding) (code_context : string) (idx : Z)
     (st : BatchLocals) (w0 w1 w2 : W) (analysis : FunctionAnalysis),
     quota_reached (Some N) (real_handler_count st) = false →
     code_reader (file_path finding) (line_number finding)
     = Some code_context →
     code_context ≠ "" →
     fast_check_false_positive finding code_context w0 = (Ok false, w1) →
     triage_function finding code_context w1 = (Ok analysis, w2) →
     risk_level analysis = INFO →
     let r := batch_loop code_reader (Some N) total [finding] idx st w0 in
     analyses r.1 = analyses st ++ [analysis] ∧
     real_handler_count r.1 = real_handler_count st ∧
     r.2 = w2) ∧
  admission_stops code_reader N total pre post w ∧
  stream_admission_stops code_reader N total pre post w.
Proof.
  intros HN.
  assert (admission_stops code_reader N total pre post w) as Hstop.
  { unfold admission_stops. intros Hq.
    rewrite <-batch_loop_real_count in Hq.
    destruct (batch_loop_stops N total pre post HN 1 batch_start w Hq)
      as (Ha & Hr & Hf & Hw & Hout).
    split_and!; try done.
    destruct Hout as [->| ->]; [done|].
    unfold scanned. rewrite omap_app. simpl. by rewrite app_nil_r. }
  split; [split|split; [|split; [done|]]].
  - apply batch_loop_real_count.
  - intros Hpos. rewrite <-batch_loop_real_count.
    apply batch_loop_quota_bound; [done|simpl; lia].
  - intros finding code_context idx st w0 w1 w2 analysis
      Hquota Hctx Hne Hfast Hdeep Hinfo.
    cbn [batch_loop].
    change (real_handler_count (b_bind_i idx st))
      with (real_handler_count st).
    rewrite Hquota, Hctx.
    destruct code_context as [|c code_context]; [done|].
    rewrite Hfast, Hdeep.
    unfold is_real_handler. rewrite Hinfo. done.
  - unfold stream_admission_stops.
    change stream_start with (locals_of batch_start).
    rewrite !(stream_simulates_batch (Some N) total _ _ 1 batch_start w)
      by lia.
    eexists _, _. split; [done|]. split; [done|]. simpl.
    destruct (stream_of_batch_fields
                (batch_loop code_reader (Some N) total pre 1
                   batch_start w).1) as (-> & -> & -> & -> & _).
    destruct (stream_of_batch_fields
                (batch_loop code_reader (Some N) total (pre ++ post) 1
                   batch_start w).1) as (-> & -> & -> & -> & _).
    intros Hq. destruct (Hstop Hq) as (-> & -> & -> & -> & _). done.
Qed.


Lemma fast_check_never_raises (finding : AstGrepFinding)
    (code_context : string) (w : W) :
  ∃ verdict, (fast_check_false_positive finding code_context w).1 = Ok verdict.
Proof.
  unfold fast_check_false_positive.
  destruct (fast_filter_run _ w) as [[output|e] w1]; by eexists.
Qed.

(** Every accumulated analysis is a reply of the deep tier, as returned. *)
Lemma batch_loop_analyses_from_classifier (max_real_handlers : option Z)
    (total : Z) (fs : list AstGrepFinding) :
  ∀ (idx : Z) (st : BatchLocals) (w : W),
    ∃ new,
      analyses (batch_loop code_reader max_real_handlers total fs idx st w).1
      = analyses st ++ new ∧
      Forall (λ a, ∃ prompt w0 w1, triage_agent_run prompt w0 = (Ok a, w1))
             new.
Proof.
  induction fs as [|finding rest IH]; intros idx st w.
  { exists []. simpl. by rewrite app_nil_r. }
  cbn [batch_loop]. loop_body;
    try (exists []; simpl; by rewrite app_nil_r);
    match goal with
    | |- context [batch_loop _ _ _ rest ?i ?s ?w'] =>
        destruct (IH i s w') as (new & -> & Hnew)
    end;
    simpl; try (by exists new).
  all: match goal with
       | |- ∃ _, (_ ++ [?a]) ++ ?n = _ ∧ _ => exists (a :: n)
       end.
  all: rewrite <-app_assoc; split; [done|].
  all: constructor; [|done].
  all: unfold triage_function in *; eauto.
Qed.


End PipelineFacts.

Section Scenarios.
Import PyStr Models Agent Props Scenario Verdicts.

Lemma quota_stops_admission_witness :
  (1 : Z) ≠ 0 ∧
  analyses (batch_loop reader (Some 1) 2 ([users_finding] ++ [feed_finding])
              1 batch_start one_real_handler).1
  = [analysis_of "list_users" HIGH] ∧
  calls (batch_loop reader (Some 1) 2 ([users_finding] ++ [feed_finding])
           1 batch_start one_real_handler).2
  = ["fast"; "deep"].
Proof.
  assert ((1 : Z) ≠ 0) as Hne by lia.
  split; [exact Hne|].
  destruct (quota_stops_admission reader 1 2 [users_finding] [feed_finding]
              one_real_handler Hne) as (_ & _ & Hstop & _).
  unfold admission_stops in Hstop.
  destruct Hstop as (Ha & _ & _ & Hw & _); [by vm_compute|].
  rewrite Ha, Hw. by vm_compute.
Defined.

(** With [max_real_handlers = 0] the claim without the amendment fails:
    no analysis exists yet, so 0 non-INFO analyses exist, and the finding
    is admitted, fast-filtered and deep-analyzed all the same. *)
Lemma zero_quota_admits_findings :
  ¬ admission_stops reader 0 1 [] [users_finding] one_real_handler.
Proof.
  unfold admission_stops. intros Hstop.
  destruct Hstop as (Ha & _); [by vm_compute|].
  vm_compute in Ha. discriminate.
Qed.



(** C1, on the code.  The resolver has a context for "app/api/users.py",
    and the pipeline, run on a finding in that file that passes the fast
    filter, returns the analysis of the deep tier as it came: the
    pipeline is given no resolver, and [FunctionAnalysis] has no field
    that could hold a deployment context. *)
Theorem deployment_context_not_attached :
  DeploymentParser.get_deployment_context sample_model "app/api/users.py"
  = Some sample_context ∧
  triage_all_findings reader [users_finding] None full_run
  = (Ok {| total_functions_analyzed := 1; high_priority_count := 1;
           findings := [analysis_of "list_users" HIGH];
           summary := "review list_users";
           recommendations := ["review list_users"] |},
     [EvScanning 1 1 "app/api/users.py" 10; EvRealHandler "HIGH" "list_users";
      EvTriageSummary 1 0 1 1 0 [("HIGH", 1)]],
     after_calls ["fast"; "deep"; "summary"]) ∧
  (async_for reader 2 (triage_all_findings_streaming [users_finding] None) []
     full_run).1
  = Some {| lines := [analysis_of "list_users" HIGH]; raised := None;
            locals :=
              {| s_real_handler_count := 1; s_fast_filtered_count := 0;
                 total_analyzed := 1; s_i := Some 1;
                 s_stdout :=
                   [EvScanning 1 1 "app/api/users.py" 10;
                    EvRealHandler "HIGH" "list_users";
                    EvStreamingSummary 1 0 1 1] |} |}.
Proof. split_and!; vm_compute; reflexivity. Qed.

End Scenarios.

Section RunFacts.
Import PyStr Models Agent Props Outcomes.
Context {W : Type} `{Provider W}.
Variable code_reader : string → Z → option string.

(** Case analysis on the branches of one iteration, after the quota
    check and with it. *)
Ltac scanned_iteration :=
  repeat match goal with
  | |- context [code_reader ?p ?l] =>
      destruct (code_reader p l) as [[|? ?]|] eqn:?
  | |- context [fast_check_false_positive ?f ?c ?w] =>
      destruct (fast_check_false_positive f c w) as [[[|]|?] ?] eqn:?
  | |- context [triage_function ?f ?c ?w] =>
      destruct (triage_function f c w) as [[?|?] ?] eqn:?
  | |- context [is_real_handler ?a] =>
      destruct (is_real_handler a) eqn:?
  end.

Ltac iteration :=
  repeat match goal with
  | |- context [quota_reached ?m ?r] =>
      destruct (quota_reached m r) eqn:?
  | |- context [code_reader ?p ?l] =>
      destruct (code_reader p l) as [[|? ?]|] eqn:?
  | |- context [fast_check_false_positive ?f ?c ?w] =>
      destruct (fast_check_false_positive f c w) as [[[|]|?] ?] eqn:?
  | |- context [triage_function ?f ?c ?w] =>
      destruct (triage_function f c w) as [[?|?] ?] eqn:?
  | |- context [is_real_handler ?a] =>
      destruct (is_real_handler a) eqn:?
  end.

Lemma count_if_snoc {A : Type} (p : A → bool) (l : list A) (x : A) :
  count_if p (l ++ [x]) = count_if p l + (if p x then 1 else 0).
Proof.
  rewrite count_if_app, count_if_cons, count_if_nil. lia.
Qed.

Lemma accounted_loop (max_real_handlers : option Z) (total : Z)
    (fs : list AstGrepFinding) :
  ∀ (idx : Z) (st : BatchLocals) (w : W),
    accounted st →
    accounted (batch_loop code_reader max_real_handlers total fs idx st w).1.
Proof.
  induction fs as [|finding rest IH]; intros idx st w Hst; [done|].
  cbn [batch_loop]. iteration; try apply IH;
    destruct Hst as (Hs & Hf & Hr & Ha);
    unfold accounted, len in *; simpl;
    rewrite ?length_app, ?count_if_snoc; simpl; lia.
Qed.

Lemma scanning_bound (max_real_handlers : option Z) (total : Z)
    (fs : list AstGrepFinding) :
  ∀ (idx : Z) (st : BatchLocals) (w : W),
    count_if is_scanning
      (stdout (batch_loop code_reader max_real_handlers total fs idx st w).1)
    ≤ count_if is_scanning (stdout st) + len fs.
Proof.
  induction fs as [|finding rest IH]; intros idx st w.
  { unfold len. simpl. lia. }
  cbn [batch_loop]. iteration;
    try (etrans; [apply IH|]);
    unfold len; simpl; rewrite ?count_if_snoc; simpl; lia.
Qed.

(** X1.  In a run of the batch loop every finding that was admitted (a
    progress line was printed for it) got exactly one outcome: no context,
    fast-filtered, real handler, detailed false positive, or error.  The
    fast-filtered counter and the real-handler counter are the numbers of
    their outcome lines, the accumulated analyses are as many as the real
    handlers and detailed false positives together, and no more findings
    are admitted than were given. *)
Theorem every_admitted_finding_has_one_outcome
    (max_real_handlers : option Z) (total : Z)
    (findings : list AstGrepFinding) (w : W) :
  let st :=
    (batch_loop code_reader max_real_handlers total findings 1 batch_start w).1
  in
  accounted st ∧ count_if is_scanning (stdout st) ≤ len findings.
Proof.
  cbv zeta. split.
  - apply accounted_loop. unfold accounted, len. simpl.
    rewrite !count_if_nil. lia.
  - etrans; [apply scanning_bound|]. simpl. rewrite count_if_nil. lia.
Qed.

Lemma loop_index (max_real_handlers : option Z) (total : Z)
    (fs : list AstGrepFinding) :
  ∀ (idx : Z) (st : BatchLocals) (w : W),
    let st' :=
      (batch_loop code_reader max_real_handlers total fs idx st w).1 in
    i st'
    = match fs with
      | [] => i st
      | _ =>
          Some (idx
                + (count_if is_scanning (stdout st')
                   - count_if is_scanning (stdout st))
                + (count_if is_quota_notice (stdout st')
                   - count_if is_quota_notice (stdout st))
                - 1)
      end ∧
    0 ≤ count_if is_quota_notice (stdout st')
        - count_if is_quota_notice (stdout st) ≤ 1.
Proof.
  induction fs as [|finding rest IH]; intros idx st w.
  { simpl. split; [done|lia]. }
  cbn [batch_loop]. iteration.
  { simpl. rewrite !count_if_snoc. simpl. split; [f_equal|]; lia. }
  all: destruct rest as [|next rest'];
    [ simpl; rewrite ?count_if_snoc; simpl; (split; [f_equal|]); lia
    | match goal with
      | |- context [batch_loop ?a ?b ?c ?r ?j ?s ?w'] =>
          destruct (IH j s w') as [Hi Hq]; cbv zeta in Hi, Hq;
          revert Hi Hq; generalize (batch_loop a b c r j s w');
          intros fin Hi Hq
      end;
      rewrite Hi; simpl in *; rewrite ?count_if_snoc in *; simpl in *;
      (split; [f_equal|]); lia ].
Qed.

(** X2.  The number printed as "Total scanned" in the summary (the loop
    variable [i] after the loop) is the number of findings the loop
    admitted, plus one when the quota stopped the run: the finding at
    which the loop broke is counted although it was not scanned.  The
    quota notice is printed at most once, and [i] is unbound exactly when
    the list of findings is empty. *)
Theorem total_scanned_counts_the_stopping_finding
    (max_real_handlers : option Z) (total : Z)
    (findings : list AstGrepFinding) (w : W) :
  let st :=
    (batch_loop code_reader max_real_handlers total findings 1 batch_start w).1
  in
  i st
  = match findings with
    | [] => None
    | _ =>
        Some (count_if is_scanning (stdout st)
              + count_if is_quota_notice (stdout st))
    end ∧
  0 ≤ count_if is_quota_notice (stdout st) ≤ 1.
Proof.
  destruct (loop_index max_real_handlers total findings 1 batch_start w)
    as [Hi Hq].
  cbv zeta in *. simpl in Hi, Hq.
  change (count_if is_quota_notice []) with 0 in *.
  change (count_if is_scanning []) with 0 in *.
  split; [|lia]. rewrite Hi. destruct findings; [done|]. f_equal. lia.
Qed.

Lemma loop_binds_index (max_real_handlers : option Z) (total : Z)
    (fs : list AstGrepFinding) (idx : Z) (st : BatchLocals) (w : W) :
  fs ≠ [] →
  is_Some (i (batch_loop code_reader max_real_handlers total fs idx st w).1).
Proof.
  intros Hfs. destruct (loop_index max_real_handlers total fs idx st w)
    as [Hi _]. cbv zeta in Hi. rewrite Hi. by destruct fs.
Qed.

(** X3.  The consumer of the stream is never interrupted by a failure of
    the provider: on a non-empty list of findings the generator always
    finishes without raising, whatever the fast and deep tiers do, and on
    the empty list it raises [UnboundLocalError] before any call, having
    yielded nothing. *)
Theorem stream_raises_only_on_empty_input (findings : list AstGrepFinding)
    (max_real_handlers : option Z) (w : W) :
  ∃ streamed w',
    async_for code_reader (S (length findings))
      (triage_all_findings_streaming findings max_real_handlers) [] w
    = (Some streamed, w') ∧
    match findings with
    | [] =>
        raised streamed = Some (UnboundLocalError "i") ∧
        lines streamed = [] ∧ w' = w
    | _ => raised streamed = None
    end.
Proof.
  rewrite streaming_start.
  rewrite (stream_simulates_batch code_reader max_real_handlers
             (len findings) findings (S (length findings)) 1 batch_start w)
    by lia.
  eexists _, _. split; [done|].
  destruct findings as [|finding rest]; [done|].
  destruct (loop_binds_index max_real_handlers
              (len (finding :: rest)) (finding :: rest) 1 batch_start w)
    as [scanned Hi]; [done|].
  unfold stream_of_batch. by rewrite Hi.
Qed.

(** X4.  On a non-empty list of findings [triage_all_findings] raises
    exactly when the summary agent raises, and then with that exception:
    failures of the fast and deep tiers never escape the loop, while a
    failure of the summary agent costs the whole report, after every
    admitted finding was analysed. *)
Theorem batch_fails_only_through_summary (findings : list AstGrepFinding)
    (max_real_handlers : option Z) (w : W) (e : exn) :
  findings ≠ [] →
  let batch :=
    batch_loop code_reader max_real_handlers (len findings) findings 1
      batch_start w in
  (triage_all_findings code_reader findings max_real_handlers w).1.1
  = Raise e
  ↔ (summary_agent_run
       (summary_prompt (analyses batch.1) (sorted rank (analyses batch.1))
          (count_if is_high_priority (analyses batch.1))) batch.2).1
    = Raise e.
Proof.
  intros Hne batch. unfold triage_all_findings. fold batch.
  destruct (loop_binds_index max_real_handlers (len findings) findings 1
              batch_start w Hne) as [scanned Hi].
  fold batch in Hi. destruct batch as [st w']. simpl in *. rewrite Hi.
  unfold prioritize_findings. fold rank.
  destruct (summary_agent_run _ w') as [[out|e'] w'']; simpl; [|done].
  split; intros; discriminate.
Qed.

Lemma notice_means_reached (max_real_handlers : option Z) (total : Z)
    (fs : list AstGrepFinding) :
  ∀ (idx : Z) (st : BatchLocals) (w : W),
    let st' :=
      (batch_loop code_reader max_real_handlers total fs idx st w).1 in
    count_if is_quota_notice (stdout st')
    ≠ count_if is_quota_notice (stdout st) →
    quota_reached max_real_handlers (real_handler_count st') = true.
Proof.
  induction fs as [|finding rest IH]; intros idx st w; [done|].
  cbn [batch_loop].
  destruct (quota_reached max_real_handlers
              (real_handler_count (b_bind_i idx st))) eqn:Hquota;
    [by intros _|].
  scanned_iteration;
    cbv zeta in *; intros Hq; apply IH;
    simpl; rewrite ?count_if_snoc; simpl; by rewrite ?Z.add_0_r.
Qed.

(** X5.  With a positive quota [N], a run that printed the quota notice
    found exactly [N] real handlers: the counter and the number of
    accumulated analyses that are not INFO are both [N]. *)
Theorem quota_notice_means_exactly_N (N total : Z)
    (findings : list AstGrepFinding) (w : W) :
  0 < N →
  let st :=
    (batch_loop code_reader (Some N) total findings 1 batch_start w).1 in
  count_if is_quota_notice (stdout st) = 1 →
  real_handler_count st = N ∧
  count_if is_real_handler (analyses st) = N.
Proof.
  intros HN st Hnotice.
  assert (real_handler_count st = N) as Hcount.
  { pose proof (batch_loop_quota_bound code_reader N total findings HN
                  1 batch_start w) as Hle.
    pose proof (notice_means_reached (Some N) total findings 1 batch_start w)
      as Hreached.
    cbv zeta in Hreached. fold st in Hle, Hreached.
    apply quota_reached_true in Hreached as [_ Hge].
    - simpl in Hle. lia.
    - rewrite Hnotice. done. }
  split; [done|]. rewrite <-Hcount. unfold st.
  symmetry. apply batch_loop_real_count.
Qed.

(** The progress numbers, the terminal output and [i] do not influence
    what the loop computes. *)
Lemma results_ignore_progress (max_real_handlers : option Z)
    (fs : list AstGrepFinding) :
  ∀ (total total' idx idx' : Z) (st st' : BatchLocals) (w : W),
    results st = results st' →
    results (batch_loop code_reader max_real_handlers total fs idx st w).1
    = results
        (batch_loop code_reader max_real_handlers total' fs idx' st' w).1 ∧
    (batch_loop code_reader max_real_handlers total fs idx st w).2
    = (batch_loop code_reader max_real_handlers total' fs idx' st' w).2.
Proof.
  induction fs as [|finding rest IH];
    intros total total' idx idx' st st' w Hst; [done|].
  cbn [batch_loop].
  assert (real_handler_count (b_bind_i idx st)
          = real_handler_count (b_bind_i idx' st')) as ->
    by (unfold results in Hst; simpl; congruence).
  iteration; try done; apply IH;
    unfold results in *; simpl; congruence.
Qed.

(** X6.  A finding for which the code reader has nothing ([None] or the
    empty string) leaves no trace in the results: with it or without it in
    the list, the batch loop ends with the same analyses and counters in
    the same provider world, and the consumer of the stream receives the
    same lines. *)
Theorem unreadable_finding_is_ignored (max_real_handlers : option Z)
    (total total' : Z) (pre post : list AstGrepFinding)
    (finding : AstGrepFinding) (w : W) :
  unreadable code_reader finding →
  let with_it :=
    batch_loop code_reader max_real_handlers total (pre ++ finding :: post)
      1 batch_start w in
  let without :=
    batch_loop code_reader max_real_handlers total' (pre ++ post)
      1 batch_start w in
  results with_it.1 = results without.1 ∧ with_it.2 = without.2 ∧
  ∃ s_with s_without,
    (async_for code_reader (S (length (pre ++ finding :: post)))
       (triage_all_findings_streaming (pre ++ finding :: post)
          max_real_handlers) [] w).1 = Some s_with ∧
    (async_for code_reader (S (length (pre ++ post)))
       (triage_all_findings_streaming (pre ++ post) max_real_handlers) [] w).1
    = Some s_without ∧
    lines s_with = lines s_without.
Proof.
  intros Hunread.
  assert (∀ pre' total0 total1 idx idx' st st' (w0 : W),
            results st = results st' →
            results (batch_loop code_reader max_real_handlers total0
                       (pre' ++ finding :: post) idx st w0).1
            = results (batch_loop code_reader max_real_handlers total1
                         (pre' ++ post) idx' st' w0).1 ∧
            (batch_loop code_reader max_real_handlers total0
               (pre' ++ finding :: post) idx st w0).2
            = (batch_loop code_reader max_real_handlers total1
                 (pre' ++ post) idx' st' w0).2) as Hgen.
  { induction pre' as [|p pre' IH];
      intros total0 total1 idx idx' st st' w0 Hst.
    - cbn [app batch_loop].
      destruct (quota_reached max_real_handlers
                  (real_handler_count (b_bind_i idx st))) eqn:Hquota.
      + destruct post as [|q post]; [done|].
        cbn [batch_loop].
        assert (real_handler_count (b_bind_i idx' st')
                = real_handler_count (b_bind_i idx st)) as ->
          by (unfold results in Hst; simpl; congruence).
        by rewrite Hquota.
      + destruct Hunread as [-> | ->];
          apply results_ignore_progress; unfold results in *; simpl;
          congruence.
    - cbn [app batch_loop].
      assert (real_handler_count (b_bind_i idx st)
              = real_handler_count (b_bind_i idx' st')) as ->
        by (unfold results in Hst; simpl; congruence).
      iteration; try done; apply IH;
        unfold results in *; simpl; congruence. }
  intros with_it without.
  destruct (Hgen pre total total' 1 1 batch_start batch_start w eq_refl)
    as [Hres Hw].
  split; [done|]. split; [done|].
  rewrite !streaming_start.
  rewrite !(stream_simulates_batch code_reader max_real_handlers _ _ _ 1
              batch_start w) by lia.
  eexists _, _. split; [done|]. split; [done|]. simpl.
  destruct (stream_of_batch_fields
              (batch_loop code_reader max_real_handlers
                 (len (pre ++ finding :: post)) (pre ++ finding :: post) 1
                 batch_start w).1) as (-> & _).
  destruct (stream_of_batch_fields
              (batch_loop code_reader max_real_handlers
                 (len (pre ++ post)) (pre ++ post) 1
                 batch_start w).1) as (-> & _).
  destruct (Hgen pre (len (pre ++ finding :: post)) (len (pre ++ post))
              1 1 batch_start batch_start w eq_refl) as [Hres' _].
  unfold results in Hres'. congruence.
Qed.

End RunFacts.

Section ReportOrder.
Import Models Agent Props.

Lemma insert_sorted_between {A : Type} (key : A → Z) (x : A)
    (before after : list A) :
  Forall (λ a, key a < key x) before →
  Forall (λ b, key x ≤ key b) after →
  insert_sorted key x (before ++ after) = before ++ x :: after.
Proof.
  intros Hbefore Hafter.
  induction Hbefore as [|a before Ha _ IH]; simpl.
  - destruct Hafter as [|b after Hb _]; simpl; [done|].
    destruct (Z.leb_spec (key x) (key b)); [done|lia].
  - destruct (Z.leb_spec (key x) (key a)); [lia|]. by rewrite IH.
Qed.

Lemma filter_risk_rank (r : RiskLevel) (l : list FunctionAnalysis) :
  Forall (λ a, rank a = risk_order r) (List.filter (risk_is r) l).
Proof.
  apply Forall_forall. intros a Ha.
  apply list_elem_of_In, filter_In in Ha as [_ Ha].
  unfold risk_is, rank in *. by destruct (risk_level a), r.
Qed.

(** The sorted list is the five risk levels' analyses, each level in
    input order, one level after the other. *)
Lemma sorted_is_buckets (l : list FunctionAnalysis) :
  sorted rank l
  = List.filter (risk_is CRITICAL) l ++ List.filter (risk_is HIGH) l
    ++ List.filter (risk_is MEDIUM) l ++ List.filter (risk_is LOW) l
    ++ List.filter (risk_is INFO) l.
Proof.
  induction l as [|x l IH]; [done|].
  cbn [sorted]. rewrite IH. clear IH.
  pose proof (filter_risk_rank CRITICAL l) as HC.
  pose proof (filter_risk_rank HIGH l) as HH.
  pose proof (filter_risk_rank MEDIUM l) as HM.
  pose proof (filter_risk_rank LOW l) as HL.
  pose proof (filter_risk_rank INFO l) as HI.
  simpl in HC, HH, HM, HL, HI.
  assert (∀ k (P : FunctionAnalysis → Prop) bucket,
            Forall (λ a, rank a = k) bucket → (∀ a, rank a = k → P a) →
            Forall P bucket) as Hlift.
  { intros k P bucket Hb HP. eapply Forall_impl; [exact Hb|]. exact HP. }
  unfold risk_is at 6 7 8 9 10. simpl.
  destruct (risk_level x) eqn:Hx; simpl;
    assert (rank x = risk_order (risk_level x)) as Hrank by done;
    rewrite Hx in Hrank; simpl in Hrank.
  - apply (insert_sorted_between rank x []); [done|].
    rewrite !Forall_app. split_and!;
      eapply Hlift; try eassumption; simpl; intros; lia.
  - rewrite (insert_sorted_between rank x
               (List.filter (risk_is CRITICAL) l)); [done| |].
    + eapply Hlift; [exact HC|]. simpl. intros. lia.
    + rewrite !Forall_app. split_and!;
        eapply Hlift; try eassumption; simpl; intros; lia.
  - rewrite !(assoc_L (++) _ _ (List.filter (risk_is MEDIUM) l ++ _)).
    rewrite (insert_sorted_between rank x); [by rewrite <-!app_assoc| |].
    + rewrite !Forall_app. split_and!;
        eapply Hlift; try eassumption; simpl; intros; lia.
    + rewrite !Forall_app. split_and!;
        eapply Hlift; try eassumption; simpl; intros; lia.
  - rewrite !(assoc_L (++) _ _ (List.filter (risk_is LOW) l ++ _)).
    rewrite (insert_sorted_between rank x); [by rewrite <-!app_assoc| |].
    + rewrite !Forall_app. split_and!;
        eapply Hlift; try eassumption; simpl; intros; lia.
    + rewrite !Forall_app. split_and!;
        eapply Hlift; try eassumption; simpl; intros; lia.
  - rewrite !(assoc_L (++) _ _ (List.filter (risk_is INFO) l)).
    rewrite (insert_sorted_between rank x); [by rewrite <-!app_assoc| |].
    + rewrite !Forall_app. split_and!;
        eapply Hlift; try eassumption; simpl; intros; lia.
    + eapply Hlift; [exact HI|]. simpl. intros. lia.
Qed.

(** X7.  The findings of a report are the CRITICAL analyses in their
    input order, then the HIGH ones, the MEDIUM ones, the LOW ones and the
    INFO ones, each level in input order. *)
Theorem report_lists_risk_levels_in_turn {W : Type} `{Provider W}
    (analyses : list FunctionAnalysis) (w w' : W)
    (pf : PrioritizedFindings) :
  prioritize_findings analyses w = (Ok pf, w') →
  findings pf
  = List.filter (risk_is CRITICAL) analyses
    ++ List.filter (risk_is HIGH) analyses
    ++ List.filter (risk_is MEDIUM) analyses
    ++ List.filter (risk_is LOW) analyses
    ++ List.filter (risk_is INFO) analyses.
Proof.
  intros (output & _ & ->)%prioritize_findings_ok. simpl.
  apply sorted_is_buckets.
Qed.

Lemma high_priority_buckets (l : list FunctionAnalysis) :
  count_if is_high_priority l
  = len (List.filter (risk_is CRITICAL) l ++ List.filter (risk_is HIGH) l).
Proof.
  unfold count_if, len. f_equal. rewrite length_app.
  induction l as [|x l IH]; [done|].
  unfold is_high_priority, risk_is in *. simpl in *.
  destruct (risk_level x); simpl; lia.
Qed.

(** X8.  In a report, [high_priority_count] splits the findings: the
    first [high_priority_count] findings are CRITICAL or HIGH and none
    after them is; the count never exceeds [total_functions_analyzed]. *)
Theorem high_priority_findings_come_first {W : Type} `{Provider W}
    (analyses : list FunctionAnalysis) (w w' : W)
    (pf : PrioritizedFindings) :
  prioritize_findings analyses w = (Ok pf, w') →
  Forall (λ a, is_high_priority a = true)
         (take (Z.to_nat (high_priority_count pf)) (findings pf)) ∧
  Forall (λ a, is_high_priority a = false)
         (drop (Z.to_nat (high_priority_count pf)) (findings pf)) ∧
  0 ≤ high_priority_count pf ≤ total_functions_analyzed pf.
Proof.
  intros (output & _ & ->)%prioritize_findings_ok. simpl.
  rewrite sorted_is_buckets, high_priority_buckets.
  unfold len at 1 2. rewrite Nat2Z.id, (assoc_L (++)).
  rewrite take_app_length, drop_app_length.
  assert (∀ r (P : FunctionAnalysis → Prop),
            (∀ a, risk_level a = r → P a) →
            Forall P (List.filter (risk_is r) analyses)) as Hlift.
  { intros r P HP. apply Forall_forall. intros a Ha.
    apply list_elem_of_In, filter_In in Ha as [_ Ha]. apply HP.
    unfold risk_is in Ha. by destruct (risk_level a), r. }
  split_and!.
  - apply Forall_app. split; apply Hlift; intros a Ha;
      unfold is_high_priority; by rewrite Ha.
  - rewrite !Forall_app. split_and!; apply Hlift; intros a Ha;
      unfold is_high_priority; by rewrite Ha.
  - unfold len. lia.
  - pose proof (high_priority_buckets analyses) as Hcount.
    unfold count_if, len in *.
    pose proof (filter_length_le is_high_priority analyses). lia.
Qed.

End ReportOrder.

Section StringFacts.
Import PyStr StrProps.

Lemma map_chars_app (f : ascii → ascii) (a b : string) :
  map_chars f (a +:+ b) = map_chars f a +:+ map_chars f b.
Proof. induction a as [|c a IH]; simpl; [done|]. by rewrite IH. Qed.

Lemma map_chars_compose (f g : ascii → ascii) (s : string) :
  map_chars f (map_chars g s) = map_chars (λ c, f (g c)) s.
Proof. induction s as [|c s IH]; simpl; [done|]. by rewrite IH. Qed.

Lemma map_chars_ext (f g : ascii → ascii) (s : string) :
  (∀ c, f c = g c) → map_chars f s = map_chars g s.
Proof.
  intros Hfg. induction s as [|c s IH]; simpl; [done|].
  by rewrite Hfg, IH.
Qed.

Lemma map_chars_fixed (f : ascii → ascii) (s : string) :
  all_chars (λ c, Ascii.eqb (f c) c) s = true → map_chars f s = s.
Proof.
  induction s as [|c s IH]; simpl; [done|].
  intros [Hc Hs]%andb_prop. apply Ascii.eqb_eq in Hc.
  by rewrite Hc, IH.
Qed.

Lemma all_chars_map (f : ascii → ascii) (p : ascii → bool) (s : string) :
  (∀ c, p (f c) = true) → all_chars p (map_chars f s) = true.
Proof.
  intros Hp. induction s as [|c s IH]; simpl; [done|].
  by rewrite Hp, IH.
Qed.

Lemma all_chars_lstrip (p q : ascii → bool) (s : string) :
  all_chars p s = true → all_chars p (lstrip q s) = true.
Proof.
  induction s as [|c s IH]; simpl; [done|].
  intros Hcs. destruct (q c); [|done].
  apply andb_prop in Hcs as [_ Hs]. by apply IH.
Qed.

Lemma all_chars_rstrip (p q : ascii → bool) (s : string) :
  all_chars p s = true → all_chars p (rstrip q s) = true.
Proof.
  induction s as [|c s IH]; simpl; [done|].
  intros [Hc Hs]%andb_prop. specialize (IH Hs).
  destruct (rstrip q s) as [|c' r]; simpl in *.
  - destruct (q c); simpl; [done|]. by rewrite Hc.
  - by rewrite Hc, IH.
Qed.

Lemma all_chars_strip (p q : ascii → bool) (s : string) :
  all_chars p s = true → all_chars p (strip q s) = true.
Proof. intros. by apply all_chars_rstrip, all_chars_lstrip. Qed.

Lemma lower_char_normal (c : ascii) :
  normal_char (lower_char (if Ascii.eqb c "\"%char then "/"%char else c))
  = true.
Proof. by destruct c as [[] [] [] [] [] [] [] []]. Qed.

Lemma lower_upper_char (c : ascii) :
  lower_char (if Ascii.eqb (upper_char c) "\"%char then "/"%char
              else upper_char c)
  = lower_char (if Ascii.eqb c "\"%char then "/"%char else c).
Proof. by destruct c as [[] [] [] [] [] [] [] []]. Qed.

Lemma lower_lower_char (c : ascii) :
  lower_char (if Ascii.eqb (lower_char c) "\"%char then "/"%char
              else lower_char c)
  = lower_char (if Ascii.eqb c "\"%char then "/"%char else c).
Proof. by destruct c as [[] [] [] [] [] [] [] []]. Qed.

Lemma slash_to_backslash_char (c : ascii) :
  lower_char
    (if Ascii.eqb (if Ascii.eqb c "/"%char then "\"%char else c) "\"%char
     then "/"%char
     else if Ascii.eqb c "/"%char then "\"%char else c)
  = lower_char (if Ascii.eqb c "\"%char then "/"%char else c).
Proof. by destruct c as [[] [] [] [] [] [] [] []]. Qed.

Lemma string_app_assoc (a b c : string) :
  (a +:+ b) +:+ c = a +:+ b +:+ c.
Proof.
  induction a as [|x a IH]; [done|].
  change (String x ((a +:+ b) +:+ c) = String x (a +:+ b +:+ c)).
  by rewrite IH.
Qed.

Lemma prefix_app (a b : string) : String.prefix a (a +:+ b) = true.
Proof.
  induction a as [|c a IH]; simpl; [by destruct b|].
  destruct (ascii_dec c c); [done|congruence].
Qed.

Lemma contains_prefix (sub s : string) :
  String.prefix sub s = true → contains sub s = true.
Proof. intros Hp. destruct s; cbn [contains]; by rewrite Hp. Qed.

Lemma contains_app (sub a b : string) :
  contains sub (a +:+ sub +:+ b) = true.
Proof.
  induction a as [|c a IH].
  - change ("" +:+ sub +:+ b) with (sub +:+ b).
    apply contains_prefix, prefix_app.
  - change (String c a +:+ sub +:+ b) with (String c (a +:+ sub +:+ b)).
    cbn [contains]. rewrite IH. by rewrite orb_true_r.
Qed.

End StringFacts.

Section ResolverFacts.
Import PyStr StrProps Domain DeploymentParser Props.

Lemma normalize_path_chars (file_path : string) :
  normalize_path file_path
  = map_chars
      (λ c, lower_char (if Ascii.eqb c "\"%char then "/"%char else c))
      file_path.
Proof. unfold normalize_path, lower, replace. apply map_chars_compose. Qed.

Lemma same_normal_form (m : DeploymentModel) (p1 p2 : string) :
  normalize_path p1 = normalize_path p2 →
  get_deployment_context m p1 = get_deployment_context m p2.
Proof.
  intros Heq. rewrite !get_deployment_context_resolved.
  unfold resolved, find_service. cbv zeta. by rewrite Heq.
Qed.

(** X9.  The resolver reads an ASCII file path up to letter case and up
    to the spelling of the separator: the path, the same path in upper or
    lower case, and the same path written with backslashes resolve
    alike. *)
Theorem resolver_ignores_case_and_separator (m : DeploymentModel)
    (file_path : string) :
  isascii file_path = true →
  get_deployment_context m (upper file_path)
  = get_deployment_context m file_path ∧
  get_deployment_context m (lower file_path)
  = get_deployment_context m file_path ∧
  get_deployment_context m (replace "/" "\" file_path)
  = get_deployment_context m file_path.
Proof.
  intros _.
  split_and!; apply same_normal_form; rewrite !normalize_path_chars;
    unfold upper, lower, replace; rewrite map_chars_compose;
    apply map_chars_ext; intros c.
  - apply lower_upper_char.
  - apply lower_lower_char.
  - apply slash_to_backslash_char.
Qed.

Lemma normalize_repo_path_normal (repo_path : string) :
  normalize_path (normalize_repo_path repo_path)
  = normalize_repo_path repo_path.
Proof.
  rewrite normalize_path_chars. apply map_chars_fixed.
  change (all_chars normal_char (normalize_repo_path repo_path) = true).
  unfold normalize_repo_path. apply all_chars_strip.
  unfold lower, replace. rewrite map_chars_compose.
  apply all_chars_map. intros c. apply lower_char_normal.
Qed.

Lemma candidate_intro (eligible : string → bool) (m : DeploymentModel)
    (file_path n : string) (info : ServiceInfo) (repo_path : string) :
  (n, info) ∈ services m →
  repo_path ∈ default [] (repository_paths info) →
  fragment_matches file_path repo_path = true →
  eligible repo_path = true →
  (n, info, fragment_length repo_path) ∈ candidates eligible m file_path.
Proof.
  intros Hsvc Hrp Hmatch Hel. unfold candidates.
  apply list_elem_of_In, in_flat_map. exists (n, info).
  split; [by apply list_elem_of_In|].
  apply in_map_iff. exists repo_path. split; [done|].
  apply filter_In. split; [by apply list_elem_of_In|].
  by rewrite Hmatch, Hel.
Qed.

Lemma candidate_elim (eligible : string → bool) (m : DeploymentModel)
    (file_path n : string) (info : ServiceInfo) (L : Z) :
  (n, info, L) ∈ candidates eligible m file_path →
  (n, info) ∈ services m ∧
  ∃ repo_path,
    repo_path ∈ default [] (repository_paths info) ∧
    fragment_matches file_path repo_path = true ∧
    eligible repo_path = true ∧ L = fragment_length repo_path.
Proof.
  unfold candidates. intros Hc.
  apply list_elem_of_In, in_flat_map in Hc as ([n' info'] & Hsvc & Hc).
  apply in_map_iff in Hc as (rp & [= -> -> <-] & Hrp).
  apply filter_In in Hrp as [Hin [Hmatch Hel]%andb_prop].
  split; [by apply list_elem_of_In|].
  exists rp. split_and!; try done. by apply list_elem_of_In.
Qed.

(** What the resolver keeps is one of the candidates, and it keeps one
    whenever there is a candidate. *)
Lemma resolved_candidate (m : DeploymentModel) (file_path : string) :
  match resolved m file_path with
  | Some (n, info) =>
      ∃ L, (n, info, L) ∈ candidates nonempty_fragment m file_path
  | None => candidates nonempty_fragment m file_path = []
  end.
Proof.
  unfold resolved. rewrite find_service_spec.
  pose proof (candidates_positive m file_path) as Hpos.
  destruct (keep_longest_spec (candidates nonempty_fragment m file_path)
              no_match)
    as [[Hall ->]|(pre & n & info & L & post & Hc & _ & _ & _ & ->)];
    simpl.
  - destruct (candidates nonempty_fragment m file_path) as [|c cands];
      [done|].
    apply Forall_cons in Hall as [Hle _].
    apply Forall_cons in Hpos as [Hlt _]. simpl in *. lia.
  - exists L. rewrite Hc. apply elem_of_app. right. by left.
Qed.

(** X10.  A file that lies under a declared repository path always
    resolves to a service: when the fragment is not empty once
    normalised, every path that starts with the normalised fragment and a
    separator, and every path that contains it between two separators (an
    absolute path of any depth), gets a deployment context. *)
Theorem file_under_declared_path_resolves (m : DeploymentModel)
    (n : string) (info : ServiceInfo) (repo_path : string)
    (above below : string) :
  (n, info) ∈ services m →
  repo_path ∈ default [] (repository_paths info) →
  nonempty_fragment repo_path = true →
  is_Some (get_deployment_context m
             (normalize_repo_path repo_path +:+ "/" +:+ below)) ∧
  is_Some (get_deployment_context m
             (above +:+ "/" +:+ normalize_repo_path repo_path +:+ "/"
              +:+ below)).
Proof.
  intros Hsvc Hrp Hne.
  assert (∀ file_path,
            fragment_matches file_path repo_path = true →
            is_Some (get_deployment_context m file_path)) as Hresolves.
  { intros file_path Hmatch.
    pose proof (candidate_intro nonempty_fragment m file_path n info
                  repo_path Hsvc Hrp Hmatch Hne) as Hin.
    rewrite get_deployment_context_resolved.
    pose proof (resolved_candidate m file_path) as Hres.
    destruct (resolved m file_path) as [[n' info']|]; [by eexists|].
    rewrite Hres in Hin. by apply elem_of_nil in Hin. }
  split; apply Hresolves; unfold fragment_matches.
  - rewrite normalize_path_chars, map_chars_app, <-normalize_path_chars,
      normalize_repo_path_normal.
    change (map_chars _ ("/" +:+ below))
      with ("/" +:+ map_chars
              (λ c, lower_char (if Ascii.eqb c "\"%char then "/"%char else c))
              below).
    unfold startswith.
    rewrite <-(string_app_assoc (normalize_repo_path repo_path) "/").
    by rewrite prefix_app.
  - rewrite normalize_path_chars, !map_chars_app, <-!normalize_path_chars.
    change (normalize_path "/") with "/".
    rewrite normalize_repo_path_normal.
    assert (contains ("/" +:+ normalize_repo_path repo_path +:+ "/")
              (normalize_path above +:+ "/"
               +:+ normalize_repo_path repo_path +:+ "/"
               +:+ normalize_path below) = true) as ->; [|by rewrite orb_true_r].
    pose proof (contains_app ("/" +:+ normalize_repo_path repo_path +:+ "/")
                  (normalize_path above) (normalize_path below)) as Hc.
    refine (eq_trans _ Hc). f_equal. by rewrite !string_app_assoc.
Qed.

(** X11.  The resolver only attributes a file to a service that declares
    it: a returned context belongs to a service of the model one of whose
    repository paths, not empty once normalised, matches the file by one
    of the three strategies.  The context carries that service's [name]
    (its key when there is none), its [network_exposure] ("Internal only"
    when there is none), its [deployment_target], and its upstream and
    downstream services (none when the keys are missing). *)
Theorem context_belongs_to_a_declaring_service (m : DeploymentModel)
    (file_path : string) (ctx : DeploymentContext) :
  get_deployment_context m file_path = Some ctx →
  ∃ n info repo_path,
    (n, info) ∈ services m ∧
    repo_path ∈ default [] (repository_paths info) ∧
    fragment_matches file_path repo_path = true ∧
    nonempty_fragment repo_path = true ∧
    service_name ctx = default n (name info) ∧
    ctx_network_exposure ctx
    = default "Internal only" (network_exposure info) ∧
    ctx_deployment_target ctx = deployment_target info ∧
    ctx_upstream_services ctx = default [] (upstream_services info) ∧
    ctx_downstream_services ctx = default [] (downstream_services info).
Proof.
  rewrite get_deployment_context_resolved.
  pose proof (resolved_candidate m file_path) as Hres.
  destruct (resolved m file_path) as [[n info]|]; [|done].
  intros [= <-]. destruct Hres as [L Hin].
  apply candidate_elim in Hin as (Hsvc & rp & Hrp & Hmatch & Hne & _).
  by exists n, info, rp.
Qed.

Lemma mem_elem_of (x : string) (l : list string) :
  mem x l = true ↔ x ∈ l.
Proof.
  unfold mem. rewrite existsb_exists. split.
  - intros (y & Hy & ->%String.eqb_eq). by apply list_elem_of_In.
  - intros Hx. exists x. split; [by apply list_elem_of_In|].
    apply String.eqb_refl.
Qed.

Lemma find_trust_zone_find (zones : list TrustZone) (n : string) :
  find_trust_zone zones n
  = List.find (λ zone, bool_decide (n ∈ default [] (tz_services zone))) zones
    ≫= tz_name.
Proof.
  induction zones as [|zone zones IH]; simpl; [done|].
  destruct (mem n (default [] (tz_services zone))) eqn:Hmem.
  - apply mem_elem_of in Hmem. by rewrite bool_decide_eq_true_2.
  - rewrite bool_decide_eq_false_2; [done|].
    intros Hin%mem_elem_of. congruence.
Qed.

(** X12.  The trust zone of a context is the name of the first declared
    zone whose service list contains the matched service's key; there is
    none when no zone lists it, and none when that first zone has no
    name, whatever later zones say. *)
Theorem trust_zone_is_first_zone_listing_service (m : DeploymentModel)
    (file_path : string) (ctx : DeploymentContext) :
  get_deployment_context m file_path = Some ctx →
  ∃ matched,
    matched_service_name (find_service m file_path) = Some matched ∧
    trust_zone ctx =
      match List.find
              (λ zone, bool_decide (matched ∈ default [] (tz_services zone)))
              (trust_zones m) with
      | Some zone => tz_name zone
      | None => None
      end.
Proof.
  rewrite get_deployment_context_resolved. unfold resolved.
  destruct (matched_service_name (find_service m file_path)) as [n|];
    [|done].
  destruct (matched_service (find_service m file_path)) as [info|];
    [|done].
  intros [= <-]. exists n. split; [done|]. simpl.
  rewrite find_trust_zone_find.
  by destruct (List.find _ (trust_zones m)).
Qed.

End ResolverFacts.

(** * The scanner *)

Section ScannerFacts.
Import PyStr StrProps Domain Models Scanner.

Lemma split_nonempty (sep : ascii) (s : string) : split sep s ≠ [].
Proof.
  destruct s as [|c s]; simpl; [done|].
  destruct (Ascii.eqb c sep); [done|]. by destruct (split sep s).
Qed.

Lemma split_app (sep : ascii) (a b : string) :
  split sep (a +:+ String sep b) = split sep a ++ split sep b.
Proof.
  induction a as [|c a IH].
  - change ("" +:+ String sep b) with (String sep b). simpl.
    by rewrite Ascii.eqb_refl.
  - change (String c a +:+ String sep b)
      with (String c (a +:+ String sep b)).
    simpl. rewrite IH. destruct (Ascii.eqb c sep); [done|].
    pose proof (split_nonempty sep a). by destruct (split sep a).
Qed.

Lemma split_map (f : ascii → ascii) (sep : ascii) (s : string) :
  (∀ c, Ascii.eqb (f c) sep = Ascii.eqb c sep) →
  split sep (map_chars f s) = map (map_chars f) (split sep s).
Proof.
  intros Hf. induction s as [|c s IH]; simpl; [done|].
  rewrite Hf, IH. destruct (Ascii.eqb c sep); [done|].
  by destruct (split sep s).
Qed.

Lemma is_part_map (f : ascii → ascii) (s : string) :
  (∀ c, Ascii.eqb (f c) "."%char = Ascii.eqb c "."%char) →
  is_part (map_chars f s) = is_part s.
Proof.
  intros Hf. destruct s as [|c [|c' s]]; [done| |];
    unfold is_part; simpl; rewrite Hf; by destruct (Ascii.eqb c ".").
Qed.

Lemma filter_is_part_map (f : ascii → ascii) (l : list string) :
  (∀ c, Ascii.eqb (f c) "."%char = Ascii.eqb c "."%char) →
  List.filter is_part (map (map_chars f) l)
  = map (map_chars f) (List.filter is_part l).
Proof.
  intros Hf. induction l as [|x l IH]; simpl; [done|].
  rewrite is_part_map by done. destruct (is_part x); simpl; by rewrite IH.
Qed.

Lemma last_map_chars (f : ascii → ascii) (l : list string) :
  List.last (map (map_chars f) l) "" = map_chars f (List.last l "").
Proof.
  induction l as [|x l IH]; [done|].
  destruct l as [|y l]; [done|]. exact IH.
Qed.

Lemma path_name_map (f : ascii → ascii) (file_path : string) :
  (∀ c, Ascii.eqb (f c) "/"%char = Ascii.eqb c "/"%char) →
  (∀ c, Ascii.eqb (f c) "."%char = Ascii.eqb c "."%char) →
  path_name (map_chars f file_path) = map_chars f (path_name file_path).
Proof.
  intros Hslash Hdot. unfold path_name.
  by rewrite split_map, filter_is_part_map, last_map_chars.
Qed.

Lemma upper_char_keeps (sep c : ascii) :
  is_upper sep = false → is_lower sep = false →
  Ascii.eqb (upper_char c) sep = Ascii.eqb c sep.
Proof.
  intros Hu Hl. unfold upper_char.
  destruct (is_lower c) eqn:Hc; [|done].
  destruct (Ascii.eqb c sep) eqn:Heq.
  - apply Ascii.eqb_eq in Heq. congruence.
  - apply Ascii.eqb_neq. intros <-.
    revert Hu. clear -Hc.
    by destruct c as [[] [] [] [] [] [] [] []].
Qed.

Lemma lower_char_keeps (sep c : ascii) :
  is_upper sep = false → is_lower sep = false →
  Ascii.eqb (lower_char c) sep = Ascii.eqb c sep.
Proof.
  intros Hu Hl. unfold lower_char.
  destruct (is_upper c) eqn:Hc; [|done].
  destruct (Ascii.eqb c sep) eqn:Heq.
  - apply Ascii.eqb_eq in Heq. congruence.
  - apply Ascii.eqb_neq. intros <-.
    revert Hl. clear -Hc.
    by destruct c as [[] [] [] [] [] [] [] []].
Qed.

Lemma lower_of_upper (s : string) : lower (upper s) = lower s.
Proof.
  unfold lower, upper. rewrite map_chars_compose.
  apply map_chars_ext. intros c.
  by destruct c as [[] [] [] [] [] [] [] []].
Qed.

Lemma lower_of_lower (s : string) : lower (lower s) = lower s.
Proof.
  unfold lower. rewrite map_chars_compose.
  apply map_chars_ext. intros c.
  by destruct c as [[] [] [] [] [] [] [] []].
Qed.

Lemma path_name_upper (file_path : string) :
  path_name (upper file_path) = upper (path_name file_path).
Proof.
  apply path_name_map; intros c; by apply upper_char_keeps.
Qed.

Lemma path_name_lower (file_path : string) :
  path_name (lower file_path) = lower (path_name file_path).
Proof.
  apply path_name_map; intros c; by apply lower_char_keeps.
Qed.

(** X13.  The denylist is blind to the case of an ASCII path: the path,
    its upper-case form and its lower-case form are skipped or kept
    alike. *)
Theorem skip_decision_ignores_case (file_path : string) :
  isascii file_path = true →
  _should_skip_file (upper file_path) = _should_skip_file file_path ∧
  _should_skip_file (lower file_path) = _should_skip_file file_path.
Proof.
  intros _. unfold _should_skip_file. split.
  - by rewrite path_name_upper, !lower_of_upper.
  - by rewrite path_name_lower, !lower_of_lower.
Qed.

Lemma contains_suffix (sub a b : string) :
  contains sub b = true → contains sub (a +:+ b) = true.
Proof.
  intros Hb. induction a as [|c a IH]; [done|].
  change (String c a +:+ b) with (String c (a +:+ b)).
  cbn [contains]. rewrite IH. by rewrite orb_true_r.
Qed.

Lemma contains_nonempty (sub s : string) :
  sub ≠ "" → contains sub s = true → s ≠ "".
Proof. intros Hsub Hc ->. by destruct sub. Qed.

Lemma last_app_nonempty (l1 l2 : list string) :
  l2 ≠ [] → List.last (l1 ++ l2) "" = List.last l2 "".
Proof.
  intros Hl2. induction l1 as [|x l1 IH]; [done|].
  simpl. destruct (l1 ++ l2) eqn:Happ; [|exact IH].
  apply app_eq_nil in Happ as [_ ?]. done.
Qed.

Lemma path_name_under (dir file_path : string) :
  path_name file_path ≠ "" →
  path_name (dir +:+ String "/" file_path) = path_name file_path.
Proof.
  intros Hname. unfold path_name in *.
  rewrite split_app, List.filter_app. apply last_app_nonempty.
  intros Hnil. by rewrite Hnil in Hname.
Qed.

(** X14.  The denylist does not depend on where the tree sits: a path
    that is skipped is still skipped below any directory. *)
Theorem skipped_path_is_skipped_anywhere (dir file_path : string) :
  _should_skip_file file_path = true →
  _should_skip_file (dir +:+ "/" +:+ file_path) = true.
Proof.
  unfold _should_skip_file.
  change (dir +:+ "/" +:+ file_path) with (dir +:+ String "/" file_path).
  destruct (existsb _ skip_patterns) eqn:Hpat.
  - intros _.
    assert (existsb
              (λ pattern,
                 contains pattern (lower (dir +:+ String "/" file_path)))
              skip_patterns = true) as ->; [|done].
    apply existsb_exists in Hpat as (pattern & Hin & Hc).
    apply existsb_exists. exists pattern. split; [done|].
    unfold lower. rewrite map_chars_app.
    apply contains_suffix, (contains_suffix _ "/"), Hc.
  - intros Hname.
    assert (path_name file_path ≠ "") as Hne.
    { intros Heq. rewrite Heq in Hname. by vm_compute in Hname. }
    rewrite path_name_under by done. rewrite Hname.
    clear. by destruct (existsb _ skip_patterns).
Qed.

Lemma scan_finding_fold (rule_file : RuleFile) (raws : list RawFinding)
    (st : ScanLocals) :
  let parsed := map (λ raw, parse_finding raw rule_file) raws in
  let st' := foldl (scan_finding rule_file) st raws in
  all_findings st'
  = all_findings st
    ++ List.filter (λ f, negb (_should_skip_file (file_path f))) parsed ∧
  skipped_count st'
  = skipped_count st
    + Z.of_nat
        (length (List.filter (λ f, _should_skip_file (file_path f)) parsed)).
Proof.
  revert st. induction raws as [|raw raws IH]; intros st.
  - simpl. split; [by rewrite app_nil_r|lia].
  - destruct (IH (scan_finding rule_file st raw)) as [Ha Hs].
    cbn zeta in *. cbn [foldl map List.filter]. rewrite Ha, Hs.
    unfold scan_finding. generalize (parse_finding raw rule_file) as f.
    intros f. destruct (_should_skip_file (file_path f));
      cbn [negb all_findings skipped_count length]; split; try done; try lia.
    by rewrite <-app_assoc.
Qed.

(** The findings of every rule file, parsed, in scan order. *)
Lemma scan_all_fold (scans : list (RuleFile * list RawFinding))
    (st : ScanLocals) :
  let parsed :=
    flat_map (λ scan, map (λ raw, parse_finding raw scan.1) scan.2) scans in
  let st' :=
    foldl (λ st scan, foldl (scan_finding scan.1) st scan.2) st scans in
  all_findings st'
  = all_findings st
    ++ List.filter (λ f, negb (_should_skip_file (file_path f))) parsed ∧
  skipped_count st'
  = skipped_count st
    + Z.of_nat
        (length (List.filter (λ f, _should_skip_file (file_path f)) parsed)).
Proof.
  revert st. induction scans as [|[rule_file raws] scans IH]; intros st.
  - simpl. split; [by rewrite app_nil_r|lia].
  - cbn [foldl flat_map fst snd].
    destruct (IH (foldl (scan_finding rule_file) st raws)) as [Ha Hs].
    destruct (scan_finding_fold rule_file raws st) as [Ha' Hs'].
    cbn zeta in *. rewrite Ha, Hs, Ha', Hs'.
    rewrite !List.filter_app, length_app. split; [by rewrite <-app_assoc|lia].
Qed.

(** X15.  A scan returns the parsed findings of all rule files in scan
    order, less those in skipped files, and counts the latter: no finding
    in a denylisted file is returned, and none is lost otherwise. *)
Theorem scan_returns_the_findings_not_skipped
    (scans : list (RuleFile * list RawFinding)) (st : ScanLocals) :
  scan_all scans = Some st →
  let parsed :=
    flat_map (λ scan, map (λ raw, parse_finding raw scan.1) scan.2) scans in
  all_findings st
  = List.filter (λ f, negb (_should_skip_file (file_path f))) parsed ∧
  skipped_count st
  = Z.of_nat
      (length (List.filter (λ f, _should_skip_file (file_path f)) parsed)) ∧
  Z.of_nat (length (all_findings st)) + skipped_count st
  = Z.of_nat (length parsed).
Proof.
  intros Hscan parsed.
  assert (all_findings st
          = List.filter (λ f, negb (_should_skip_file (file_path f))) parsed ∧
          skipped_count st
          = Z.of_nat
              (length
                 (List.filter (λ f, _should_skip_file (file_path f)) parsed)))
    as [Ha Hs].
  { subst parsed. destruct scans as [|scan scans]; [done|].
    injection Hscan as <-.
    destruct (scan_all_fold (scan :: scans)
                {| all_findings := []; skipped_count := 0 |}) as [Ha Hs].
    split; [exact Ha|]. refine (eq_trans Hs _). cbn [skipped_count]. lia. }
  split; [done|]. split; [done|].
  rewrite Ha, Hs. clearbody parsed. clear.
  induction parsed as [|f parsed IH]; simpl; [done|].
  destruct (_should_skip_file (file_path f)); simpl; lia.
Qed.

End ScannerFacts.

(** * The text fallback of the scanner *)

Section TextFacts.
Import PyStr StrProps Models Scanner TextOutput TextProps.

Lemma string_app_nil_r (s : string) : s +:+ "" = s.
Proof.
  induction s as [|c s IH]; [done|].
  change (String c (s +:+ "") = String c s). by rewrite IH.
Qed.

Lemma all_chars_app (p : ascii → bool) (a b : string) :
  all_chars p (a +:+ b) = all_chars p a && all_chars p b.
Proof.
  induction a as [|c a IH]; [done|].
  change (p c && all_chars p (a +:+ b)
          = p c && all_chars p a && all_chars p b).
  by rewrite IH, andb_assoc.
Qed.

Lemma all_chars_weaken (p q : ascii → bool) (s : string) :
  (∀ c, p c = true → q c = true) →
  all_chars p s = true → all_chars q s = true.
Proof.
  intros Hpq. induction s as [|c s IH]; simpl; [done|].
  intros [Hc Hs]%andb_prop. by rewrite (Hpq _ Hc), IH.
Qed.

Lemma int_from_app (acc : Z) (a b : string) :
  int_from acc (a +:+ b) = int_from (int_from acc a) b.
Proof.
  revert acc. induction a as [|c a IH]; intros acc; [done|].
  change (String c a +:+ b) with (String c (a +:+ b)).
  cbn [int_from]. by rewrite IH.
Qed.

Lemma pretty_N_char_digit (x : N) :
  (x < 10)%N →
  is_digit (pretty_N_char x) = true ∧
  Z.of_N (N_of_ascii (pretty_N_char x)) - 48 = Z.of_N x.
Proof.
  intros Hx.
  assert (x = 0 ∨ x = 1 ∨ x = 2 ∨ x = 3 ∨ x = 4 ∨ x = 5 ∨ x = 6 ∨ x = 7
          ∨ x = 8 ∨ x = 9)%N as Hcases by lia.
  destruct_or!; subst x; by vm_compute.
Qed.

(** [pretty_N_go x s] puts the digits of [x] before [s]. *)
Lemma pretty_N_go_digits (x : N) (s : string) :
  ∃ d, pretty_N_go x s = d +:+ s ∧ all_chars is_digit d = true ∧
       int_from 0 d = Z.of_N x ∧ (x ≠ 0%N → d ≠ "").
Proof.
  revert s. induction (N.lt_wf_0 x) as [x _ IH]; intros s.
  destruct (decide (x = 0)%N) as [->|Hx].
  { exists "". by rewrite pretty_N_go_0. }
  rewrite pretty_N_go_step by lia.
  destruct (IH (x `div` 10)%N) with
    (s := String (pretty_N_char (x `mod` 10)) s)
    as (d & Hgo & Hdigits & Hval & _); [apply N.div_lt; lia|].
  destruct (pretty_N_char_digit (x `mod` 10)%N) as [Hdigit Hvalue];
    [apply N.mod_lt; lia|].
  exists (d +:+ String (pretty_N_char (x `mod` 10)) "").
  split; [by rewrite Hgo, string_app_assoc|].
  split; [rewrite all_chars_app, Hdigits; simpl; by rewrite Hdigit|].
  split.
  - rewrite int_from_app, Hval. cbn [int_from]. rewrite Hvalue.
    rewrite (N.div_mod x 10) at 3 by lia. lia.
  - intros _. by destruct d.
Qed.

Lemma str_int_digits (n : Z) :
  0 ≤ n →
  all_chars is_digit (str_int n) = true ∧ int (str_int n) = n ∧
  str_int n ≠ "".
Proof.
  intros Hn. unfold str_int, pretty, pretty_Z.
  destruct n as [|p|p]; [done| |lia].
  unfold pretty, pretty_positive, pretty, pretty_N.
  case_decide; [done|].
  destruct (pretty_N_go_digits (N.pos p) "") as (d & -> & Hd & Hval & Hne).
  rewrite string_app_nil_r. unfold int. rewrite Hval.
  split; [done|]. split; [done|]. by apply Hne.
Qed.

Lemma span_digits_app (d rest : string) :
  all_chars is_digit d = true → no_digit_ahead rest →
  span_digits (d +:+ rest) = (d, rest).
Proof.
  intros Hd Hrest. induction d as [|c d IH].
  - destruct rest as [|c rest]; [done|]. simpl in *. by rewrite Hrest.
  - change (String c d +:+ rest) with (String c (d +:+ rest)).
    simpl in *. apply andb_prop in Hd as [Hc Hd].
    by rewrite Hc, IH.
Qed.

Lemma match_position_shown (line_num col : Z) :
  0 ≤ line_num → 0 ≤ col →
  match_position (":" +:+ str_int line_num +:+ ":" +:+ str_int col)
  = Some (line_num, col).
Proof.
  intros Hl Hc.
  destruct (str_int_digits line_num Hl) as (Hld & Hlv & Hlne).
  destruct (str_int_digits col Hc) as (Hcd & Hcv & Hcne).
  change (":" +:+ str_int line_num +:+ ":" +:+ str_int col)
    with (String ":" (str_int line_num +:+ String ":" (str_int col))).
  unfold match_position.
  change (Ascii.eqb ":" ":") with true. cbv iota.
  rewrite span_digits_app by done.
  destruct (str_int line_num) as [|c1 d1] eqn:El; [done|].
  change (Ascii.eqb ":" ":") with true. cbv iota.
  rewrite <-(string_app_nil_r (str_int col)).
  rewrite span_digits_app by (by rewrite ?string_app_nil_r).
  rewrite ?string_app_nil_r.
  destruct (str_int col) as [|c2 d2] eqn:Ec; [done|].
  by rewrite Hlv, Hcv.
Qed.

Lemma match_from_skips (group1 path tail : string) (line_num col : Z) :
  all_chars (λ c, negb (Ascii.eqb c ":") && negb (Ascii.eqb c LF)) path
  = true →
  match_position tail = Some (line_num, col) →
  match_from group1 (path +:+ tail) = Some (group1 +:+ path, line_num, col).
Proof.
  intros Hpath Htail. revert group1.
  induction path as [|c path IH]; intros group1.
  - rewrite string_app_nil_r. change ("" +:+ tail) with tail.
    destruct tail; [done|]. cbn [match_from]. by rewrite Htail.
  - change (String c path +:+ tail) with (String c (path +:+ tail)).
    simpl in Hpath. apply andb_prop in Hpath as [Hc Hpath].
    apply andb_prop in Hc as [Hcolon Hlf].
    cbn [match_from match_position].
    destruct (Ascii.eqb c ":"); [done|].
    destruct (Ascii.eqb c LF); [done|].
    rewrite IH by done. by rewrite string_app_assoc.
Qed.

Lemma match_location_shown (path : string) (line_num col : Z) :
  path ≠ "" →
  all_chars (λ c, negb (Ascii.eqb c ":") && negb (Ascii.eqb c LF)) path
  = true →
  0 ≤ line_num → 0 ≤ col →
  match_location (path +:+ ":" +:+ str_int line_num +:+ ":" +:+ str_int col)
  = Some (path, line_num, col).
Proof.
  intros Hne Hpath Hl Hc. destruct path as [|c path]; [done|].
  change (String c path +:+ ":" +:+ str_int line_num +:+ ":" +:+ str_int col)
    with (String c (path +:+ ":" +:+ str_int line_num +:+ ":"
                    +:+ str_int col)).
  simpl in Hpath. apply andb_prop in Hpath as [Hc' Hpath].
  apply andb_prop in Hc' as [_ Hlf].
  unfold match_location. destruct (Ascii.eqb c LF); [done|].
  by rewrite (match_from_skips _ _ _ line_num col)
    by (done || by apply match_position_shown).
Qed.

Lemma lstrip_length (p : ascii → bool) (s : string) :
  lstrip p s = s ∨ (String.length (lstrip p s) < String.length s)%nat.
Proof.
  induction s as [|c s IH]; simpl; [by left|].
  destruct (p c); [|by left]. right. destruct IH as [->|]; lia.
Qed.

Lemma rstrip_length (p : ascii → bool) (s : string) :
  (String.length (rstrip p s) ≤ String.length s)%nat.
Proof.
  induction s as [|c s IH]; simpl; [done|].
  destruct (rstrip p s); [destruct (p c)|]; simpl in *; lia.
Qed.

Lemma strip_fixed (p : ascii → bool) (s : string) :
  strip p s = s → lstrip p s = s ∧ rstrip p s = s.
Proof.
  unfold strip. intros Hs.
  destruct (lstrip_length p s) as [Hl|Hl].
  - by rewrite Hl in Hs.
  - pose proof (rstrip_length p (lstrip p s)). rewrite Hs in *. lia.
Qed.

Lemma rstrip_fixed (p : ascii → bool) (s : string) :
  all_chars (λ c, negb (p c)) s = true → rstrip p s = s.
Proof.
  induction s as [|c s IH]; simpl; [done|].
  intros [Hc Hs]%andb_prop. rewrite IH by done.
  destruct s; [|done]. by destruct (p c).
Qed.

Lemma rstrip_app (p : ascii → bool) (a b : string) :
  rstrip p b = b → b ≠ "" → rstrip p (a +:+ b) = a +:+ b.
Proof.
  intros Hb Hne. induction a as [|c a IH]; [done|].
  change (String c a +:+ b) with (String c (a +:+ b)).
  cbn [rstrip]. rewrite IH. destruct a, b; done.
Qed.

Lemma is_digit_no_space (c : ascii) :
  is_digit c = true → negb (isspace c) = true.
Proof. by destruct c as [[] [] [] [] [] [] [] []]. Qed.

Lemma location_line_stripped (path : string) (line_num col : Z) :
  starts_with_no_space path = true → 0 ≤ col →
  strip isspace (path +:+ ":" +:+ str_int line_num +:+ ":" +:+ str_int col)
  = path +:+ ":" +:+ str_int line_num +:+ ":" +:+ str_int col.
Proof.
  intros Hpath Hc. destruct (str_int_digits col Hc) as (Hcd & _ & Hcne).
  unfold strip.
  assert (lstrip isspace
            (path +:+ ":" +:+ str_int line_num +:+ ":" +:+ str_int col)
          = path +:+ ":" +:+ str_int line_num +:+ ":" +:+ str_int col) as ->.
  { destruct path as [|c path]; [done|]. simpl in Hpath.
    change (String c path +:+ ":" +:+ str_int line_num +:+ ":"
            +:+ str_int col)
      with (String c (path +:+ ":" +:+ str_int line_num +:+ ":"
                      +:+ str_int col)).
    cbn [lstrip]. by destruct (isspace c). }
  rewrite <-!string_app_assoc. apply rstrip_app; [|done].
  apply rstrip_fixed. revert Hcd. apply all_chars_weaken.
  apply is_digit_no_space.
Qed.

Lemma bar_line_stripped (snippet : string) :
  strip isspace snippet = snippet →
  strip isspace ("|" +:+ snippet) = "|" +:+ snippet.
Proof.
  intros [_ Hr]%strip_fixed.
  change ("|" +:+ snippet) with (String "|" snippet).
  unfold strip. change (lstrip isspace (String "|" snippet))
    with (String "|" snippet).
  cbn [rstrip]. rewrite Hr. by destruct snippet.
Qed.

Lemma parse_lines_block (rule_file : RuleFile)
    (location message_line bar_line : string) (rest : list string)
    (path : string) (line_num col : Z) :
  match_location (strip isspace location) = Some (path, line_num, col) →
  startswith (strip isspace message_line) "|" = false →
  startswith (strip isspace bar_line) "|" = true →
  parse_lines rule_file (location :: message_line :: bar_line :: rest)
  = text_finding rule_file path line_num col (strip isspace message_line)
      (strip isspace (slice_from_1 bar_line))
    :: parse_lines rule_file rest.
Proof.
  intros Hloc Hmsg Hbar. cbn [parse_lines].
  rewrite Hloc. cbv zeta. by rewrite Hmsg, Hbar.
Qed.

Lemma parse_finding_text (rule_file : RuleFile) (f : AstGrepFinding) :
  rule_id f = stem rule_file →
  (framework f, language f) = _extract_framework_and_language rule_file →
  parse_finding
    (text_finding rule_file (file_path f) (line_number f) (column f)
       (message f) (code_snippet f)) rule_file
  = f.
Proof.
  intros Hid Hfw. unfold parse_finding. rewrite <-Hfw.
  destruct f; simpl in *. by rewrite Hid.
Qed.

Lemma parse_lines_blocks (rule_file : RuleFile)
    (findings : list AstGrepFinding) :
  Forall (printable rule_file) findings →
  map (λ raw, parse_finding raw rule_file)
      (parse_lines rule_file (flat_map block findings))
  = findings.
Proof.
  induction 1 as [|f findings Hf _ IH]; [done|].
  destruct Hf as (Hstart & Hpath & Hl & Hc & Hmsg & Hnobar & _ & Hsnip & _
                  & Hid & Hfw).
  cbn [flat_map]. unfold block at 1. cbn [app].
  rewrite (parse_lines_block _ _ _ _ _ (file_path f) (line_number f)
             (column f)).
  - cbn [map]. rewrite IH, Hmsg.
    change (slice_from_1 ("|" +:+ code_snippet f)) with (code_snippet f).
    rewrite Hsnip. by rewrite parse_finding_text.
  - rewrite location_line_stripped by done.
    apply match_location_shown; try done.
    intros Heq. by rewrite Heq in Hstart.
  - by rewrite Hmsg.
  - rewrite bar_line_stripped by done. apply (prefix_app "|").
Qed.

Lemma split_one_line (s : string) :
  one_line s = true → split LF s = [s].
Proof.
  induction s as [|c s IH]; simpl; [done|].
  intros [Hc Hs]%andb_prop. rewrite IH by done.
  by destruct (Ascii.eqb c LF).
Qed.

Lemma concat_cons (sep x y : string) (l : list string) :
  String.concat sep (x :: y :: l)
  = x +:+ sep +:+ String.concat sep (y :: l).
Proof. done. Qed.

Lemma split_join (lines : list string) :
  lines ≠ [] → Forall (λ s, one_line s = true) lines →
  split LF (join (String LF "") lines) = lines.
Proof.
  intros Hne Hlines. unfold join.
  induction Hlines as [|x lines Hx Hlines IH]; [done|].
  destruct lines as [|y lines]; [by apply split_one_line|].
  rewrite concat_cons.
  change (x +:+ String LF "" +:+ String.concat (String LF "") (y :: lines))
    with (x +:+ String LF (String.concat (String LF "") (y :: lines))).
  rewrite split_app, IH by done. by rewrite split_one_line.
Qed.

Lemma rstrip_join (p : ascii → bool) (sep : string)
    (lines : list string) (last : string) :
  rstrip p last = last → last ≠ "" →
  rstrip p (String.concat sep (lines ++ [last]))
  = String.concat sep (lines ++ [last]) ∧
  String.concat sep (lines ++ [last]) ≠ "".
Proof.
  intros Hlast Hne. induction lines as [|x lines [IH IHne]]; [done|].
  cbn [app]. destruct (lines ++ [last]) as [|y rest] eqn:Happ.
  { by destruct lines. }
  rewrite concat_cons. split.
  - rewrite <-string_app_assoc. by apply rstrip_app.
  - destruct x; [|done]. destruct sep; [|done]. done.
Qed.

Lemma block_lines (rule_file : RuleFile) (f : AstGrepFinding) :
  printable rule_file f → Forall (λ s, one_line s = true) (block f).
Proof.
  intros (Hstart & Hpath & Hl & Hc & _ & _ & Hmsg & _ & Hsnip & _).
  destruct (str_int_digits _ Hl) as (Hld & _).
  destruct (str_int_digits _ Hc) as (Hcd & _).
  assert (∀ d, all_chars is_digit d = true → one_line d = true) as Hdigits.
  { intros d. apply all_chars_weaken.
    intros c. by destruct c as [[] [] [] [] [] [] [] []]. }
  assert (one_line (file_path f) = true) as Hone.
  { revert Hpath. apply all_chars_weaken. by intros c [_ ?]%andb_prop. }
  apply Hdigits in Hld, Hcd. unfold one_line in *.
  unfold block. repeat apply Forall_cons_2; [|done|done|done].
  rewrite !all_chars_app. by rewrite Hone, Hld, Hcd.
Qed.

Lemma lstrip_starts (s t : string) :
  starts_with_no_space s = true → lstrip isspace (s +:+ t) = s +:+ t.
Proof.
  intros Hs. destruct s as [|c s]; [done|]. simpl in Hs.
  change (String c s +:+ t) with (String c (s +:+ t)).
  cbn [lstrip]. by destruct (isspace c).
Qed.

Lemma render_lstripped (rule_file : RuleFile) (f : AstGrepFinding)
    (findings : list AstGrepFinding) :
  printable rule_file f →
  lstrip isspace (render (f :: findings)) = render (f :: findings).
Proof.
  intros (Hstart & _).
  assert (∃ t, render (f :: findings) = file_path f +:+ t) as [t ->].
  { unfold render, join. cbn [flat_map]. unfold block at 1. cbn [app].
    rewrite concat_cons, !string_app_assoc. eauto. }
  by apply lstrip_starts.
Qed.

Lemma render_rstripped (rule_file : RuleFile) (f : AstGrepFinding)
    (findings : list AstGrepFinding) :
  printable rule_file f →
  rstrip isspace (render (findings ++ [f])) = render (findings ++ [f]).
Proof.
  intros (_ & _ & _ & _ & _ & _ & _ & Hsnip & _).
  unfold render, join. rewrite flat_map_app. cbn [flat_map].
  set (lines := flat_map block findings). unfold block.
  rewrite app_nil_r.
  change [?a; ?b; ?c] with ([a; b] ++ [c]). rewrite app_assoc.
  eapply proj1, rstrip_join.
  - apply strip_fixed. by apply bar_line_stripped.
  - done.
Qed.

Lemma render_stripped (rule_file : RuleFile)
    (findings : list AstGrepFinding) :
  Forall (printable rule_file) findings →
  strip isspace (render findings) = render findings.
Proof.
  intros Hall. destruct findings as [|f findings]; [done|].
  unfold strip.
  rewrite (render_lstripped rule_file)
    by (by apply Forall_cons in Hall as [? _]).
  destruct (exists_last (l := f :: findings)) as (init & g & Heq); [done|].
  rewrite Heq in *. apply Forall_app in Hall as [_ Hg].
  apply Forall_inv in Hg. by apply (render_rstripped rule_file).
Qed.

(** X16.  The text fallback reads back what is shown: findings written
    as location, message and barred snippet, one block after the other,
    are parsed into these findings again, in order. *)
Theorem text_fallback_reads_back_findings (rule_file : RuleFile)
    (findings : list AstGrepFinding) :
  Forall (printable rule_file) findings →
  map (λ raw, parse_finding raw rule_file)
      (_parse_text_output (render findings) rule_file)
  = findings.
Proof.
  intros Hall. unfold _parse_text_output.
  rewrite (render_stripped rule_file) by done.
  destruct findings as [|f findings]; [done|].
  unfold render. rewrite split_join.
  - by apply parse_lines_blocks.
  - done.
  - apply Forall_flat_map. eapply Forall_impl; [exact Hall|].
    apply block_lines.
Qed.

Lemma parse_lines_bound (rule_file : RuleFile) (n : nat)
    (lines : list string) :
  (length lines ≤ n)%nat →
  (2 * length (parse_lines rule_file lines) ≤ length lines + 1)%nat.
Proof.
  revert lines. induction n as [|n IH]; intros lines Hlen.
  { destruct lines; [simpl; lia|simpl in Hlen; lia]. }
  destruct lines as [|line rest]; [simpl; lia|].
  cbn [parse_lines length] in *.
  destruct (match_location (strip isspace line)) as [[[path l] c]|].
  - destruct rest as [|next rest1]; [simpl; lia|].
    destruct rest1 as [|next2 rest2]; [simpl; lia|].
    cbn [length] in *. cbv zeta.
    destruct (startswith (strip isspace next2) "|"); cbn [length].
    + specialize (IH rest2). lia.
    + specialize (IH (next2 :: rest2)). cbn [length] in IH. lia.
  - specialize (IH rest). lia.
Qed.

(** X17.  The text fallback takes the line after a location as its
    message without looking at it, so every finding but a last one costs
    two lines: the lines of an output hold at most half as many findings,
    rounded up, and two locations in a row with nothing else give at most
    one finding. *)
Theorem text_fallback_pairs_location_with_next_line (output : string)
    (rule_file : RuleFile) :
  (2 * length (_parse_text_output output rule_file)
   ≤ length (split LF (strip isspace output)) + 1)%nat.
Proof. unfold _parse_text_output. by eapply parse_lines_bound. Qed.

End TextFacts.

(** * The code reader, the limit and the report filter *)

Section ReaderFacts.
Import PyStr Models Scanner Report Outcomes ReaderProps.

Lemma py_slice_in_range {A : Type} (l : list A) (start stop : Z) :
  0 ≤ start ≤ stop → stop ≤ Z.of_nat (length l) →
  py_slice l start stop
  = take (Z.to_nat stop - Z.to_nat start) (drop (Z.to_nat start) l).
Proof.
  intros Hs He. unfold py_slice, slice_index.
  destruct (Z.ltb_spec start 0), (Z.ltb_spec stop 0); try lia.
  rewrite !Z.min_l by lia. f_equal. lia.
Qed.

Lemma py_slice_window {A : Type} (l : list A) (start stop : Z) :
  0 ≤ start ≤ stop → stop ≤ Z.of_nat (length l) →
  l = take (Z.to_nat start) l ++ py_slice l start stop
      ++ drop (Z.to_nat stop) l ∧
  Z.of_nat (length (py_slice l start stop)) = stop - start.
Proof.
  intros Hs He. rewrite py_slice_in_range by done. split.
  - rewrite <-(take_drop (Z.to_nat start) l) at 1. f_equal.
    rewrite <-(take_drop (Z.to_nat stop - Z.to_nat start)
                 (drop (Z.to_nat start) l)) at 1.
    f_equal. rewrite drop_drop. f_equal. lia.
  - rewrite length_take, length_drop. lia.
Qed.

(** X18.  The context of a finding is a window of the file around its
    line: the line itself, the [context_lines] lines before it and the
    [context_lines] lines after it, or as many as the file has. *)
Theorem code_context_is_window_around_line
    (files : string → option (list string)) (file_path : string)
    (line_number context_lines : Z) (lines : list string) :
  files file_path = Some lines →
  0 ≤ context_lines →
  1 ≤ line_number ≤ Z.of_nat (length lines) →
  ∃ pre before target after post,
    lines = pre ++ before ++ target :: after ++ post ∧
    Z.of_nat (length (pre ++ before)) = line_number - 1 ∧
    Z.of_nat (length before) = Z.min context_lines (line_number - 1) ∧
    Z.of_nat (length after)
    = Z.min context_lines (Z.of_nat (length lines) - line_number) ∧
    read_code_context files file_path line_number context_lines
    = Some (String.concat "" (before ++ target :: after)).
Proof.
  intros Hfile Hc Hline. unfold read_code_context. rewrite Hfile.
  set (start := Z.max 0 (line_number - context_lines - 1)).
  set (stop := Z.min (Z.of_nat (length lines))
                     (line_number + context_lines)).
  destruct (py_slice_window lines start stop) as [Hlines Hlen];
    [lia|lia|].
  set (window := py_slice lines start stop) in *.
  set (k := Z.to_nat (line_number - 1 - start)).
  destruct (drop k window) as [|target after] eqn:Hdrop.
  { apply (f_equal length) in Hdrop. rewrite length_drop in Hdrop.
    simpl in Hdrop. lia. }
  assert (window = take k window ++ target :: after) as Hwindow.
  { by rewrite <-Hdrop, take_drop. }
  assert (length after = (length window - k - 1)%nat) as Hafter.
  { apply (f_equal length) in Hdrop. rewrite length_drop in Hdrop.
    simpl in Hdrop. lia. }
  exists (take (Z.to_nat start) lines), (take k window), target, after,
         (drop (Z.to_nat stop) lines).
  split; [|split; [|split; [|split]]].
  - rewrite Hlines at 1. rewrite Hwindow at 1.
    by rewrite <-!app_assoc.
  - rewrite length_app, !length_take. lia.
  - rewrite length_take. lia.
  - lia.
  - by rewrite <-Hwindow.
Qed.

(** X19.  Nothing is read for a finding whose file cannot be opened, is
    empty, or ends before the window begins: the reader gives [None] or
    the empty string, which the triage loops pass over. *)
Theorem finding_outside_file_is_unreadable
    (files : string → option (list string)) (context_lines : Z)
    (finding : AstGrepFinding) :
  outside_file files context_lines finding →
  unreadable (code_reader files context_lines) finding.
Proof.
  unfold outside_file, unreadable, code_reader, read_code_context.
  destruct (files (file_path finding)) as [lines|]; [|by left].
  intros Hout. right. f_equal.
  assert (py_slice lines
            (Z.max 0 (line_number finding - context_lines - 1))
            (Z.min (Z.of_nat (length lines))
                   (line_number finding + context_lines)) = []) as ->;
    [|done].
  unfold py_slice, slice_index. apply length_zero_iff_nil.
  rewrite length_take, length_drop.
  destruct Hout as [->|[Hc Hlen]]; simpl length.
  - lia.
  - destruct (Z.ltb_spec (Z.max 0 (line_number finding - context_lines - 1))
                0),
             (Z.ltb_spec (Z.min (Z.of_nat (length lines))
                                (line_number finding + context_lines)) 0);
      lia.
Qed.

(** X20.  [--max-findings] keeps a prefix of the findings: the first
    [n] for a positive [n], all of them without the option or with 0;
    a negative [n] drops the last [-n] instead. *)
Theorem max_findings_keeps_a_prefix {A : Type} (max_findings : option Z)
    (findings : list A) :
  let kept := limit_findings max_findings findings in
  let n := default 0 max_findings in
  (∃ dropped, findings = kept ++ dropped) ∧
  Z.of_nat (length kept)
  = if n =? 0 then Z.of_nat (length findings)
    else if 0 <? n then Z.min n (Z.of_nat (length findings))
    else Z.max 0 (Z.of_nat (length findings) + n).
Proof.
  unfold limit_findings.
  destruct max_findings as [n|]; simpl default;
    [|split; [exists []; by rewrite app_nil_r|done]].
  destruct (Z.eqb_spec n 0) as [->|Hn]; simpl negb; cbn [andb].
  { split; [exists []; by rewrite app_nil_r|done]. }
  destruct (Z.gtb_spec (Z.of_nat (length findings)) n) as [Hgt|Hle].
  - unfold py_slice, slice_index. change (0 <? 0) with false. cbv iota.
    rewrite (Z.min_l 0) by lia. rewrite Z.sub_0_r.
    change (Z.to_nat 0) with 0%nat.
    rewrite drop_0. split.
    + eexists. symmetry. apply take_drop.
    + rewrite length_take.
      destruct (Z.ltb_spec n 0), (Z.ltb_spec 0 n); lia.
  - split; [exists []; by rewrite app_nil_r|].
    destruct (Z.ltb_spec 0 n); lia.
Qed.

Lemma RiskLevel_of_value_inv (value : string) (r : RiskLevel) :
  RiskLevel_of_value value = Some r → RiskLevel_value r = value.
Proof.
  unfold RiskLevel_of_value. intros Hfind.
  apply List.find_some in Hfind as [_ Heq]. by apply String.eqb_eq.
Qed.

(** X21.  No value of [--min-risk] brings an INFO finding into the
    detailed report: [info] is read as [low]; with it, the report lists
    every finding that is not INFO. *)
Theorem report_never_lists_info (min_risk : string)
    (findings shown : list FunctionAnalysis) :
  filtered_findings min_risk findings = Some shown →
  Forall (λ f, risk_level f ≠ INFO) shown ∧
  filtered_findings "info" findings
  = Some (List.filter (λ f, negb (RiskLevel_eqb (risk_level f) INFO))
                      findings).
Proof.
  intros Hshown. split.
  - unfold filtered_findings in Hshown.
    destruct (RiskLevel_of_value _) as [level|] eqn:Hlevel; [|done].
    injection Hshown as <-.
    assert (level ≠ INFO) as Hinfo.
    { intros ->. apply RiskLevel_of_value_inv in Hlevel.
      destruct (String.eqb_spec min_risk "info") as [->|Hne]; [done|].
      by apply Hne. }
    apply List.Forall_forall. intros f [_ Hf]%List.filter_In.
    apply Z.leb_le in Hf. intros Heq. rewrite Heq in Hf.
    destruct level; simpl in Hf; done || lia.
  - unfold filtered_findings. simpl. f_equal.
    apply List.filter_ext. intros f. by destruct (risk_level f).
Qed.

End ReaderFacts.

(** * The fast tier *)

Section FastTier.
Import PyStr StrProps Models Agent.
Context {W : Type} `{Provider W}.

(** X22.  When the fast tier answers, its verdict is whether the reply
    holds the word FALSE, in any letter case and anywhere: the test for
    FALSE_POSITIVE adds nothing, and a reply such as "real, not a false
    alarm" filters the finding out. *)
Theorem fast_tier_filters_on_the_word_false (finding : AstGrepFinding)
    (code_context output : string) (w w' : W) :
  fast_filter_run (quick_prompt finding code_context) w = (Ok output, w') →
  fast_check_false_positive finding code_context w
  = (Ok (contains "FALSE" (upper output)), w').
Proof.
  intros Hrun. unfold fast_check_false_positive. rewrite Hrun.
  cbv zeta. by rewrite verdict_holds_false.
Qed.

Lemma slice_to_app (head tail : string) :
  slice_to (String.length head) (head +:+ tail) = head.
Proof.
  induction head as [|c head IH]; [by destruct tail|].
  change (String c head +:+ tail) with (String c (head +:+ tail)).
  simpl. by rewrite IH.
Qed.

(** X23.  The fast tier judges a finding by its file path, framework,
    language and the first 500 characters of its code context: what
    comes after them, and the line, the rule and the message of the
    finding, change neither the verdict nor the provider world. *)
Theorem fast_tier_sees_500_characters (finding finding' : AstGrepFinding)
    (head tail tail' : string) (w : W) :
  String.length head = 500%nat →
  file_path finding = file_path finding' →
  framework finding = framework finding' →
  language finding = language finding' →
  fast_check_false_positive finding (head +:+ tail) w
  = fast_check_false_positive finding' (head +:+ tail') w.
Proof.
  intros Hlen Hpath Hfw Hlang.
  assert (quick_prompt finding (head +:+ tail)
          = quick_prompt finding' (head +:+ tail')) as Hprompt.
  { unfold quick_prompt. rewrite Hpath, Hfw, Hlang.
    pose proof (slice_to_app head tail) as Ht.
    pose proof (slice_to_app head tail') as Ht'.
    rewrite Hlen in Ht, Ht'. by rewrite Ht, Ht'. }
  unfold fast_check_false_positive. by rewrite Hprompt.
Qed.

End FastTier.

(** * The properties on sample runs *)

Section SampleRuns.
Import PyStr Domain Models DeploymentParser Agent Scenario Props Outcomes.
Import Scanner TextOutput TextProps Report ReaderProps Samples.

Lemma batch_fails_only_through_summary_witness :
  [users_finding] ≠ [] ∧
  (triage_all_findings reader [users_finding] None
     (script [Ok "REAL"] [Ok (analysis_of "list_users" HIGH)]
             [Raise (Exception "timeout")])).1.1
  = Raise (Exception "timeout").
Proof.
  assert ([users_finding] ≠ []) as Hne by done.
  split; [exact Hne|].
  apply (batch_fails_only_through_summary reader [users_finding] None
           (script [Ok "REAL"] [Ok (analysis_of "list_users" HIGH)]
                   [Raise (Exception "timeout")])
           (Exception "timeout") Hne).
  by vm_compute.
Defined.

Lemma quota_notice_means_exactly_N_witness :
  0 < 1 ∧
  count_if is_quota_notice
    (stdout (batch_loop reader (Some 1) 2 [users_finding; feed_finding] 1
               batch_start one_real_handler).1) = 1 ∧
  real_handler_count
    (batch_loop reader (Some 1) 2 [users_finding; feed_finding] 1
       batch_start one_real_handler).1 = 1.
Proof.
  assert (0 < 1) as Hpos by lia.
  assert (count_if is_quota_notice
            (stdout (batch_loop reader (Some 1) 2
                       [users_finding; feed_finding] 1
                       batch_start one_real_handler).1) = 1) as Hnotice
    by (by vm_compute).
  split; [exact Hpos|]. split; [exact Hnotice|].
  exact (proj1 (quota_notice_means_exactly_N reader 1 2
                  [users_finding; feed_finding] one_real_handler
                  Hpos Hnotice)).
Defined.

Lemma unreadable_finding_is_ignored_witness :
  unreadable (code_reader sample_files 1) feed_finding ∧
  results
    (batch_loop (code_reader sample_files 1) None 2
       ([] ++ feed_finding :: [route_at "app/api/users.py" 3]) 1
       batch_start one_real_handler).1
  = results
      (batch_loop (code_reader sample_files 1) None 1
         ([] ++ [route_at "app/api/users.py" 3]) 1
         batch_start one_real_handler).1.
Proof.
  assert (unreadable (code_reader sample_files 1) feed_finding) as Hun
    by (by left).
  split; [exact Hun|].
  exact (proj1 (unreadable_finding_is_ignored (code_reader sample_files 1)
                  None 2 1 [] [route_at "app/api/users.py" 3] feed_finding
                  one_real_handler Hun)).
Defined.

Lemma report_lists_risk_levels_in_turn_witness :
  prioritize_findings sample_analyses
    (script [] [] [Ok (narrative "two handlers")])
  = (Ok (sample_report "two handlers"), after_calls ["summary"]) ∧
  findings (sample_report "two handlers")
  = List.filter (risk_is CRITICAL) sample_analyses
    ++ List.filter (risk_is HIGH) sample_analyses
    ++ List.filter (risk_is MEDIUM) sample_analyses
    ++ List.filter (risk_is LOW) sample_analyses
    ++ List.filter (risk_is INFO) sample_analyses.
Proof.
  assert (prioritize_findings sample_analyses
            (script [] [] [Ok (narrative "two handlers")])
          = (Ok (sample_report "two handlers"), after_calls ["summary"]))
    as Hrun by (vm_compute; reflexivity).
  split; [exact Hrun|].
  exact (report_lists_risk_levels_in_turn _ _ _ _ Hrun).
Defined.

Lemma high_priority_findings_come_first_witness :
  prioritize_findings sample_analyses
    (script [] [] [Ok (narrative "review upload")])
  = (Ok (sample_report "review upload"), after_calls ["summary"]) ∧
  Forall (λ a, is_high_priority a = false)
         (drop (Z.to_nat (high_priority_count (sample_report "review upload")))
               (findings (sample_report "review upload"))).
Proof.
  assert (prioritize_findings sample_analyses
            (script [] [] [Ok (narrative "review upload")])
          = (Ok (sample_report "review upload"), after_calls ["summary"]))
    as Hrun by (vm_compute; reflexivity).
  split; [exact Hrun|].
  exact (proj1 (proj2 (high_priority_findings_come_first _ _ _ _ Hrun))).
Defined.

Lemma resolver_ignores_case_and_separator_witness :
  isascii "app/api/users.py" = true ∧
  get_deployment_context sample_model (replace "/" "\" "app/api/users.py")
  = get_deployment_context sample_model "app/api/users.py" ∧
  get_deployment_context sample_model (upper "app/api/users.py")
  = get_deployment_context sample_model "app/api/users.py".
Proof.
  assert (isascii "app/api/users.py" = true) as Hascii by reflexivity.
  split; [exact Hascii|].
  destruct (resolver_ignores_case_and_separator sample_model
              "app/api/users.py" Hascii) as (Hupper & _ & Hslash).
  split; [exact Hslash|exact Hupper].
Defined.

Lemma file_under_declared_path_resolves_witness :
  ("api", service_at ["app/api/"]) ∈ services sample_model ∧
  "app/api/" ∈ default [] (repository_paths (service_at ["app/api/"])) ∧
  nonempty_fragment "app/api/" = true ∧
  is_Some (get_deployment_context sample_model
             ("/srv/checkout" +:+ "/" +:+ normalize_repo_path "app/api/"
              +:+ "/" +:+ "users.py")).
Proof.
  assert (("api", service_at ["app/api/"]) ∈ services sample_model) as Hs
    by (apply list_elem_of_further, list_elem_of_here).
  assert ("app/api/" ∈ default [] (repository_paths (service_at ["app/api/"])))
    as Hp by apply list_elem_of_here.
  assert (nonempty_fragment "app/api/" = true) as Hne by reflexivity.
  split; [exact Hs|]. split; [exact Hp|]. split; [exact Hne|].
  exact (proj2 (file_under_declared_path_resolves sample_model "api"
                  (service_at ["app/api/"]) "app/api/" "/srv/checkout"
                  "users.py" Hs Hp Hne)).
Defined.

Lemma context_belongs_to_a_declaring_service_witness :
  get_deployment_context sample_model "app/api/users.py"
  = Some sample_context ∧
  ∃ n info repo_path,
    (n, info) ∈ services sample_model ∧
    repo_path ∈ default [] (repository_paths info) ∧
    fragment_matches "app/api/users.py" repo_path = true ∧
    nonempty_fragment repo_path = true ∧
    service_name sample_context = default n (name info).
Proof.
  assert (get_deployment_context sample_model "app/api/users.py"
          = Some sample_context) as Hctx by (vm_compute; reflexivity).
  split; [exact Hctx|].
  destruct (context_belongs_to_a_declaring_service _ _ _ Hctx)
    as (n & info & repo_path & Hs & Hp & Hm & Hne & Hname & _).
  by exists n, info, repo_path.
Defined.

Lemma trust_zone_is_first_zone_listing_service_witness :
  get_deployment_context sample_model "app/api/users.py"
  = Some sample_context ∧
  ∃ matched,
    matched_service_name (find_service sample_model "app/api/users.py")
    = Some matched ∧
    trust_zone sample_context =
      match List.find
              (λ zone, bool_decide (matched ∈ default [] (tz_services zone)))
              (trust_zones sample_model) with
      | Some zone => tz_name zone
      | None => None
      end.
Proof.
  assert (get_deployment_context sample_model "app/api/users.py"
          = Some sample_context) as Hctx by (vm_compute; reflexivity).
  split; [exact Hctx|].
  exact (trust_zone_is_first_zone_listing_service _ _ _ Hctx).
Defined.

Lemma skip_decision_ignores_case_witness :
  isascii "src/Build/App.min.JS" = true ∧
  _should_skip_file (upper "src/Build/App.min.JS")
  = _should_skip_file "src/Build/App.min.JS".
Proof.
  assert (isascii "src/Build/App.min.JS" = true) as Hascii by reflexivity.
  split; [exact Hascii|].
  exact (proj1 (skip_decision_ignores_case "src/Build/App.min.JS" Hascii)).
Defined.

Lemma skipped_path_is_skipped_anywhere_witness :
  _should_skip_file "app/vendor/flask/app.py" = true ∧
  _should_skip_file ("/srv/checkout" +:+ "/" +:+ "app/vendor/flask/app.py")
  = true.
Proof.
  assert (_should_skip_file "app/vendor/flask/app.py" = true) as Hskip
    by (vm_compute; reflexivity).
  split; [exact Hskip|].
  exact (skipped_path_is_skipped_anywhere "/srv/checkout"
           "app/vendor/flask/app.py" Hskip).
Defined.

Lemma scan_returns_the_findings_not_skipped_witness :
  scan_all sample_scan
  = Some {| all_findings := [route_at "app/api/users.py" 3];
            skipped_count := 1 |} ∧
  [route_at "app/api/users.py" 3]
  = List.filter (λ f, negb (_should_skip_file (file_path f)))
      (flat_map (λ scan, map (λ raw, parse_finding raw scan.1) scan.2)
                sample_scan).
Proof.
  assert (scan_all sample_scan
          = Some {| all_findings := [route_at "app/api/users.py" 3];
                    skipped_count := 1 |}) as Hscan
    by (vm_compute; reflexivity).
  split; [exact Hscan|].
  exact (proj1 (scan_returns_the_findings_not_skipped _ _ Hscan)).
Defined.

Lemma text_fallback_reads_back_findings_witness :
  Forall (printable fastapi_rule)
         [route_at "app/api/users.py" 3; route_at "app/api/feed.py" 22] ∧
  map (λ raw, parse_finding raw fastapi_rule)
      (_parse_text_output
         (render [route_at "app/api/users.py" 3;
                  route_at "app/api/feed.py" 22]) fastapi_rule)
  = [route_at "app/api/users.py" 3; route_at "app/api/feed.py" 22].
Proof.
  assert (Forall (printable fastapi_rule)
            [route_at "app/api/users.py" 3; route_at "app/api/feed.py" 22])
    as Hall.
  { repeat apply Forall_cons_2; [| |apply Forall_nil_2];
      unfold printable; simpl; repeat split; try reflexivity; lia. }
  split; [exact Hall|].
  exact (text_fallback_reads_back_findings _ _ Hall).
Defined.

Lemma code_context_is_window_around_line_witness :
  sample_files "app/api/users.py" = Some users_file ∧
  0 ≤ 1 ∧ 1 ≤ 3 ≤ Z.of_nat (length users_file) ∧
  ∃ pre before target after post,
    users_file = pre ++ before ++ target :: after ++ post ∧
    Z.of_nat (length (pre ++ before)) = 3 - 1 ∧
    Z.of_nat (length before) = Z.min 1 (3 - 1) ∧
    Z.of_nat (length after) = Z.min 1 (Z.of_nat (length users_file) - 3) ∧
    read_code_context sample_files "app/api/users.py" 3 1
    = Some (String.concat "" (before ++ target :: after)).
Proof.
  assert (sample_files "app/api/users.py" = Some users_file) as Hfile
    by reflexivity.
  assert (0 ≤ 1) as Hc by lia.
  assert (1 ≤ 3 ≤ Z.of_nat (length users_file)) as Hline
    by (simpl; lia).
  split; [exact Hfile|]. split; [exact Hc|]. split; [exact Hline|].
  exact (code_context_is_window_around_line sample_files "app/api/users.py"
           3 1 users_file Hfile Hc Hline).
Defined.

Lemma finding_outside_file_is_unreadable_witness :
  outside_file sample_files 1 users_finding ∧
  unreadable (code_reader sample_files 1) users_finding.
Proof.
  assert (outside_file sample_files 1 users_finding) as Hout.
  { unfold outside_file. simpl. right. lia. }
  split; [exact Hout|].
  exact (finding_outside_file_is_unreadable _ _ _ Hout).
Defined.

Lemma report_never_lists_info_witness :
  filtered_findings "high" sample_analyses
  = Some [analysis_of "upload" CRITICAL] ∧
  Forall (λ f, risk_level f ≠ INFO) [analysis_of "upload" CRITICAL].
Proof.
  assert (filtered_findings "high" sample_analyses
          = Some [analysis_of "upload" CRITICAL]) as Hshown
    by (vm_compute; reflexivity).
  split; [exact Hshown|].
  exact (proj1 (report_never_lists_info _ _ _ Hshown)).
Defined.

Lemma fast_tier_filters_on_the_word_false_witness :
  fast_filter_run (quick_prompt users_finding "def list_users(request):")
    (script [Ok "Real handler, not a false alarm"] [] [])
  = (Ok "Real handler, not a false alarm", after_calls ["fast"]) ∧
  fast_check_false_positive users_finding "def list_users(request):"
    (script [Ok "Real handler, not a false alarm"] [] [])
  = (Ok true, after_calls ["fast"]).
Proof.
  assert (fast_filter_run
            (quick_prompt users_finding "def list_users(request):")
            (script [Ok "Real handler, not a false alarm"] [] [])
          = (Ok "Real handler, not a false alarm", after_calls ["fast"]))
    as Hrun by reflexivity.
  split; [exact Hrun|].
  exact (fast_tier_filters_on_the_word_false _ _ _ _ _ Hrun).
Defined.

Lemma fast_tier_sees_500_characters_witness :
  String.length licence_header = 500%nat ∧
  fast_check_false_positive (finding_at "app/api/users.py" 10)
    (licence_header +:+ "def list_users(request):")
    (script [Ok "REAL"] [] [])
  = fast_check_false_positive (finding_at "app/api/users.py" 99)
      (licence_header +:+ "SETTINGS = {}")
      (script [Ok "REAL"] [] []).
Proof.
  assert (String.length licence_header = 500%nat) as Hlen
    by (vm_compute; reflexivity).
  split; [exact Hlen|].
  exact (fast_tier_sees_500_characters
           (finding_at "app/api/users.py" 10)
           (finding_at "app/api/users.py" 99) licence_header
           "def list_users(request):" "SETTINGS = {}"
           (script [Ok "REAL"] [] []) Hlen eq_refl eq_refl eq_refl).
Defined.

End SampleRuns.
